(** * Paygent: a shallow embedding of the pipeline orchestration core

    The development follows the TypeScript sources of the repository:
    - [services/spending.ts]   the Spend Ledger ([SpendingTracker]);
    - [agent/planner.ts]       the Plan Builder ([TaskPlanner]);
    - [agent/orchestrator.ts]  the Pipeline Orchestrator and Step Executor;
    - [services/payment.ts]    the Payment Provider adapter;
    - the HTTP server           the bounded history log ([addToHistory]).

    Conventions of the embedding.
    - A [bigint] is a [Z]; a [number] used as a count or index is a [Z] or a
      [nat]; a [number] that arrives from outside and is compared or sliced
      by (the step ceiling) is a [Number.t]: a rational, an infinity or
      [NaN]; a time stamp ([Date]) is the [Z] of its epoch milliseconds.
    - A JavaScript string is a [string]; the character classes [\w] and [\s]
      and the case maps are those of the ASCII range, and what is proved of
      the case maps is proved for text of that range.
    - JSON data (request payloads, service responses) is the tree type [JSON];
      a number in it is carried by the text that it prints as; [undefined] is
      [None] of an [option].
    - An object used as a dictionary ([context.variables], [todayByService])
      is a [gmap string _] of its own properties, read through
      [ObjectPrototype.inherited] where the code reads [object[key]]: a key
      that is no own property finds the member of [Object.prototype] of that
      name.
    - [await]ed collaborators (catalog, model, wallet, HTTP) are read from an
      explicit [World]; a thrown [Error] is the [Throw] case of [outcome];
      the optional event callbacks append to a log of [Action]s. *)

From Stdlib Require Import ZArith QArith Qround Ascii DecimalString Lia.
From Stdlib Require Import DecimalZ DecimalPos.
From stdpp Require Import base option list gmap strings sorting.

Set Warnings "-register-all".
Local Open Scope Z_scope.

(** ** Strings *)

Definition lowerChar (c : ascii) : ascii :=
  let n := nat_of_ascii c in
  if ((65 <=? n) && (n <=? 90))%nat then ascii_of_nat (n + 32) else c.

(** [String.prototype.toLowerCase], as it is on text in the ASCII range: the
    letters [A] to [Z] are mapped, every other character of the range stays *)
Fixpoint toLowerCase (s : string) : string :=
  match s with
  | EmptyString => EmptyString
  | String c s' => String (lowerChar c) (toLowerCase s')
  end.

Definition upperChar (c : ascii) : ascii :=
  let n := nat_of_ascii c in
  if ((97 <=? n) && (n <=? 122))%nat then ascii_of_nat (n - 32) else c.

(** [String.prototype.toUpperCase], as it is on text in the ASCII range *)
Fixpoint toUpperCase (s : string) : string :=
  match s with
  | EmptyString => EmptyString
  | String c s' => String (upperChar c) (toUpperCase s')
  end.

(** text in the ASCII range, on which the two case maps are as above *)
Fixpoint isASCII (s : string) : bool :=
  match s with
  | EmptyString => true
  | String c s' => (nat_of_ascii c <? 128)%nat && isASCII s'
  end.

(** [hay.includes(needle)] *)
Fixpoint includes (hay needle : string) : bool :=
  String.prefix needle hay ||
  match hay with
  | EmptyString => false
  | String _ hay' => includes hay' needle
  end.

(** the class [\w] *)
Definition isWordChar (c : ascii) : bool :=
  let n := nat_of_ascii c in
  (((48 <=? n) && (n <=? 57)) || ((65 <=? n) && (n <=? 90)) ||
   ((97 <=? n) && (n <=? 122)) || (n =? 95))%nat.

(** the class [\s] *)
Definition isSpaceChar (c : ascii) : bool :=
  let n := nat_of_ascii c in
  (((9 <=? n) && (n <=? 13)) || (n =? 32))%nat.

Fixpoint allWord (s : string) : bool :=
  match s with
  | EmptyString => true
  | String c s' => isWordChar c && allWord s'
  end.

(** [String(z)] of an integer *)
Definition decimal (z : Z) : string := NilZero.string_of_int (Z.to_int z).

(** ** Plain objects

    A plain object ([{}], [Record<string, _>]) read with [object[key]]
    answers with its own property when it has one and otherwise with the
    member that it inherits from [Object.prototype]. *)

Module ObjectPrototype.

(** the methods of [Object.prototype] (ECMAScript, with Annex B) *)
Definition methods : list string :=
  [ "constructor"; "hasOwnProperty"; "isPrototypeOf"; "propertyIsEnumerable";
    "toLocaleString"; "toString"; "valueOf";
    "__defineGetter__"; "__defineSetter__"; "__lookupGetter__"; "__lookupSetter__" ].

Inductive Inherited : Type :=
| Method (name : string)   (** a built-in function *)
| Prototype.               (** [__proto__]: the object [Object.prototype] itself *)

(** what [({})[key]] is, when it is not [undefined] *)
Definition inherited (key : string) : option Inherited :=
  if String.eqb key "__proto__" then Some Prototype
  else if existsb (String.eqb key) methods then Some (Method key)
  else None.

(** [String(f)] of a built-in function; [constructor] is the function [Object] *)
Definition nativeSource (name : string) : string :=
  "function " +:+ (if String.eqb name "constructor" then "Object" else name)
    +:+ "() { [native code] }".

(** the string that [+] makes of an inherited member *)
Definition toPrimitive (member : Inherited) : string :=
  match member with
  | Method name => nativeSource name
  | Prototype => "[object Object]"
  end.

End ObjectPrototype.

(** ** JSON values

    A number is carried by the text that [Number.prototype.toString] gives
    for it ([100], [0.5], [1e+21], [NaN]): the code tests payload numbers for
    truthiness and prints them, and does nothing else with them. *)

Inductive JSON : Type :=
| JNull
| JBool (b : bool)
| JNum (text : string)
| JStr (s : string)
| JArr (items : list JSON)
| JObj (entries : list (string * JSON)).

(** JavaScript truthiness, as used by [!data] and [result.data &&]. *)
Definition truthy (v : JSON) : bool :=
  match v with
  | JNull => false
  | JBool b => b
  | JNum text => negb (String.eqb text "0" || String.eqb text "NaN")
  | JStr s => negb (String.eqb s "")
  | JArr _ | JObj _ => true
  end.

(** the double quote character *)
Definition dquote : ascii := ascii_of_nat 34.

Definition hexDigit (n : nat) : ascii :=
  if (n <? 10)%nat then ascii_of_nat (48 + n) else ascii_of_nat (87 + n).

(** [QuoteJSONString], one character *)
Definition escapeChar (c : ascii) : string :=
  let n := nat_of_ascii c in
  if (n =? 34)%nat then String "\"%char (String dquote "")
  else if (n =? 92)%nat then "\\"
  else if (n =? 8)%nat then "\b"
  else if (n =? 9)%nat then "\t"
  else if (n =? 10)%nat then "\n"
  else if (n =? 12)%nat then "\f"
  else if (n =? 13)%nat then "\r"
  else if (n <? 32)%nat then
    "\u00" +:+ String (hexDigit (n / 16)) (String (hexDigit (n mod 16)) "")
  else String c "".

Fixpoint escapeString (s : string) : string :=
  match s with
  | EmptyString => EmptyString
  | String c s' => escapeChar c +:+ escapeString s'
  end.

Definition quoteJSONString (s : string) : string :=
  String dquote (escapeString s +:+ String dquote "").

Fixpoint joinComma (l : list string) : string :=
  match l with
  | [] => ""
  | [x] => x
  | x :: l' => x +:+ "," +:+ joinComma l'
  end.

(** [JSON.stringify(v)] without indentation *)
Fixpoint JSON_stringify (v : JSON) : string :=
  match v with
  | JNull => "null"
  | JBool true => "true"
  | JBool false => "false"
  | JNum text =>
      if String.eqb text "NaN" || String.eqb text "Infinity" || String.eqb text "-Infinity"
      then "null"
      else text
  | JStr s => quoteJSONString s
  | JArr items => "[" +:+ joinComma (map JSON_stringify items) +:+ "]"
  | JObj entries =>
      "{" +:+
      joinComma (map (fun kv => quoteJSONString (fst kv) +:+ ":" +:+ JSON_stringify (snd kv))
                     entries) +:+ "}"
  end.

(** ** Variable interpolation ([TaskOrchestrator.interpolateVariables]) *)

(** the longest run of [\w] characters at the head of [s], and the rest *)
Fixpoint takeWord (s : string) : string * string :=
  match s with
  | EmptyString => ("", "")
  | String c s' =>
      if isWordChar c
      then let (w, r) := takeWord s' in (String c w, r)
      else ("", s)
  end.

(** [s] without its first two characters when both are [c] *)
Definition stripTwo (c : ascii) (s : string) : option string :=
  match s with
  | String a (String b t) => if Ascii.eqb a c && Ascii.eqb b c then Some t else None
  | _ => None
  end.

(** One attempt of the pattern [/\{\{(\w+)\}\}/] at the head of [s]:
    the captured key when it matches there. *)
Definition matchPlaceholder (s : string) : option string :=
  match stripTwo "{" s with
  | Some t =>
      let (key, rest) := takeWord t in
      match key, stripTwo "}" rest with
      | String _ _, Some _ => Some key
      | _, _ => None
      end
  | None => None
  end.

(** [s.replace(/\{\{(\w+)\}\}/g, (_, key) => f key)]: a left-to-right scan;
    [skip] counts the characters of the current match still to be consumed. *)
Fixpoint replacePlaceholders (f : string → string) (skip : nat) (s : string) : string :=
  match s with
  | EmptyString => EmptyString
  | String c s' =>
      match skip with
      | S k => replacePlaceholders f k s'
      | O =>
          match matchPlaceholder s with
          | Some key => f key +:+ replacePlaceholders f (String.length key + 3) s'
          | None => String c (replacePlaceholders f 0 s')
          end
      end
  end.

Definition placeholder (key : string) : string := "{{" +:+ key +:+ "}}".

(** the replacement callback:
    [variables[key] !== undefined ? JSON.stringify(variables[key]) : `{{${key}}}`].
    [variables] holds the own properties of [context.variables]. For a key
    that is no own property the lookup answers with the inherited member:
    [JSON.stringify] of a function is [undefined], which [replace] inserts as
    the text [undefined], and [JSON.stringify(Object.prototype)] is [{}]. *)
Definition substitute (variables : gmap string JSON) (key : string) : string :=
  match variables !! key with
  | Some v => JSON_stringify v
  | None =>
      match ObjectPrototype.inherited key with
      | Some (ObjectPrototype.Method _) => "undefined"
      | Some ObjectPrototype.Prototype => "{}"
      | None => placeholder key
      end
  end.

Definition interpolateString (variables : gmap string JSON) (s : string) : string :=
  replacePlaceholders (substitute variables) 0 s.

(** the own properties of [result] after [result[key] = value] for the
    entries of an object, in their order: assigning to [__proto__] sets the
    prototype of [result] (or does nothing) and makes no own property *)
Definition assigned (entries : list (string * JSON)) : list (string * JSON) :=
  List.filter (fun kv => negb (String.eqb (fst kv) "__proto__")) entries.

Fixpoint interpolateVariables (variables : gmap string JSON) (data : JSON) : JSON :=
  if negb (truthy data) then data
  else
    match data with
    | JStr s => JStr (interpolateString variables s)
    | JArr items => JArr (map (interpolateVariables variables) items)
    | JObj entries =>
        JObj (assigned (map (fun kv => match kv with
                                       | (key, value) =>
                                           (key, interpolateVariables variables value)
                                       end) entries))
    | _ => data
    end.

(** [requestData] may be [undefined]: [if (!data) return data]. *)
Definition interpolateRequest (variables : gmap string JSON) (data : option JSON)
  : option JSON :=
  interpolateVariables variables <$> data.

(** the result of a call that may throw an [Error] with a message *)
Inductive outcome (A : Type) : Type :=
| Ok (a : A)
| Throw (message : string).
Arguments Ok {A} a.
Arguments Throw {A} message.

(** [a || b] on optional strings: the empty string is falsy *)
Definition orElse (a : option string) (b : string) : string :=
  match a with
  | Some s => if String.eqb s "" then b else s
  | None => b
  end.

(** ** The Spend Ledger ([services/spending.ts]) *)

Module Spending.

Record SpendingRecord : Type := {
  timestamp : Z;
  amount : Z;
  asset : string;
  serviceId : string;
  serviceName : string;
  txId : option string;
}.

Record SpendingTracker : Type := {
  records : list SpendingRecord;
  maxPerTask : Z;
  maxPerDay : Z;
}.

Record Verdict : Type := {
  allowed : bool;
  reason : option string;
}.

(** A value of [todayByService]: the [bigint] that its type declares, or the
    string that [+] makes when its left operand is no [bigint]. *)
Inductive Total : Type :=
| Amount (n : Z)
| Text (s : string).

Record TodaySummary : Type := {
  total : Z;
  transactions : nat;
  byService : gmap string Total;   (** the own properties of [todayByService] *)
}.

Record AllTimeSummary : Type := {
  allTimeTotal : Z;
  allTimeTransactions : nat;
}.

Record Limits : Type := {
  perTask : Z;
  perDay : Z;
  remainingToday : Z;
}.

Record SpendingSummary : Type := {
  today : TodaySummary;
  allTime : AllTimeSummary;
  limits : Limits;
}.

(** [new SpendingTracker(maxPerTask, maxPerDay)] *)
Definition new (maxPerTask maxPerDay : Z) : SpendingTracker :=
  {| records := []; maxPerTask := maxPerTask; maxPerDay := maxPerDay |}.

(** [recordPayment]; [now] is the [new Date()] taken by the call. *)
Definition recordPayment (now : Z) (amount : Z) (asset serviceId serviceName : string)
    (txId : option string) (t : SpendingTracker) : SpendingTracker :=
  {| records := records t ++
       [ {| timestamp := now; amount := amount; asset := asset;
            serviceId := serviceId; serviceName := serviceName; txId := txId |} ];
     maxPerTask := maxPerTask t;
     maxPerDay := maxPerDay t |}.

Definition isSTX (r : SpendingRecord) : bool := String.eqb (asset r) "STX".

(** [reduce((sum, r) => sum + r.amount, BigInt(0))] *)
Definition sumAmounts (l : list SpendingRecord) : Z :=
  fold_left (fun sum r => sum + amount r) l 0.

Section Host.

(** [startOfDay now] is the host's local midnight before [now]
    ([today.setHours(0, 0, 0, 0)]); [formatSTX] renders an amount through
    floating point ([utils/formatting.ts]) and only feeds messages. *)
Variable startOfDay : Z → Z.
Variable formatSTX : Z → string.

Definition getTodaySpent (now : Z) (t : SpendingTracker) : Z :=
  let today := startOfDay now in
  sumAmounts (List.filter (fun r => (today <=? timestamp r) && isSTX r) (records t)).

Definition canSpend (now : Z) (amount : Z) (t : SpendingTracker) : Verdict :=
  if maxPerTask t <? amount then
    {| allowed := false;
       reason := Some ("Amount " +:+ formatSTX amount +:+ " exceeds per-task limit of "
                       +:+ formatSTX (maxPerTask t)) |}
  else
    let todaySpent := getTodaySpent now t in
    if maxPerDay t <? todaySpent + amount then
      {| allowed := false;
         reason := Some ("Would exceed daily limit. Spent today: " +:+ formatSTX todaySpent
                         +:+ ", Limit: " +:+ formatSTX (maxPerDay t)) |}
    else {| allowed := true; reason := None |}.

(** [todayByService[name] || BigInt(0)]: an own property, or else the member
    inherited from [Object.prototype], which is truthy; [0n] and the empty
    string are falsy *)
Definition current (m : gmap string Total) (name : string) : Total :=
  match m !! name with
  | Some (Amount n) => Amount n
  | Some (Text s) => if String.eqb s "" then Amount 0 else Text s
  | None =>
      match ObjectPrototype.inherited name with
      | Some member => Text (ObjectPrototype.toPrimitive member)
      | None => Amount 0
      end
  end.

(** [left + amount]: the sum of two [bigint]s, or the concatenation of a
    string and [String(amount)] *)
Definition plus (left : Total) (amount : Z) : Total :=
  match left with
  | Amount n => Amount (n + amount)
  | Text s => Text (s +:+ decimal amount)
  end.

(** the loop filling [todayByService]:
    [todayByService[name] = (todayByService[name] || BigInt(0)) + record.amount];
    assigning a string to [__proto__] does nothing *)
Definition addByService (m : gmap string Total) (r : SpendingRecord) : gmap string Total :=
  if isSTX r
  then
    let name := serviceName r in
    if String.eqb name "__proto__" then m
    else <[name := plus (current m name) (amount r)]> m
  else m.

Definition getSummary (now : Z) (t : SpendingTracker) : SpendingSummary :=
  let today := startOfDay now in
  let todayRecords := List.filter (fun r => today <=? timestamp r) (records t) in
  let todayByService := fold_left addByService todayRecords ∅ in
  let todayTotal := getTodaySpent now t in
  let allTimeTotal := sumAmounts (List.filter isSTX (records t)) in
  {| today := {| total := todayTotal;
                 transactions := length todayRecords;
                 byService := todayByService |};
     allTime := {| allTimeTotal := allTimeTotal;
                   allTimeTransactions := length (records t) |};
     limits := {| perTask := maxPerTask t;
                  perDay := maxPerDay t;
                  remainingToday :=
                    if todayTotal <? maxPerDay t then maxPerDay t - todayTotal else 0 |} |}.

End Host.

(** one [recordPayment] call with the time at which it is made *)
Record PaymentCall : Type := {
  at_time : Z;
  paid : Z;
  paidAsset : string;
  toServiceId : string;
  toServiceName : string;
  withTxId : option string;
}.

Definition applyCall (t : SpendingTracker) (c : PaymentCall) : SpendingTracker :=
  recordPayment (at_time c) (paid c) (paidAsset c) (toServiceId c) (toServiceName c)
                (withTxId c) t.

(** the record that a call appends *)
Definition toRecord (c : PaymentCall) : SpendingRecord :=
  {| timestamp := at_time c; amount := paid c; asset := paidAsset c;
     serviceId := toServiceId c; serviceName := toServiceName c; txId := withTxId c |}.

(** The totals in the words of the specification: the sum of the amounts
    of the calls that satisfy [p]. *)
Definition paidWhere (p : PaymentCall → bool) (calls : list PaymentCall) : Z :=
  foldr (fun c acc => if p c then paid c + acc else acc) 0 calls.

Definition inSTX (c : PaymentCall) : bool := String.eqb (paidAsset c) "STX".

(** a tracker after a sequence of [recordPayment] calls *)
Definition afterCalls (maxPerTask maxPerDay : Z) (calls : list PaymentCall)
  : SpendingTracker :=
  fold_left applyCall calls (new maxPerTask maxPerDay).

End Spending.

(** ** The history log of the HTTP server ([addToHistory]) *)

Module History.

Definition MAX_HISTORY : nat := 50.

Section Entries.

(** [addToHistory] never inspects the entry it stores. *)
Context {HistoryEntry : Type}.

(** [pipelineHistory.unshift(entry)], then [pop()] beyond [MAX_HISTORY] *)
Definition addToHistory (entry : HistoryEntry) (pipelineHistory : list HistoryEntry)
  : list HistoryEntry :=
  let unshifted := entry :: pipelineHistory in
  if (MAX_HISTORY <? length unshifted)%nat then removelast unshifted else unshifted.

(** the module-level [pipelineHistory] after the entries of [inserted], oldest first *)
Definition afterInserting (inserted : list HistoryEntry) : list HistoryEntry :=
  fold_left (fun h e => addToHistory e h) inserted [].

(** [GET /api/history] answers the whole log. *)
Definition readHistory (pipelineHistory : list HistoryEntry) : list HistoryEntry :=
  pipelineHistory.

End Entries.

End History.

(** ** Regular expressions, as far as the planner's patterns need them *)

Module Regex.

Inductive regex : Type :=
| Fail
| Eps
| Chr (c : ascii)
| Space
| Seq (r1 r2 : regex)
| Alt (r1 r2 : regex)
| Star (r : regex).

(** [r?] *)
Definition Opt (r : regex) : regex := Alt r Eps.

(** a literal word *)
Fixpoint Lit (s : string) : regex :=
  match s with
  | EmptyString => Eps
  | String c s' => Seq (Chr c) (Lit s')
  end.

Fixpoint nullable (r : regex) : bool :=
  match r with
  | Fail => false
  | Eps => true
  | Chr _ => false
  | Space => false
  | Seq r1 r2 => nullable r1 && nullable r2
  | Alt r1 r2 => nullable r1 || nullable r2
  | Star _ => true
  end.

(** the residual of [r] after reading [c]; the patterns carry the [i] flag,
    so letters are compared up to case *)
Fixpoint deriv (c : ascii) (r : regex) : regex :=
  match r with
  | Fail => Fail
  | Eps => Fail
  | Chr a => if Ascii.eqb (lowerChar a) (lowerChar c) then Eps else Fail
  | Space => if isSpaceChar c then Eps else Fail
  | Seq r1 r2 =>
      if nullable r1
      then Alt (Seq (deriv c r1) r2) (deriv c r2)
      else Seq (deriv c r1) r2
  | Alt r1 r2 => Alt (deriv c r1) (deriv c r2)
  | Star r1 => Seq (deriv c r1) (Star r1)
  end.

(** some prefix of [s] matches [r] *)
Fixpoint matchesPrefix (r : regex) (s : string) : bool :=
  nullable r ||
  match s with
  | EmptyString => false
  | String c s' => matchesPrefix (deriv c r) s'
  end.

(** [r.test(s)]: some substring of [s] matches [r] *)
Fixpoint test (r : regex) (s : string) : bool :=
  matchesPrefix r s ||
  match s with
  | EmptyString => false
  | String _ s' => test r s'
  end.

End Regex.

(** ** The shared types ([types]), read off their uses *)

Module Price.
Record t : Type := { amount : Z; asset : string }.
End Price.

(** [price.amount] is kept as the integer that [BigInt(service.price.amount)] yields. *)
Module X402Service.
Record t : Type := {
  id : string;
  name : string;
  description : string;
  url : string;
  category : option string;
  tags : option (list string);
  price : Price.t;
}.
Definition cost (s : t) : Z := Price.amount (price s).
End X402Service.

Module TaskStep.
Record t : Type := {
  id : string;
  description : string;
  serviceId : string;
  requestData : option JSON;
  required : option bool;
  estimatedCost : Z;
}.
(** [step.required !== false] *)
Definition isRequired (s : t) : bool :=
  match required s with
  | Some false => false
  | _ => true
  end.
End TaskStep.

Module TaskPlan.
Record t : Type := {
  id : string;
  query : string;
  description : string;
  steps : list TaskStep.t;
  estimatedTotalCost : Z;
  outputTemplate : option string;
}.
End TaskPlan.

Module PaymentResult.
Record t : Type := {
  success : bool;
  txId : option string;
  amount : option Z;
  asset : option string;
  explorerUrl : option string;
  error : option string;
}.
End PaymentResult.

Module StepResult.
Record t : Type := {
  stepId : string;
  success : bool;
  data : option JSON;
  error : option string;
  service : option X402Service.t;
  payment : option PaymentResult.t;
  cost : option Z;
}.
End StepResult.

Module Timing.
Record t : Type := { startedAt : Z; completedAt : Z; durationMs : Z }.
End Timing.

Module PipelineResult.
Record t : Type := {
  pipelineId : string;
  query : string;
  success : bool;
  error : option string;
  plan : option TaskPlan.t;
  stepResults : list StepResult.t;
  finalOutput : option JSON;
  totalCost : Z;
  timing : Timing.t;
}.
End PipelineResult.

Module ExecutionContext.
Record t : Type := {
  pipelineId : string;
  query : string;
  variables : gmap string JSON;
  results : list StepResult.t;
  totalSpent : Z;
}.
End ExecutionContext.

(** [a.find(p)] *)
Definition find {A : Type} (p : A → bool) (l : list A) : option A := List.find p l.

(** [[...l].sort(cmp)]: the sort is stable; [cmp a b] is the sign the
    comparator returns. *)
Fixpoint insertSorted {A : Type} (cmp : A → A → Z) (x : A) (sorted : list A) : list A :=
  match sorted with
  | [] => [x]
  | y :: rest => if cmp x y <=? 0 then x :: sorted else y :: insertSorted cmp x rest
  end.

Definition sort {A : Type} (cmp : A → A → Z) (l : list A) : list A :=
  foldr (insertSorted cmp) [] l.

(** [l.slice(0, n)] for an integer [n] *)
Definition slice0 {A : Type} (n : Z) (l : list A) : list A :=
  if n <? 0
  then take (Z.to_nat (Z.of_nat (length l) + n)) l
  else take (Z.to_nat n) l.

(** ** Numbers

    A [number] that the code compares with a length and slices by (the step
    ceiling [maxSteps]): a finite value is a rational, as every double is,
    beside the two infinities and [NaN]. *)

Module Number.

Inductive t : Type :=
| Finite (q : Q)
| PosInfinity
| NegInfinity
| NaN.

Definition ofZ (n : Z) : t := Finite (inject_Z n).

(** truthiness: [0] and [NaN] are falsy *)
Definition truthy (x : t) : bool :=
  match x with
  | Finite q => negb (Qeq_bool q 0)
  | NaN => false
  | PosInfinity | NegInfinity => true
  end.

(** [x || d] for an optional number *)
Definition orDefault (o : option t) (d : t) : t :=
  match o with
  | Some x => if truthy x then x else d
  | None => d
  end.

(** [n >= x] for a length [n]; every comparison with [NaN] is false *)
Definition reachedBy (x : t) (n : nat) : bool :=
  match x with
  | Finite q => Qle_bool q (inject_Z (Z.of_nat n))
  | NegInfinity => true
  | PosInfinity | NaN => false
  end.

(** rounding toward zero *)
Definition truncate (q : Q) : Z := if Qle_bool 0 q then Qfloor q else Qceiling q.

(** [l.slice(0, x)]: the end index is [ToIntegerOrInfinity(x)], which is 0
    for [NaN] *)
Definition slice {A : Type} (x : t) (l : list A) : list A :=
  match x with
  | Finite q => slice0 (truncate q) l
  | PosInfinity => l
  | NegInfinity | NaN => []
  end.

End Number.

(** [s.split(/\s+/)] *)
Fixpoint splitSpaces (current : string) (inSeparator : bool) (s : string) : list string :=
  match s with
  | EmptyString => [current]
  | String c s' =>
      if isSpaceChar c
      then if inSeparator
           then splitSpaces "" true s'
           else current :: splitSpaces "" true s'
      else splitSpaces (current +:+ String c "") false s'
  end.

(** [sum(step.estimatedCost for step in plan.steps)] *)
Definition sumCosts (steps : list TaskStep.t) : Z :=
  foldr (fun s acc => TaskStep.estimatedCost s + acc) 0 steps.

(** the sum of the prices of a list of services *)
Definition sumPrices (services : list X402Service.t) : Z :=
  foldr (fun s acc => X402Service.cost s + acc) 0 services.

(** ** The Plan Builder ([agent/planner.ts]) *)

Module AIStep.
(** one element of [parsed.steps] in the model's JSON answer *)
Record t : Type := {
  id : option string;
  description : string;
  serviceId : string;
  requestData : option JSON;
  required : option bool;
}.
End AIStep.

Module Planner.
Import Regex.

(** What the chat completion call of [createAIPlan] comes to. *)
Inductive AIReply : Type :=
| AIFailure (message : string)
    (** the request throws, the content is empty, or it is not the JSON asked for *)
| AIError (reason : string)
    (** [{ "error": reason }] *)
| AIPlan (description : string) (steps : list AIStep.t) (outputTemplate : option string).

Record Options : Type := {
  maxBudget : option Z;
  maxSteps : option Number.t;
}.

Definition planId (now : Z) : string := "plan-" +:+ decimal now.

Definition stepName (index : nat) : string := "step-" +:+ decimal (Z.of_nat index + 1).

(** the [map] callback of [createAIPlan] *)
Definition aiStep (services : list X402Service.t) (index : nat) (step : AIStep.t)
  : TaskStep.t :=
  let service := find (fun s => String.eqb (X402Service.id s) (AIStep.serviceId step)) services in
  let cost := match service with Some s => X402Service.cost s | None => 0 end in
  {| TaskStep.id := orElse (AIStep.id step) (stepName index);
     TaskStep.description := AIStep.description step;
     TaskStep.serviceId := AIStep.serviceId step;
     TaskStep.requestData := AIStep.requestData step;
     TaskStep.required := Some (match AIStep.required step with Some false => false | _ => true end);
     TaskStep.estimatedCost := cost |}.

Definition createAIPlan (reply : AIReply) (now : Z) (query : string)
    (services : list X402Service.t) (maxSteps : Number.t) (maxBudget : Z)
  : outcome (option TaskPlan.t) :=
  match reply with
  | AIFailure message => Throw message
  | AIError _ => Ok None
  | AIPlan description aiSteps outputTemplate =>
      let steps := imap (aiStep services) aiSteps in
      let totalCost := fold_left (fun total s => total + TaskStep.estimatedCost s) steps 0 in
      Ok (Some {| TaskPlan.id := planId now;
                  TaskPlan.query := query;
                  TaskPlan.description := description;
                  TaskPlan.steps := steps;
                  TaskPlan.estimatedTotalCost := totalCost;
                  TaskPlan.outputTemplate := outputTemplate |})
  end.

Record TaskPattern : Type := {
  pattern : regex;
  category : string;
  keywords : list string;
}.

(** [(news|headlines?|updates?)] *)
Definition newsWords : regex :=
  Alt (Lit "news")
      (Alt (Seq (Lit "headline") (Opt (Chr "s")))
           (Seq (Lit "update") (Opt (Chr "s")))).

(** [stacks?] *)
Definition stacksWord : regex := Seq (Lit "stack") (Opt (Chr "s")).

Definition spaced (r1 r2 : regex) : regex := Seq r1 (Seq (Star Space) r2).

Definition taskPatterns : list TaskPattern :=
  [ {| pattern := spaced (Lit "bitcoin") newsWords;
       category := "news"; keywords := ["bitcoin"; "news"] |};
    {| pattern := spaced stacksWord newsWords;
       category := "news"; keywords := ["stacks"; "news"] |};
    {| pattern := newsWords;
       category := "news"; keywords := ["news"] |};
    {| pattern := spaced (Lit "bitcoin") (Lit "price");
       category := "market"; keywords := ["bitcoin"; "price"; "btc"] |};
    {| pattern := Alt (spaced (Lit "stx") (Lit "price")) (spaced stacksWord (Lit "price"));
       category := "market"; keywords := ["stx"; "price"] |};
    {| pattern := spaced (Lit "blockchain") (Lit "info");
       category := "blockchain"; keywords := ["blockchain"; "info"] |};
    {| pattern := Alt (Lit "summarize") (Lit "summary");
       category := "ai"; keywords := ["summarize"; "ai"] |};
    {| pattern := Alt (Lit "sentiment") (Lit "analyze");
       category := "ai"; keywords := ["sentiment"; "analysis"] |};
    {| pattern := Lit "translate";
       category := "ai"; keywords := ["translate"; "language"] |};
    {| pattern := Alt (Lit "tweet") (Alt (Lit "post") (Lit "social"));
       category := "generation"; keywords := ["tweet"; "generate"; "social"] |};
    {| pattern := Lit "report";
       category := "generation"; keywords := ["report"; "generate"] |} ].

(** the loop collecting [detectedTasks] *)
Definition detectTasks (queryLower : string) : list TaskPattern :=
  fold_left
    (fun detected task =>
       if test (pattern task) queryLower
       then if existsb (fun t => String.eqb (category t) (category task)) detected
            then detected
            else detected ++ [task]
       else detected)
    taskPatterns [].

(** The score of one service for one task. [selected] holds the positions in
    [services] of the services already chosen: [selectedServices.includes]
    compares object identities. *)
Definition taskScore (task : TaskPattern) (selected : list nat) (index : nat)
    (service : X402Service.t) : Z :=
  let nameLower := toLowerCase (X402Service.name service) in
  let descLower := toLowerCase (X402Service.description service) in
  let tags := map toLowerCase (default [] (X402Service.tags service)) in
  let score :=
    match X402Service.category service with
    | Some c => if String.eqb c (category task) then 10 else 0
    | None => 0
    end in
  let score :=
    fold_left
      (fun score keyword =>
         let score := if includes nameLower keyword then score + 5 else score in
         let score := if includes descLower keyword then score + 3 else score in
         if existsb (String.eqb keyword) tags then score + 4 else score)
      (keywords task) score in
  if existsb (Nat.eqb index) selected then 0 else score.

(** the inner loop: [(bestService, bestScore)] *)
Definition bestFor (task : TaskPattern) (selected : list nat)
    (services : list X402Service.t) : option (nat * X402Service.t) * Z :=
  fold_left
    (fun best entry =>
       let score := taskScore task selected (fst entry) (snd entry) in
       if snd best <? score then (Some entry, score) else best)
    (imap pair services) (None, 0).

(** the outer loop over [tasksToExecute]: [(selectedServices, runningCost)] *)
Definition selectForTasks (tasks : list TaskPattern) (services : list X402Service.t)
    (maxBudget : Z) : list (nat * X402Service.t) * Z :=
  fold_left
    (fun acc task =>
       let '(selected, runningCost) := acc in
       match bestFor task (map fst selected) services with
       | (Some best, bestScore) =>
           if 0 <? bestScore then
             let cost := X402Service.cost (snd best) in
             if runningCost + cost <=? maxBudget
             then (selected ++ [best], runningCost + cost)
             else acc
           else acc
       | (None, _) => acc
       end)
    tasks ([], 0).

(** the cheapest-service fallback: [(selectedServices, runningCost)], or [null] *)
Definition pickCheapest (services : list X402Service.t) (maxBudget : Z)
  : option (list X402Service.t * Z) :=
  match sort (fun a b => X402Service.cost a - X402Service.cost b) services with
  | cheapest :: _ =>
      if X402Service.cost cheapest <=? maxBudget
      then Some ([cheapest], X402Service.cost cheapest)
      else None
  | [] => None
  end.

Definition lastResultInput : JSON := JObj [("input", JStr "{{lastResult}}")].

Definition makeStep (index : nat) (service : X402Service.t) : TaskStep.t :=
  {| TaskStep.id := stepName index;
     TaskStep.description :=
       "Use " +:+ X402Service.name service +:+ ": " +:+ X402Service.description service;
     TaskStep.serviceId := X402Service.id service;
     TaskStep.requestData := if (0 <? index)%nat then Some lastResultInput else None;
     TaskStep.required := Some true;
     TaskStep.estimatedCost := X402Service.cost service |}.

(** the common tail of both heuristic planners *)
Definition makePlan (now : Z) (query : string) (selected : list X402Service.t)
    (runningCost : Z) : TaskPlan.t :=
  let steps := imap makeStep selected in
  {| TaskPlan.id := planId now;
     TaskPlan.query := query;
     TaskPlan.description :=
       "Execute " +:+ decimal (Z.of_nat (length steps)) +:+ " service(s) to complete the task";
     TaskPlan.steps := steps;
     TaskPlan.estimatedTotalCost := runningCost;
     TaskPlan.outputTemplate := None |}.

Definition finishPlan (now : Z) (query : string) (services : list X402Service.t)
    (maxBudget : Z) (selection : list X402Service.t * Z) : option TaskPlan.t :=
  match fst selection with
  | [] =>
      match pickCheapest services maxBudget with
      | Some (selected, runningCost) => Some (makePlan now query selected runningCost)
      | None => None
      end
  | _ :: _ => Some (makePlan now query (fst selection) (snd selection))
  end.

(** the word score of [createKeywordBasedPlan] *)
Definition keywordScore (words : list string) (service : X402Service.t) : Z :=
  let nameLower := toLowerCase (X402Service.name service) in
  let descLower := toLowerCase (X402Service.description service) in
  let tags := map toLowerCase (default [] (X402Service.tags service)) in
  fold_left
    (fun score word =>
       let score := if includes nameLower word then score + 3 else score in
       let score := if includes descLower word then score + 2 else score in
       if existsb (fun t => includes t word) tags then score + 2 else score)
    words 0.

(** score descending, then price ascending *)
Definition byScoreThenPrice (a b : X402Service.t * Z) : Z :=
  if negb (snd b =? snd a) then snd b - snd a
  else X402Service.cost (fst a) - X402Service.cost (fst b).

(** the loop taking the top services within budget, with its two [break]s *)
Fixpoint takeWithinBudget (maxSteps : Number.t) (maxBudget : Z)
    (scored : list (X402Service.t * Z))
    (selected : list X402Service.t) (runningCost : Z) : list X402Service.t * Z :=
  match scored with
  | [] => (selected, runningCost)
  | (service, score) :: rest =>
      if Number.reachedBy maxSteps (length selected) then (selected, runningCost)
      else if (score =? 0) && (0 <? length selected)%nat then (selected, runningCost)
      else
        let cost := X402Service.cost service in
        if runningCost + cost <=? maxBudget
        then takeWithinBudget maxSteps maxBudget rest (selected ++ [service]) (runningCost + cost)
        else takeWithinBudget maxSteps maxBudget rest selected runningCost
  end.

Definition createKeywordBasedPlan (now : Z) (query : string)
    (services : list X402Service.t) (maxSteps : Number.t) (maxBudget : Z)
  : option TaskPlan.t :=
  let queryLower := toLowerCase query in
  let words := List.filter (fun w => (3 <=? String.length w)%nat) (splitSpaces "" false queryLower) in
  let scoredServices := map (fun service => (service, keywordScore words service)) services in
  let sorted := sort byScoreThenPrice scoredServices in
  finishPlan now query services maxBudget
             (takeWithinBudget maxSteps maxBudget sorted [] 0).

Definition createHeuristicPlan (now : Z) (query : string)
    (services : list X402Service.t) (maxSteps : Number.t) (maxBudget : Z)
  : option TaskPlan.t :=
  let queryLower := toLowerCase query in
  let detectedTasks := detectTasks queryLower in
  match detectedTasks with
  | [] => createKeywordBasedPlan now query services maxSteps maxBudget
  | _ :: _ =>
      let tasksToExecute := Number.slice maxSteps detectedTasks in
      let '(selected, runningCost) := selectForTasks tasksToExecute services maxBudget in
      finishPlan now query services maxBudget (map snd selected, runningCost)
  end.

(** [options.maxBudget || BigInt(1000000)]: [0n] is falsy *)
Definition orDefault (o : option Z) (d : Z) : Z :=
  match o with
  | Some n => if n =? 0 then d else n
  | None => d
  end.

(** [createPlan]; [openai] tells whether an API key was configured, [reply]
    is what the model answers when asked. *)
Definition createPlan (openai : bool) (reply : AIReply) (now : Z) (query : string)
    (availableServices : list X402Service.t) (options : Options) : option TaskPlan.t :=
  let maxSteps := Number.orDefault (maxSteps options) (Number.ofZ 5) in
  let maxBudget := orDefault (maxBudget options) 1000000 in
  if openai then
    match createAIPlan reply now query availableServices maxSteps maxBudget with
    | Ok plan => plan
    | Throw _ => createHeuristicPlan now query availableServices maxSteps maxBudget
    end
  else createHeuristicPlan now query availableServices maxSteps maxBudget.

(** What both selection loops maintain: the running cost is the price of the
    selection, and a non-empty selection is within the budget. *)
Definition withinBudget (maxBudget : Z) (selection : list X402Service.t * Z) : Prop :=
  snd selection = sumPrices (fst selection)
  ∧ (fst selection ≠ [] → snd selection ≤ maxBudget).

End Planner.

(** ** The wallet and the Payment Provider ([services/wallet.ts], [services/payment.ts]) *)

Module Wallet.

Record Balances : Type := {
  stx : Z;
  sbtc : option Z;
  usdcx : option Z;
}.

Definition hasSufficientBalance (balances : Balances) (amount : Z) (asset : string) : bool :=
  let upper := toUpperCase asset in
  if String.eqb upper "STX" then amount + 10000 <=? stx balances
  else if String.eqb upper "SBTC" then amount <=? default 0 (sbtc balances)
  else if String.eqb upper "USDCX" then amount <=? default 0 (usdcx balances)
  else false.

End Wallet.

Module Payment.

Inductive Method : Type := GET | POST.

Record Request : Type := {
  method : Method;
  url : string;
  data : option JSON;
}.

(** What [client.request] comes to: a response, with its body and the
    transaction id decoded from the [x-payment-response] header, or an error
    with [error.response.data.error], [error.response.data.message] and
    [error.message]. *)
Inductive HttpOutcome : Type :=
| Responds (data : option JSON) (txId : option string)
| Fails (responseError responseMessage message : option string).

Inductive Network : Type := mainnet | testnet.

Definition getExplorerUrl (txId : string) (network : Network) : string :=
  let base := "https://explorer.hiro.so/txid" in
  let chain := match network with mainnet => "" | testnet => "?chain=testnet" end in
  base +:+ "/" +:+ txId +:+ chain.

Definition failed (message : string) : PaymentResult.t :=
  {| PaymentResult.success := false;
     PaymentResult.txId := None;
     PaymentResult.amount := None;
     PaymentResult.asset := None;
     PaymentResult.explorerUrl := None;
     PaymentResult.error := Some message |}.

Definition truthyData (data : option JSON) : bool :=
  match data with
  | Some v => truthy v
  | None => false
  end.

(** the request that [executePayment] sends for a service *)
Definition requestFor (service : X402Service.t) (requestData : option JSON) : Request :=
  let u := X402Service.url service in
  let isPostEndpoint :=
    includes u "/generate/" || includes u "/summarize" || includes u "/sentiment" ||
    includes u "/translate" || includes u "/echo" in
  let isGetEndpoint := includes u "/news/" || includes u "/price/" in
  let usePost := isPostEndpoint && negb isGetEndpoint in
  {| method := if usePost then POST else GET;
     url := u;
     data := if usePost
             then (if truthyData requestData then requestData
                   else Some (JObj [("query", JStr "execute")]))
             else None |}.

(** [executePayment]: [balances] is what the wallet reports and [http] what
    the paid request comes to. *)
Definition executePayment (network : Network) (balances : Wallet.Balances)
    (http : Request → HttpOutcome) (service : X402Service.t) (requestData : option JSON)
  : PaymentResult.t * option JSON :=
  let price := X402Service.price service in
  if negb (Wallet.hasSufficientBalance balances (Price.amount price) (Price.asset price))
  then (failed ("Insufficient " +:+ Price.asset price +:+ " balance"), None)
  else
    match http (requestFor service requestData) with
    | Responds responseData txId =>
        ({| PaymentResult.success := true;
            PaymentResult.txId := txId;
            PaymentResult.amount := Some (Price.amount price);
            PaymentResult.asset := Some (Price.asset price);
            PaymentResult.explorerUrl :=
              match txId with
              | Some tx => if String.eqb tx "" then None else Some (getExplorerUrl tx network)
              | None => None
              end;
            PaymentResult.error := None |},
         responseData)
    | Fails responseError responseMessage message =>
        (failed (orElse responseError
                   (orElse responseMessage (orElse message "Unknown payment error"))),
         None)
    end.

End Payment.

(** ** The pipeline history of the orchestrator *)

Module TaskMemory.

(** Modelled from the spec: [TaskMemory.savePipeline], whose source file
    ([agent/memory.ts]) is not at hand, as the History Log's [addEntry]:
    prepend, and evict the oldest beyond the capacity of 50. *)
Definition savePipeline (result : PipelineResult.t) (memory : list PipelineResult.t)
  : list PipelineResult.t :=
  take 50 (result :: memory).

End TaskMemory.

(** ** The Pipeline Orchestrator and Step Executor ([agent/orchestrator.ts]) *)

Module Orchestrator.

Record Config : Type := {
  maxSpendPerTask : Z;
  maxSpendPerDay : Z;
  openai : bool;
  network : Payment.Network;
}.

Record Options : Type := {
  maxBudget : option Z;
  maxSteps : option Number.t;
}.

(** What one run reads from outside the orchestrator. *)
Record World : Type := {
  pipelineId : string;                 (** [uuidv4()] *)
  startTime : Z;
  catalog : list X402Service.t;        (** [discovery.getAllServices()] *)
  aiReply : Planner.AIReply;
  planTime : Z;                        (** [Date.now()] in the plan id *)
  checkTime : Z;                       (** the clock at the affordability check *)
  balancesAt : nat → Wallet.Balances;  (** the wallet when step [i] pays *)
  httpAt : nat → Payment.Request → Payment.HttpOutcome;
  paidAt : nat → Z;                    (** the clock when step [i] is recorded *)
  endTime : Z;
}.

(** What a run does that an observer sees: the event callbacks of
    [OrchestratorEvents], and the calls to the Payment Provider. *)
Inductive Action : Type :=
| onPlanCreated (plan : TaskPlan.t)
| onStepStart (step : TaskStep.t) (index total : nat)
| onStepComplete (step : TaskStep.t) (result : StepResult.t)
| onStepError (step : TaskStep.t) (error : string)
| onPipelineComplete (result : PipelineResult.t)
| paymentCall (index : nat) (service : X402Service.t) (requestData : option JSON).

Record State : Type := {
  spending : Spending.SpendingTracker;
  memory : list PipelineResult.t;
  log : list Action;
}.

Definition emit (a : Action) (st : State) : State :=
  {| spending := spending st; memory := memory st; log := log st ++ [a] |}.

Definition stepKey (index : nat) : string := "step" +:+ decimal (Z.of_nat index + 1).

(** every failed step of [actions] was an optional one *)
Definition optionalErrors (actions : list Action) : Prop :=
  ∀ step message, In (onStepError step message) actions → TaskStep.isRequired step = false.

(** every step of [actions] has an index from [index] on *)
Definition indexedFrom (index : nat) (actions : list Action) : Prop :=
  (∀ step i total, In (onStepStart step i total) actions → (index ≤ i)%nat)
  ∧ (∀ i service requestData, In (paymentCall i service requestData) actions → (index ≤ i)%nat).

Section Run.

Variable startOfDay : Z → Z.
Variable formatSTX : Z → string.
Variable config : Config.
Variable world : World.

(** the orchestrator as its constructor leaves it *)
Definition init : State :=
  {| spending := Spending.new (maxSpendPerTask config) (maxSpendPerDay config);
     memory := [];
     log := [] |}.

Definition executeStep (index : nat) (step : TaskStep.t) (context : ExecutionContext.t)
    (allServices : list X402Service.t) (st : State) : State * outcome StepResult.t :=
  match find (fun s => String.eqb (X402Service.id s) (TaskStep.serviceId step)) allServices with
  | None => (st, Throw ("Service not found: " +:+ TaskStep.serviceId step))
  | Some service =>
      let requestData :=
        interpolateRequest (ExecutionContext.variables context) (TaskStep.requestData step) in
      let st := emit (paymentCall index service requestData) st in
      let '(payment, data) :=
        Payment.executePayment (network config) (balancesAt world index)
                               (httpAt world index) service requestData in
      if negb (PaymentResult.success payment)
      then (st, Throw (orElse (PaymentResult.error payment) "Payment failed"))
      else
        let spending' :=
          Spending.recordPayment (paidAt world index)
            (default 0 (PaymentResult.amount payment))
            (default "" (PaymentResult.asset payment))
            (X402Service.id service) (X402Service.name service)
            (PaymentResult.txId payment) (spending st) in
        ({| spending := spending'; memory := memory st; log := log st |},
         Ok {| StepResult.stepId := TaskStep.id step;
               StepResult.success := true;
               StepResult.data := data;
               StepResult.error := None;
               StepResult.service := Some service;
               StepResult.payment := Some payment;
               StepResult.cost := PaymentResult.amount payment |})
  end.

(** the body of the inner [try], after [executeStep] returned *)
Definition stepDone (index : nat) (result : StepResult.t) (context : ExecutionContext.t)
  : ExecutionContext.t :=
  let variables := ExecutionContext.variables context in
  {| ExecutionContext.pipelineId := ExecutionContext.pipelineId context;
     ExecutionContext.query := ExecutionContext.query context;
     ExecutionContext.variables :=
       match StepResult.data result with
       | Some d =>
           if StepResult.success result && truthy d
           then <["lastResult" := d]> (<[stepKey index := d]> variables)
           else variables
       | None => variables
       end;
     ExecutionContext.results := ExecutionContext.results context ++ [result];
     ExecutionContext.totalSpent :=
       ExecutionContext.totalSpent context + default 0 (StepResult.cost result) |}.

(** the [catch] of the inner [try]: the result it pushes *)
Definition errorResult (step : TaskStep.t) (message : string) : StepResult.t :=
  {| StepResult.stepId := TaskStep.id step;
     StepResult.success := false;
     StepResult.data := None;
     StepResult.error := Some message;
     StepResult.service := None;
     StepResult.payment := None;
     StepResult.cost := None |}.

Definition stepFailed (step : TaskStep.t) (message : string) (context : ExecutionContext.t)
  : ExecutionContext.t :=
  {| ExecutionContext.pipelineId := ExecutionContext.pipelineId context;
     ExecutionContext.query := ExecutionContext.query context;
     ExecutionContext.variables := ExecutionContext.variables context;
     ExecutionContext.results := ExecutionContext.results context ++ [errorResult step message];
     ExecutionContext.totalSpent := ExecutionContext.totalSpent context |}.

(** the [for] loop over [plan.steps], from step [index] on *)
Fixpoint runSteps (steps : list TaskStep.t) (index total : nat)
    (allServices : list X402Service.t) (context : ExecutionContext.t) (st : State)
  : State * outcome ExecutionContext.t :=
  match steps with
  | [] => (st, Ok context)
  | step :: rest =>
      let st := emit (onStepStart step index total) st in
      match executeStep index step context allServices st with
      | (st, Ok result) =>
          let context := stepDone index result context in
          let st := emit (onStepComplete step result) st in
          runSteps rest (S index) total allServices context st
      | (st, Throw message) =>
          let context := stepFailed step message context in
          let st := emit (onStepError step message) st in
          if TaskStep.isRequired step
          then (st, Throw ("Required step failed: " +:+ message))
          else runSteps rest (S index) total allServices context st
      end
  end.

(** the data of the last result with [r.success && r.data], or [null] *)
Definition lastSuccessful (context : ExecutionContext.t) : JSON :=
  match last (List.filter (fun r => StepResult.success r && Payment.truthyData (StepResult.data r))
                     (ExecutionContext.results context)) with
  | Some r => default JNull (StepResult.data r)
  | None => JNull
  end.

Definition compileFinalOutput (context : ExecutionContext.t) (plan : TaskPlan.t) : JSON :=
  match TaskPlan.outputTemplate plan with
  | Some template =>
      if negb (String.eqb template "")
      then interpolateVariables (ExecutionContext.variables context) (JStr template)
      else lastSuccessful context
  | None => lastSuccessful context
  end.

Definition timing : Timing.t :=
  {| Timing.startedAt := startTime world;
     Timing.completedAt := endTime world;
     Timing.durationMs := endTime world - startTime world |}.

(** the body of the outer [try] *)
Definition tryPipeline (query : string) (options : Options) (st : State)
  : State * outcome PipelineResult.t :=
  let maxBudget := Planner.orDefault (maxBudget options) (maxSpendPerTask config) in
  let maxSteps := Number.orDefault (maxSteps options) (Number.ofZ 5) in
  let allServices := catalog world in
  match allServices with
  | [] => (st, Throw "No x402 services available")
  | _ :: _ =>
      match Planner.createPlan (openai config) (aiReply world) (planTime world) query allServices
              {| Planner.maxBudget := Some maxBudget; Planner.maxSteps := Some maxSteps |} with
      | None => (st, Throw "Could not create execution plan for this task")
      | Some plan =>
          match TaskPlan.steps plan with
          | [] => (st, Throw "Could not create execution plan for this task")
          | _ :: _ =>
              let st := emit (onPlanCreated plan) st in
              let canAfford :=
                Spending.canSpend startOfDay formatSTX (checkTime world)
                                  (TaskPlan.estimatedTotalCost plan) (spending st) in
              if negb (Spending.allowed canAfford)
              then (st, Throw ("Budget exceeded: " +:+
                               default "undefined" (Spending.reason canAfford)))
              else
                let context :=
                  {| ExecutionContext.pipelineId := pipelineId world;
                     ExecutionContext.query := query;
                     ExecutionContext.variables := ∅;
                     ExecutionContext.results := [];
                     ExecutionContext.totalSpent := 0 |} in
                match runSteps (TaskPlan.steps plan) 0 (length (TaskPlan.steps plan))
                               allServices context st with
                | (st, Throw message) => (st, Throw message)
                | (st, Ok context) =>
                    let pipelineResult :=
                      {| PipelineResult.pipelineId := pipelineId world;
                         PipelineResult.query := query;
                         PipelineResult.success := true;
                         PipelineResult.error := None;
                         PipelineResult.plan := Some plan;
                         PipelineResult.stepResults := ExecutionContext.results context;
                         PipelineResult.finalOutput := Some (compileFinalOutput context plan);
                         PipelineResult.totalCost := ExecutionContext.totalSpent context;
                         PipelineResult.timing := timing |} in
                    let st := {| spending := spending st;
                                 memory := TaskMemory.savePipeline pipelineResult (memory st);
                                 log := log st |} in
                    let st := emit (onPipelineComplete pipelineResult) st in
                    (st, Ok pipelineResult)
                end
          end
      end
  end.

(** the result built by the outer [catch] *)
Definition failureResult (query : string) (message : string) : PipelineResult.t :=
  {| PipelineResult.pipelineId := pipelineId world;
     PipelineResult.query := query;
     PipelineResult.success := false;
     PipelineResult.error := Some message;
     PipelineResult.plan := None;
     PipelineResult.stepResults := [];
     PipelineResult.finalOutput := None;
     PipelineResult.totalCost := 0;
     PipelineResult.timing := timing |}.

Definition executePipeline (query : string) (options : Options) (st : State)
  : State * PipelineResult.t :=
  match tryPipeline query options st with
  | (st, Ok result) => (st, result)
  | (st, Throw message) => (st, failureResult query message)
  end.

(** *** What a run has done, in terms of its log *)

(** what the Payment Provider answers to step [index] for [service] and [requestData] *)
Definition paymentOf (index : nat) (service : X402Service.t) (requestData : option JSON)
  : PaymentResult.t :=
  fst (Payment.executePayment (network config) (balancesAt world index)
                              (httpAt world index) service requestData).

Definition abortMessage (message : string) : string := "Required step failed: " +:+ message.

(** the message of a failed payment: [payment.error || 'Payment failed'] *)
Definition paymentError (index : nat) (service : X402Service.t) (requestData : option JSON)
  : string :=
  orElse (PaymentResult.error (paymentOf index service requestData)) "Payment failed".

(** What the loop over the steps has done when it ends. *)
Record loopSpec (index : nat) (new : list Action) (out : outcome ExecutionContext.t)
  : Prop := {
  loop_indexed : indexedFrom index new;
  loop_errors :
    match out with
    | Ok _ => optionalErrors new
    | Throw message =>
        ∃ before step e,
          new = before ++ [onStepError step e]
          ∧ TaskStep.isRequired step = true
          ∧ optionalErrors before
          ∧ message = abortMessage e
    end;
  loop_payment :
    ∀ step i total service requestData,
      In (onStepStart step i total) new →
      In (paymentCall i service requestData) new →
      TaskStep.isRequired step = true →
      PaymentResult.success (paymentOf i service requestData) = false →
      out = Throw (abortMessage (paymentError i service requestData));
}.

End Run.

End Orchestrator.

(** ** Sample inputs *)

Module Sample.
Import Orchestrator.

(** midnight in UTC *)
Definition utcDay (now : Z) : Z := now - now mod 86400000.

Definition service (id name description url category : string) (amount : Z)
  : X402Service.t :=
  {| X402Service.id := id; X402Service.name := name;
     X402Service.description := description; X402Service.url := url;
     X402Service.category := Some category; X402Service.tags := Some [];
     X402Service.price := {| Price.amount := amount; Price.asset := "STX" |} |}.

Definition news : X402Service.t :=
  service "crypto-news" "Crypto News" "Latest headlines"
          "https://example.org/news/latest" "news" 500.

Definition summarizer : X402Service.t :=
  service "summarizer" "Summarizer" "Summarize a text"
          "https://example.org/summarize" "ai" 700.

Definition config : Config :=
  {| maxSpendPerTask := 100000; maxSpendPerDay := 1000000;
     openai := false; network := Payment.testnet |}.

Definition noOptions : Options := {| maxBudget := None; maxSteps := None |}.

Definition rich : Wallet.Balances :=
  {| Wallet.stx := 5000000; Wallet.sbtc := None; Wallet.usdcx := None |}.

Definition refused : Payment.HttpOutcome :=
  Payment.Fails (Some "insufficient balance") None None.

(** a market-data service priced at 500 microunits *)
Definition btcPrice : X402Service.t :=
  service "btc-price" "Bitcoin Price" "Current BTC price"
          "https://example.org/price/btc" "market" 500.

(** a run in which every payment goes through *)
Definition allPaid : World :=
  {| pipelineId := "run-0"; startTime := 1000; catalog := [btcPrice];
     aiReply := Planner.AIFailure "no model"; planTime := 1001; checkTime := 1002;
     balancesAt := fun _ => rich;
     httpAt := fun _ _ => Payment.Responds (Some (JObj [("price", JNum "100")])) (Some "0xabc");
     paidAt := fun _ => 1003; endTime := 1010 |}.

(** a run in which the only step is refused by the Payment Provider *)
Definition refusedAtOnce : World :=
  {| pipelineId := "run-1"; startTime := 1000; catalog := [news];
     aiReply := Planner.AIFailure "no model"; planTime := 1001; checkTime := 1002;
     balancesAt := fun _ => rich;
     httpAt := fun _ _ => refused;
     paidAt := fun _ => 1003; endTime := 1010 |}.

(** a run whose first step is paid and whose second step is refused *)
Definition refusedAtSecond : World :=
  {| pipelineId := "run-2"; startTime := 1000; catalog := [news; summarizer];
     aiReply := Planner.AIFailure "no model"; planTime := 1001; checkTime := 1002;
     balancesAt := fun _ => rich;
     httpAt := fun index _ =>
       match index with
       | O => Payment.Responds (Some (JObj [("headline", JStr "up")])) (Some "0xabc")
       | S _ => refused
       end;
     paidAt := fun _ => 1003; endTime := 1010 |}.

End Sample.

(** ** More of the Spend Ledger ([services/spending.ts]) *)

Module SpendingOps.
Import Spending.

(** [getRecentTransactions(limit = 10)]: newest first *)
Definition getRecentTransactions (limit : option Z) (t : SpendingTracker)
  : list SpendingRecord :=
  slice0 (default 10 limit)
         (sort (fun a b => timestamp b - timestamp a) (records t)).

(** [setLimits(maxPerTask?, maxPerDay?)] *)
Definition setLimits (newPerTask newPerDay : option Z) (t : SpendingTracker)
  : SpendingTracker :=
  {| records := records t;
     maxPerTask := default (maxPerTask t) newPerTask;
     maxPerDay := default (maxPerDay t) newPerDay |}.

(** [resetDaily()], called at [now] *)
Definition resetDaily (startOfDay : Z → Z) (now : Z) (t : SpendingTracker)
  : SpendingTracker :=
  let today := startOfDay now in
  {| records := List.filter (fun r => timestamp r <? today) (records t);
     maxPerTask := maxPerTask t;
     maxPerDay := maxPerDay t |}.

End SpendingOps.

(** ** Catalog queries ([services/discovery.ts]) *)

Module Discovery.

(** the filter of [searchServices(query)] over the fetched catalog *)
Definition searchServices (query : string) (allServices : list X402Service.t)
  : list X402Service.t :=
  let lowerQuery := toLowerCase query in
  List.filter
    (fun service =>
       includes (toLowerCase (X402Service.name service)) lowerQuery ||
       includes (toLowerCase (X402Service.description service)) lowerQuery ||
       match X402Service.tags service with
       | Some tags => existsb (fun tag => includes (toLowerCase tag) lowerQuery) tags
       | None => false
       end)
    allServices.

(** the filter of [getServicesByCategory(category)] *)
Definition getServicesByCategory (category : string) (allServices : list X402Service.t)
  : list X402Service.t :=
  List.filter
    (fun s => match X402Service.category s with
              | Some c => String.eqb (toLowerCase c) (toLowerCase category)
              | None => false
              end)
    allServices.


(** [extractAsset(asset)] *)
Definition extractAsset (asset : option string) : string :=
  match asset with
  | None => "STX"
  | Some a =>
      if String.eqb a "" then "STX"
      else if includes a "sbtc" then "sBTC"
      else if includes a "usdc" then "USDCx"
      else "STX"
  end.

End Discovery.

(** ** The payment preview ([PaymentService.previewPayment]) *)

Module Preview.

Record t : Type := {
  canAfford : bool;
  cost : string;
  balance : string;
  remainingAfter : string;
}.

Section Format.

(** [formatPrice] renders through floating point and is kept as it comes. *)
Variable formatPrice : Z → string → string.

(** the balance that [previewPayment] compares with the price *)
Definition balanceFor (balances : Wallet.Balances) (asset : string) : Z :=
  if String.eqb asset "sBTC" then default 0 (Wallet.sbtc balances)
  else if String.eqb asset "USDCx" then default 0 (Wallet.usdcx balances)
  else Wallet.stx balances.

Definition previewPayment (balances : Wallet.Balances) (service : X402Service.t) : t :=
  let cost := X402Service.cost service in
  let asset := Price.asset (X402Service.price service) in
  let balance := balanceFor balances asset in
  let canAfford := cost <=? balance in
  let remainingAfter := if canAfford then balance - cost else 0 in
  {| canAfford := canAfford;
     cost := formatPrice cost asset;
     balance := formatPrice balance asset;
     remainingAfter := formatPrice remainingAfter asset |}.

End Format.

End Preview.

(** ** The single-task agent ([ServiceSelector.selectService], [Paygent.executeTask]) *)

Module Selector.

Section Selection.

(** A confidence is a floating-point number; the code only copies it. *)
Context {Confidence : Type}.
Variable certain : Confidence.   (** [1.0] *)
Variable fallback : Confidence.  (** [0.5] *)

(** what [getAIReasoning] returns, from the model or from its heuristic fallback *)
Record AIReasoning : Type := {
  selectedServiceId : string;
  reasoning : string;
  confidence : Confidence;
}.

Record ServiceSelection : Type := {
  service : X402Service.t;
  reason : string;
  estimatedCost : Z;
  selectionConfidence : Confidence;
}.

Definition selectService (answer : AIReasoning) (availableServices : list X402Service.t)
  : option ServiceSelection :=
  match availableServices with
  | [] => None
  | [only] =>
      Some {| service := only;
              reason := "Only available service matching criteria";
              estimatedCost := X402Service.cost only;
              selectionConfidence := certain |}
  | first :: _ :: _ =>
      match find (fun s => String.eqb (X402Service.id s) (selectedServiceId answer))
                 availableServices with
      | None =>
          Some {| service := first;
                  reason := "Fallback selection";
                  estimatedCost := X402Service.cost first;
                  selectionConfidence := fallback |}
      | Some selected =>
          Some {| service := selected;
                  reason := reasoning answer;
                  estimatedCost := X402Service.cost selected;
                  selectionConfidence := confidence answer |}
      end
  end.

End Selection.

End Selector.

Module TaskResult.
Record t : Type := {
  taskId : string;
  query : string;
  success : bool;
  data : option JSON;
  service : option X402Service.t;
  payment : option PaymentResult.t;
  error : option string;
  timing : Timing.t;
}.
End TaskResult.

Module Agent.

Record Options : Type := {
  maxBudget : option Z;
  context : option JSON;
}.

Section Task.

Context {Confidence : Type}.
Variable certain : Confidence.
Variable fallback : Confidence.
Variable startOfDay : Z → Z.
Variable formatSTX : Z → string.
(** [extractContextData] turns the output of a previous step into a request
    body; on an output of an unexpected shape it throws. *)
Variable extractContextData : JSON → outcome JSON.

(** What one [executeTask] reads from outside the agent. *)
Record World : Type := {
  taskId : string;                          (** [uuidv4()] *)
  startTime : Z;
  searched : list X402Service.t;            (** the catalog when it is searched *)
  catalog : list X402Service.t;             (** the catalog fetched when the search is empty *)
  answer : Selector.AIReasoning (Confidence := Confidence);
  checkTime : Z;
  balances : Wallet.Balances;
  http : Payment.Request → Payment.HttpOutcome;
  paidTime : Z;
  endTime : Z;
}.

Variable config : Orchestrator.Config.
Variable world : World.

Definition taskTiming : Timing.t :=
  {| Timing.startedAt := startTime world;
     Timing.completedAt := endTime world;
     Timing.durationMs := endTime world - startTime world |}.

(** the body of the [try] of [executeTask], on the agent's own ledger *)
Definition tryTask (query : string) (options : Options) (spending : Spending.SpendingTracker)
  : Spending.SpendingTracker * outcome TaskResult.t :=
  let maxBudget := Planner.orDefault (maxBudget options) (Orchestrator.maxSpendPerTask config) in
  let found := Discovery.searchServices query (searched world) in
  let services :=
    match found with
    | [] => match catalog world with
            | [] => Throw "No x402 services available"
            | all => Ok all
            end
    | _ :: _ => Ok found
    end in
  match services with
  | Throw message => (spending, Throw message)
  | Ok services =>
      match List.filter (fun s => X402Service.cost s <=? maxBudget) services with
      | [] => (spending, Throw ("No services within budget of " +:+ formatSTX maxBudget))
      | affordableServices =>
          match Selector.selectService certain fallback (answer world) affordableServices with
          | None => (spending, Throw "Could not select a suitable service")
          | Some selection =>
              let canSpend :=
                Spending.canSpend startOfDay formatSTX (checkTime world)
                                  (Selector.estimatedCost selection) spending in
              if negb (Spending.allowed canSpend)
              then (spending, Throw (default "" (Spending.reason canSpend)))
              else
                let requestData :=
                  match context options with
                  | Some c =>
                      if truthy c
                      then match extractContextData c with
                           | Ok d => Ok (Some d)
                           | Throw message => Throw message
                           end
                      else Ok None
                  | None => Ok None
                  end in
                match requestData with
                | Throw message => (spending, Throw message)
                | Ok requestData =>
                    let '(payment, data) :=
                      Payment.executePayment (Orchestrator.network config) (balances world)
                        (http world) (Selector.service selection) requestData in
                    if negb (PaymentResult.success payment)
                    then (spending,
                          Throw (orElse (PaymentResult.error payment) "Payment failed"))
                    else
                      (Spending.recordPayment (paidTime world)
                         (default 0 (PaymentResult.amount payment))
                         (default "" (PaymentResult.asset payment))
                         (X402Service.id (Selector.service selection))
                         (X402Service.name (Selector.service selection))
                         (PaymentResult.txId payment) spending,
                       Ok {| TaskResult.taskId := taskId world;
                             TaskResult.query := query;
                             TaskResult.success := true;
                             TaskResult.data := data;
                             TaskResult.service := Some (Selector.service selection);
                             TaskResult.payment := Some payment;
                             TaskResult.error := None;
                             TaskResult.timing := taskTiming |})
                end
          end
      end
  end.

Definition executeTask (query : string) (options : Options) (spending : Spending.SpendingTracker)
  : Spending.SpendingTracker * TaskResult.t :=
  match tryTask query options spending with
  | (spending, Ok result) => (spending, result)
  | (spending, Throw message) =>
      (spending,
       {| TaskResult.taskId := taskId world;
          TaskResult.query := query;
          TaskResult.success := false;
          TaskResult.data := None;
          TaskResult.service := None;
          TaskResult.payment := None;
          TaskResult.error := Some message;
          TaskResult.timing := taskTiming |})
  end.

End Task.

End Agent.

(** the services that [executeTask] chooses from: what the search finds,
    or the whole catalog when it finds nothing *)
Definition candidates {Confidence : Type} (world : Agent.World (Confidence := Confidence))
    (query : string) : list X402Service.t :=
  let found := Discovery.searchServices query (Agent.searched world) in
  match found with
  | [] => Agent.catalog world
  | _ :: _ => found
  end.

(** ** Display helpers ([utils/formatting.ts]) *)

Module Formatting.

(** [s.slice(0, n)] *)
Definition sliceTo (n : nat) (s : string) : string := String.substring 0 n s.

(** [s.slice(-n)] *)
Definition sliceLast (n : nat) (s : string) : string :=
  String.substring (String.length s - n) n s.

Definition truncateAddress (address : string) : string :=
  if (String.length address <=? 16)%nat then address
  else sliceTo 8 address +:+ "..." +:+ sliceLast 6 address.

End Formatting.

(** ** What a run has done, read off its log and its ledger *)

Module Trace.
Import Orchestrator.

(** the steps that a log shows as started, with their indices *)
Fixpoint started (actions : list Action) : list (TaskStep.t * nat) :=
  match actions with
  | [] => []
  | onStepStart step index _ :: rest => (step, index) :: started rest
  | _ :: rest => started rest
  end.

(** the services that a log shows as called for payment *)
Fixpoint called (actions : list Action) : list X402Service.t :=
  match actions with
  | [] => []
  | paymentCall _ service _ :: rest => service :: called rest
  | _ :: rest => called rest
  end.

(** the steps of a plan with their positions, counted from [index] *)
Fixpoint numbered (index : nat) (steps : list TaskStep.t) : list (TaskStep.t * nat) :=
  match steps with
  | [] => []
  | step :: rest => (step, index) :: numbered (S index) rest
  end.

(** the service that a step resolves to in a catalog *)
Definition serviceOf (allServices : list X402Service.t) (step : TaskStep.t)
  : option X402Service.t :=
  find (fun s => String.eqb (X402Service.id s) (TaskStep.serviceId step)) allServices.

(** a ledger record of one payment to [service], at its listed price *)
Definition recordOf (service : X402Service.t) (r : Spending.SpendingRecord) : Prop :=
  Spending.serviceId r = X402Service.id service
  ∧ Spending.serviceName r = X402Service.name service
  ∧ Spending.amount r = X402Service.cost service
  ∧ Spending.asset r = Price.asset (X402Service.price service).

(** the sum of the costs that the step results report *)
Definition sumResultCosts (results : list StepResult.t) : Z :=
  foldr (fun r acc => default 0 (StepResult.cost r) + acc) 0 results.

End Trace.

(** ** What the heuristic planner maintains *)

Module PlannerSpec.

(** selections of the pattern tier: distinct positions of the catalog *)
Definition distinctPositions (services : list X402Service.t)
    (selected : list (nat * X402Service.t)) : Prop :=
  NoDup (map fst selected)
  ∧ ∀ e, e ∈ selected → services !! fst e = Some (snd e).

(** a selection made of catalog services, within the budget, with an
    affordable service in it when it is not empty *)
Definition fromCatalog (services : list X402Service.t) (maxBudget : Z)
    (selection : list X402Service.t * Z) : Prop :=
  Planner.withinBudget maxBudget selection
  ∧ (∀ s, In s (fst selection) → In s services)
  ∧ (fst selection ≠ [] → ∃ s, In s (fst selection) ∧ X402Service.cost s ≤ maxBudget).

(** the categories that the task patterns name *)
Definition categories : list string := ["news"; "market"; "blockchain"; "ai"; "generation"].

End PlannerSpec.

(** ** Sample inputs with names that a plain object inherits *)

Module SampleNames.

(** an agent with a model to plan with *)
Definition config : Orchestrator.Config :=
  {| Orchestrator.maxSpendPerTask := 100000; Orchestrator.maxSpendPerDay := 1000000;
     Orchestrator.openai := true; Orchestrator.network := Payment.testnet |}.

(** a run whose model plans one step with the payload
    [{ "input": "{{constructor}}" }] *)
Definition world : Orchestrator.World :=
  {| Orchestrator.pipelineId := "run-3"; Orchestrator.startTime := 1000;
     Orchestrator.catalog := [Sample.summarizer];
     Orchestrator.aiReply :=
       Planner.AIPlan "Summarize"
         [ {| AIStep.id := None; AIStep.description := "Summarize";
              AIStep.serviceId := "summarizer";
              AIStep.requestData := Some (JObj [("input", JStr "{{constructor}}")]);
              AIStep.required := None |} ] None;
     Orchestrator.planTime := 1001; Orchestrator.checkTime := 1002;
     Orchestrator.balancesAt := fun _ => Sample.rich;
     Orchestrator.httpAt := fun _ _ => Payment.Responds (Some (JStr "done")) (Some "0xabc");
     Orchestrator.paidAt := fun _ => 1003; Orchestrator.endTime := 1010 |}.

End SampleNames.

(** ** Sample inputs of the single-task agent and of the ledger *)

Module SampleTask.

(** what the model answers, with confidences as percentages *)
Definition answer : Selector.AIReasoning (Confidence := Z) :=
  {| Selector.selectedServiceId := "btc-price";
     Selector.reasoning := "Matches the query";
     Selector.confidence := 90 |}.

(** a task whose payment goes through *)
Definition paid : Agent.World (Confidence := Z) :=
  {| Agent.taskId := "task-0"; Agent.startTime := 1000;
     Agent.searched := [Sample.news; Sample.btcPrice];
     Agent.catalog := [Sample.news; Sample.btcPrice];
     Agent.answer := answer; Agent.checkTime := 1002;
     Agent.balances := Sample.rich;
     Agent.http := fun _ => Payment.Responds (Some (JObj [("price", JNum "100")])) (Some "0xabc");
     Agent.paidTime := 1003; Agent.endTime := 1010 |}.

Definition poor : Wallet.Balances :=
  {| Wallet.stx := 5000; Wallet.sbtc := None; Wallet.usdcx := None |}.

(** the same task with a wallet that covers the price and not the fee buffer *)
Definition unpaid : Agent.World (Confidence := Z) :=
  {| Agent.taskId := "task-1"; Agent.startTime := 1000;
     Agent.searched := [Sample.news; Sample.btcPrice];
     Agent.catalog := [Sample.news; Sample.btcPrice];
     Agent.answer := answer; Agent.checkTime := 1002;
     Agent.balances := poor;
     Agent.http := fun _ => Payment.Responds (Some (JObj [("price", JNum "100")])) (Some "0xabc");
     Agent.paidTime := 1003; Agent.endTime := 1010 |}.

Definition noOptions : Agent.Options :=
  {| Agent.maxBudget := None; Agent.context := None |}.

(** an agent whose ledger admits 100 microunits a day *)
Definition tight : Orchestrator.Config :=
  {| Orchestrator.maxSpendPerTask := 100000; Orchestrator.maxSpendPerDay := 100;
     Orchestrator.openai := false; Orchestrator.network := Payment.testnet |}.

(** a service that the budget of the sample plans covers alone but not
    after another one *)
Definition archive : X402Service.t :=
  Sample.service "text-archive" "Text Archive" "Archive" "https://example.org/archive"
                 "storage" 900.

(** the plan of the heuristic planner for [Get Bitcoin price] over one
    market-data service *)
Definition btcPlan : TaskPlan.t :=
  Planner.makePlan 1001 "Get Bitcoin price" [Sample.btcPrice] 500.

(** the plan of the heuristic planner for [Summarize today's news] over a
    news service and a summarizer *)
Definition newsPlan : TaskPlan.t :=
  Planner.makePlan 1001 "Summarize today's news" [Sample.news; Sample.summarizer] 1200.

(** a run of two steps in which every payment goes through *)
Definition twoPaid : Orchestrator.World :=
  {| Orchestrator.pipelineId := "run-4"; Orchestrator.startTime := 1000;
     Orchestrator.catalog := [Sample.news; Sample.summarizer];
     Orchestrator.aiReply := Planner.AIFailure "no model";
     Orchestrator.planTime := 1001; Orchestrator.checkTime := 1002;
     Orchestrator.balancesAt := fun _ => Sample.rich;
     Orchestrator.httpAt := fun _ _ =>
       Payment.Responds (Some (JObj [("headline", JStr "up")])) (Some "0xabc");
     Orchestrator.paidAt := fun _ => 1003; Orchestrator.endTime := 1010 |}.

(** a ledger with three payments, the second one not in STX *)
Definition ledger : Spending.SpendingTracker :=
  Spending.recordPayment 3000 700 "STX" "summarizer" "Summarizer" None
    (Spending.recordPayment 2000 40 "sBTC" "btc-price" "Bitcoin Price" None
       (Spending.recordPayment 1000 500 "STX" "crypto-news" "Crypto News" (Some "0xabc")
          (Spending.new 100000 1000000))).

End SampleTask.

(** * Properties *)

(** ** Strings *)

Lemma string_app_cons (c : ascii) (s t : string) : String c s +:+ t = String c (s +:+ t).
Proof. reflexivity. Qed.

Lemma string_app_assoc (s t u : string) : (s +:+ t) +:+ u = s +:+ t +:+ u.
Proof.
  induction s as [|c s IH]; [reflexivity|].
  rewrite !string_app_cons. by f_equal.
Qed.

Lemma string_length_app (s t : string) :
  String.length (s +:+ t) = (String.length s + String.length t)%nat.
Proof.
  induction s as [|c s IH]; [reflexivity|].
  rewrite string_app_cons. simpl. by rewrite IH.
Qed.

(** ** Interpolation *)

Section InterpolationFacts.

Lemma takeWord_split (t : string) :
  t = fst (takeWord t) +:+ snd (takeWord t) ∧ allWord (fst (takeWord t)) = true.
Proof.
  induction t as [|a t [IHs IHw]]; simpl; [done|].
  destruct (isWordChar a) eqn:Ha; [|done].
  destruct (takeWord t) as [w r]; simpl in *.
  rewrite string_app_cons, Ha. split; [by f_equal | done].
Qed.

Lemma takeWord_app_stop (t : string) (c : ascii) (rest : string) :
  isWordChar c = false →
  takeWord (t +:+ String c rest) = (fst (takeWord t), snd (takeWord t) +:+ String c rest).
Proof.
  intros Hc. induction t as [|a t IH].
  - simpl. change ("" +:+ String c rest) with (String c rest). simpl. by rewrite Hc.
  - rewrite string_app_cons. simpl. destruct (isWordChar a); [|done].
    rewrite IH. by destruct (takeWord t).
Qed.

Lemma takeWord_allWord (name : string) : allWord name = true → takeWord name = (name, "").
Proof.
  induction name as [|a name IH]; simpl; [done|].
  intros [Ha Hn]%andb_true_iff. rewrite Ha, (IH Hn). done.
Qed.

Lemma stripTwo_Some (c : ascii) (s t : string) :
  stripTwo c s = Some t → s = String c (String c t).
Proof.
  destruct s as [|a [|b s]]; simpl; try done.
  destruct (Ascii.eqb a c) eqn:Ha; [|done].
  destruct (Ascii.eqb b c) eqn:Hb; [|done].
  apply Ascii.eqb_eq in Ha, Hb. intros [= ->]. by subst.
Qed.

Lemma stripTwo_same (c : ascii) (t : string) : stripTwo c (String c (String c t)) = Some t.
Proof. simpl. by rewrite Ascii.eqb_refl. Qed.

(** What a successful attempt has read. *)
Lemma matchPlaceholder_Some (s key : string) :
  matchPlaceholder s = Some key →
  ∃ post, s = placeholder key +:+ post ∧ allWord key = true ∧ key ≠ "".
Proof.
  unfold matchPlaceholder.
  destruct (stripTwo "{" s) as [t|] eqn:Hs; [|done].
  apply stripTwo_Some in Hs.
  destruct (takeWord_split t) as [Ht Hw].
  destruct (takeWord t) as [w r]; simpl in *.
  destruct w as [|a w]; [done|].
  destruct (stripTwo "}" r) as [post|] eqn:Hr; [|done].
  apply stripTwo_Some in Hr. intros [= <-].
  exists post. split; [|done].
  subst s t r. unfold placeholder.
  change ("{{" +:+ String a w +:+ "}}") with (String "{" (String "{" (String a w +:+ "}}"))).
  rewrite !string_app_cons. do 3 f_equal. by rewrite string_app_assoc.
Qed.

Lemma placeholder_app (name post : string) :
  placeholder name +:+ post =
  String "{" (String "{" (name +:+ String "}" (String "}" post))).
Proof.
  unfold placeholder.
  change ("{{" +:+ name +:+ "}}") with (String "{" (String "{" (name +:+ "}}"))).
  rewrite !string_app_cons. by rewrite string_app_assoc.
Qed.

(** The pattern matches where a placeholder stands. *)
Lemma matchPlaceholder_placeholder (name post : string) :
  allWord name = true → name ≠ "" →
  matchPlaceholder (placeholder name +:+ post) = Some name.
Proof.
  intros Hw Hne. rewrite placeholder_app. unfold matchPlaceholder.
  rewrite stripTwo_same, takeWord_app_stop by done.
  rewrite (takeWord_allWord _ Hw). simpl fst. simpl snd.
  change ("" +:+ String "}" (String "}" post)) with (String "}" (String "}" post)).
  rewrite stripTwo_same. by destruct name.
Qed.

Lemma matchPlaceholder_length (s key : string) :
  matchPlaceholder s = Some key → (String.length key + 4 ≤ String.length s)%nat.
Proof.
  intros (post & -> & _)%matchPlaceholder_Some.
  rewrite placeholder_app. simpl. rewrite string_length_app. simpl. lia.
Qed.

(** An attempt inside [s] is not changed by a placeholder opening after [s]. *)
Lemma matchPlaceholder_app (s rest : string) :
  s ≠ "" →
  matchPlaceholder (s +:+ String "{" (String "{" rest)) = matchPlaceholder s.
Proof.
  intros Hs. destruct s as [|a [|b t]]; [done| |].
  - unfold matchPlaceholder. rewrite string_app_cons.
    change ("" +:+ String "{" (String "{" rest)) with (String "{" (String "{" rest)).
    simpl. by destruct (Ascii.eqb a "{").
  - unfold matchPlaceholder. rewrite !string_app_cons. simpl.
    destruct (Ascii.eqb a "{" && Ascii.eqb b "{"); [|done].
    rewrite takeWord_app_stop by done.
    destruct (takeWord t) as [w r]; simpl.
    destruct w as [|c w]; [done|].
    destruct r as [|x [|y r]]; [done| |].
    + rewrite string_app_cons. simpl. by rewrite andb_false_r.
    + rewrite !string_app_cons. simpl. by destruct (Ascii.eqb x "}" && Ascii.eqb y "}").
Qed.

Lemma replacePlaceholders_head (f : string → string) (c : ascii) (s : string) :
  replacePlaceholders f 0 (String c s) =
  match matchPlaceholder (String c s) with
  | Some key => f key +:+ replacePlaceholders f (String.length key + 3) s
  | None => String c (replacePlaceholders f 0 s)
  end.
Proof. reflexivity. Qed.

Lemma replacePlaceholders_skip (f : string → string) (a b : string) :
  replacePlaceholders f (String.length a) (a +:+ b) = replacePlaceholders f 0 b.
Proof. induction a as [|c a IH]; [done|]. rewrite string_app_cons. simpl. exact IH. Qed.

Lemma replacePlaceholders_app (f : string → string) (pre rest : string) (k : nat) :
  (k ≤ String.length pre)%nat →
  replacePlaceholders f k (pre +:+ String "{" (String "{" rest)) =
  replacePlaceholders f k pre +:+ replacePlaceholders f 0 (String "{" (String "{" rest)).
Proof.
  revert k. induction pre as [|c pre IH]; intros k Hk.
  - simpl in Hk. by replace k with 0%nat by lia.
  - rewrite string_app_cons. destruct k as [|k].
    + cbn [replacePlaceholders]. rewrite <- string_app_cons.
      rewrite matchPlaceholder_app by done.
      destruct (matchPlaceholder (String c pre)) as [key|] eqn:Hm.
      * apply matchPlaceholder_length in Hm. simpl in Hm.
        rewrite IH by lia. by rewrite string_app_assoc.
      * rewrite IH by (simpl; lia). by rewrite string_app_cons.
    + cbn [replacePlaceholders]. apply IH. simpl in Hk. lia.
Qed.

(** The scan replaces a placeholder wherever it stands, and goes on after it. *)
Lemma interpolateString_placeholder (variables : gmap string JSON) (pre name post : string) :
  allWord name = true → name ≠ "" →
  interpolateString variables (pre +:+ placeholder name +:+ post) =
  interpolateString variables pre +:+ substitute variables name
    +:+ interpolateString variables post.
Proof.
  intros Hw Hne. unfold interpolateString.
  rewrite placeholder_app, replacePlaceholders_app by lia. f_equal.
  rewrite <- placeholder_app.
  pose proof (matchPlaceholder_placeholder name post Hw Hne) as Hm.
  rewrite placeholder_app in Hm |- *.
  rewrite replacePlaceholders_head, Hm. f_equal.
  set (a := String "{" (name +:+ "}}")).
  replace (String "{" (name +:+ String "}" (String "}" post))) with (a +:+ post).
  - replace (String.length name + 3)%nat with (String.length a).
    + apply replacePlaceholders_skip.
    + unfold a. simpl. rewrite string_length_app. simpl. lia.
  - unfold a. rewrite string_app_cons. f_equal. apply string_app_assoc.
Qed.

(** A string in which no placeholder stands is left as it is. *)
Lemma interpolateString_plain (variables : gmap string JSON) (s : string) :
  (∀ pre name post, allWord name = true → name ≠ "" →
                    s ≠ pre +:+ placeholder name +:+ post) →
  interpolateString variables s = s.
Proof.
  unfold interpolateString. induction s as [|c s IH]; intros Hfree; [done|].
  cbn [replacePlaceholders].
  destruct (matchPlaceholder (String c s)) as [key|] eqn:Hm.
  - apply matchPlaceholder_Some in Hm as (post & Hs & Hw & Hne).
    destruct (Hfree "" key post Hw Hne). exact Hs.
  - f_equal. apply IH. intros pre name post Hw Hne ->.
    by apply (Hfree (String c pre) name post Hw Hne).
Qed.

End InterpolationFacts.

Lemma interpolateVariables_JStr (variables : gmap string JSON) (s : string) :
  interpolateVariables variables (JStr s) = JStr (interpolateString variables s).
Proof. by destruct s. Qed.

Lemma substitute_own (variables : gmap string JSON) (name : string) (value : JSON) :
  variables !! name = Some value → substitute variables name = JSON_stringify value.
Proof. unfold substitute. by intros ->. Qed.

Lemma substitute_unknown (variables : gmap string JSON) (name : string) :
  variables !! name = None → ObjectPrototype.inherited name = None →
  substitute variables name = placeholder name.
Proof. unfold substitute. by intros -> ->. Qed.

(** Off the names that a plain object inherits, [interpolateVariables] does
    what is asked of it. A placeholder [{{name}}], wherever it stands in a
    string of the payload, is replaced by [JSON.stringify(variables[name])]
    when the variable is defined and keeps its text when it is not; the
    strings before and after it are interpolated in the same way and a string
    without a placeholder is kept; the elements of an array and the values of
    an object are interpolated one by one; an absent payload stays absent.
    The function is total: no case of it is an error. *)
Lemma interpolateVariables_own_variables
    (variables : gmap string JSON) (pre name post : string)
    (items : list JSON) (entries : list (string * JSON)) :
  allWord name = true → name ≠ "" → ObjectPrototype.inherited name = None →
  interpolateVariables variables (JStr (pre +:+ placeholder name +:+ post)) =
    JStr (interpolateString variables pre
          +:+ match variables !! name with
              | Some value => JSON_stringify value
              | None => placeholder name
              end
          +:+ interpolateString variables post)
  ∧ (∀ s, (∀ pre name post, allWord name = true → name ≠ "" →
                            s ≠ pre +:+ placeholder name +:+ post) →
          interpolateVariables variables (JStr s) = JStr s)
  ∧ interpolateVariables variables (JArr items) =
      JArr (map (interpolateVariables variables) items)
  ∧ interpolateVariables variables (JObj entries) =
      JObj (assigned (map (fun kv => (fst kv, interpolateVariables variables (snd kv)))
                          entries))
  ∧ interpolateRequest variables None = None
  ∧ (∀ data, interpolateRequest variables (Some data) =
             Some (interpolateVariables variables data)).
Proof.
  intros Hw Hne Hown. split; [|split; [|repeat split]].
  - rewrite interpolateVariables_JStr. f_equal.
    rewrite interpolateString_placeholder by assumption. do 2 f_equal.
    destruct (variables !! name) as [value|] eqn:Hvalue;
      [by apply substitute_own|by apply substitute_unknown].
  - intros s Hplain. rewrite interpolateVariables_JStr. f_equal.
    by apply interpolateString_plain.
  - simpl. apply (f_equal JObj), (f_equal assigned), map_ext. by intros [k v].
Qed.

(** Scenario E: the request of step 2 once step 1 returned [{ price: 100 }]. *)
Example interpolate_lastResult :
  interpolateVariables (<["lastResult" := JObj [("price", JNum "100")]]> ∅)
                       (JObj [("input", JStr "{{lastResult}}")]) =
  JObj [("input", JStr (JSON_stringify (JObj [("price", JNum "100")])))]
  ∧ JSON_stringify (JObj [("price", JNum "100")]) =
    "{" +:+ String dquote "price" +:+ String dquote ":100}".
Proof. split; vm_compute; reflexivity. Qed.

(** C7, at a name that every plain object inherits. [context.variables] is
    read with [variables[key]], so the key [constructor], which is no
    variable, is found on [Object.prototype]: the placeholder
    [{{constructor}}] does not keep its text but becomes the text
    [undefined], where the placeholder of any other unknown name, such as
    [{{missing}}], is kept, and that of a variable becomes the variable's
    JSON text; [{{toString}}] and [{{__proto__}}] become [undefined] and [{}]. In a run whose plan has the payload
    [{ "input": "{{constructor}}" }], the service is called for payment with
    the body [{ "input": "undefined" }]. *)
Theorem interpolateVariables_replaces_inherited_name :
  let variables : gmap string JSON := <["lastResult" := JObj [("price", JNum "100")]]> ∅ in
  let run := Orchestrator.executePipeline Sample.utcDay decimal SampleNames.config
               SampleNames.world "Summarize" Sample.noOptions
               (Orchestrator.init SampleNames.config) in
  variables !! "constructor" = None
  ∧ interpolateVariables variables (JObj [("input", JStr "{{constructor}}")]) =
      JObj [("input", JStr "undefined")]
  ∧ interpolateVariables variables (JStr "{{toString}} and {{__proto__}}") =
      JStr "undefined and {}"
  ∧ interpolateVariables variables (JObj [("input", JStr "{{missing}}")]) =
      JObj [("input", JStr "{{missing}}")]
  ∧ interpolateVariables variables (JObj [("input", JStr "{{lastResult}}")]) =
      JObj [("input", JStr (JSON_stringify (JObj [("price", JNum "100")])))]
  ∧ In (Orchestrator.paymentCall 0 Sample.summarizer
          (Some (JObj [("input", JStr "undefined")])))
       (Orchestrator.log (fst run)).
Proof.
  intros variables run.
  do 5 (split; [vm_compute; reflexivity|]).
  vm_compute. do 2 right. left. reflexivity.
Qed.

(** ** The Spend Ledger *)

Section SpendingFacts.
Import Spending.

Variable startOfDay : Z → Z.
Variable formatSTX : Z → string.

Lemma fold_left_applyCall (calls : list PaymentCall) (t : SpendingTracker) :
  records (fold_left applyCall calls t) = records t ++ map toRecord calls
  ∧ maxPerTask (fold_left applyCall calls t) = maxPerTask t
  ∧ maxPerDay (fold_left applyCall calls t) = maxPerDay t.
Proof.
  revert t. induction calls as [|c calls IH]; intros t; simpl.
  - by rewrite app_nil_r.
  - destruct (IH (applyCall t c)) as (-> & -> & ->). simpl.
    by rewrite <- app_assoc.
Qed.

Lemma records_afterCalls (a b : Z) (calls : list PaymentCall) :
  records (afterCalls a b calls) = map toRecord calls.
Proof. unfold afterCalls. by rewrite (proj1 (fold_left_applyCall _ _)). Qed.

Lemma fold_left_amounts (l : list SpendingRecord) (a : Z) :
  fold_left (fun sum r => sum + amount r) l a = a + sumAmounts l.
Proof.
  unfold sumAmounts. revert a. induction l as [|r l IH]; intros a; simpl; [lia|].
  rewrite IH, (IH (0 + amount r)). lia.
Qed.

Lemma sumAmounts_cons (r : SpendingRecord) (l : list SpendingRecord) :
  sumAmounts (r :: l) = amount r + sumAmounts l.
Proof. unfold sumAmounts at 1. simpl. rewrite fold_left_amounts. lia. Qed.

Lemma sumAmounts_app (l1 l2 : list SpendingRecord) :
  sumAmounts (l1 ++ l2) = sumAmounts l1 + sumAmounts l2.
Proof.
  induction l1 as [|r l1 IH]; [reflexivity|].
  rewrite <- app_comm_cons, !sumAmounts_cons, IH. lia.
Qed.

(** The ledger's sums are the specification's sums over the calls. *)
Lemma sumAmounts_filter_toRecord (p : SpendingRecord → bool) (calls : list PaymentCall) :
  sumAmounts (List.filter p (map toRecord calls)) = paidWhere (fun c => p (toRecord c)) calls.
Proof.
  induction calls as [|c calls IH]; [reflexivity|]. simpl.
  destruct (p (toRecord c)); [|exact IH].
  rewrite sumAmounts_cons, IH. reflexivity.
Qed.

Lemma canSpend_over_daily (t : SpendingTracker) (now amount : Z) :
  getTodaySpent startOfDay now t + amount > maxPerDay t →
  allowed (canSpend startOfDay formatSTX now amount t) = false.
Proof.
  intros Hover. unfold canSpend.
  destruct (maxPerTask t <? amount); [reflexivity|].
  destruct (maxPerDay t <? getTodaySpent startOfDay now t + amount) eqn:Hday; [reflexivity|].
  apply Z.ltb_ge in Hday. lia.
Qed.

(** C6. Whatever payments were recorded before, [canSpend(amount)] answers
    [allowed = false] whenever [getTodaySpent() + amount > maxPerDay]. *)
Theorem canSpend_daily_ceiling (perTask perDay : Z) (calls : list PaymentCall)
    (now amount : Z) :
  let t := afterCalls perTask perDay calls in
  getTodaySpent startOfDay now t + amount > perDay →
  allowed (canSpend startOfDay formatSTX now amount t) = false.
Proof.
  intros t Hover. apply canSpend_over_daily.
  unfold t, afterCalls. by rewrite (proj2 (proj2 (fold_left_applyCall calls _))).
Qed.

Lemma getTodaySpent_recordPayment (t : SpendingTracker) (time amount : Z)
    (asset serviceId serviceName : string) (txId : option string) (now : Z) :
  getTodaySpent startOfDay now (recordPayment time amount asset serviceId serviceName txId t) =
  getTodaySpent startOfDay now t +
  (if (startOfDay now <=? time) && String.eqb asset "STX" then amount else 0).
Proof.
  unfold getTodaySpent, recordPayment. simpl.
  rewrite List.filter_app, sumAmounts_app. f_equal. simpl. unfold isSTX. simpl.
  destruct ((startOfDay now <=? time) && String.eqb asset "STX"); [|reflexivity].
  rewrite sumAmounts_cons. simpl. unfold sumAmounts. simpl. lia.
Qed.

(** C8. A payment recorded in an asset other than STX is appended to the
    records, leaves [getTodaySpent()] as it was, and so leaves every answer
    of [canSpend] as it was. *)
Theorem recordPayment_other_asset (perTask perDay : Z) (calls : list PaymentCall)
    (time amount : Z) (asset serviceId serviceName : string) (txId : option string) :
  asset ≠ "STX" →
  let t := afterCalls perTask perDay calls in
  let t' := recordPayment time amount asset serviceId serviceName txId t in
  records t' =
    records t ++ [ {| timestamp := time; amount := amount; asset := asset;
                      serviceId := serviceId; serviceName := serviceName; txId := txId |} ]
  ∧ (∀ now, getTodaySpent startOfDay now t' = getTodaySpent startOfDay now t)
  ∧ (∀ now spend, canSpend startOfDay formatSTX now spend t' =
                  canSpend startOfDay formatSTX now spend t).
Proof.
  intros Hasset t t'. apply String.eqb_neq in Hasset.
  assert (Hsame : ∀ now, getTodaySpent startOfDay now t' = getTodaySpent startOfDay now t).
  { intros now. unfold t'. rewrite getTodaySpent_recordPayment, Hasset, andb_false_r. lia. }
  split; [reflexivity|]. split; [exact Hsame|].
  intros now spend. unfold canSpend. rewrite Hsame. reflexivity.
Qed.

Lemma filter_filter_andb {A : Type} (p q : A → bool) (l : list A) :
  List.filter q (List.filter p l) = List.filter (fun x => p x && q x) l.
Proof.
  induction l as [|x l IH]; [reflexivity|]. simpl.
  destruct (p x); simpl; [|exact IH].
  destruct (q x); by rewrite IH.
Qed.

Lemma existsb_filter_toRecord (p q : SpendingRecord → bool) (calls : list PaymentCall) :
  existsb q (List.filter p (map toRecord calls)) =
  existsb (fun c => p (toRecord c) && q (toRecord c)) calls.
Proof.
  induction calls as [|c calls IH]; [reflexivity|]. simpl.
  destruct (p (toRecord c)); simpl; by rewrite IH.
Qed.

Lemma sumAmounts_none (q : SpendingRecord → bool) (l : list SpendingRecord) :
  existsb q l = false → sumAmounts (List.filter q l) = 0.
Proof.
  induction l as [|r l IH]; [reflexivity|]. simpl.
  destruct (q r); [done|]. exact IH.
Qed.

(** the entry of a service of an ordinary name after the loop filling
    [todayByService] *)
Lemma fold_left_addByService (l : list SpendingRecord) (m : gmap string Total)
    (name : string) (start : Z) :
  ObjectPrototype.inherited name = None →
  current m name = Amount start →
  let q := fun r => isSTX r && String.eqb (serviceName r) name in
  fold_left addByService l m !! name =
  if existsb q l
  then Some (Amount (start + sumAmounts (List.filter q l)))
  else m !! name.
Proof.
  intros Hname Hstart q. revert m start Hstart.
  induction l as [|r l IH]; intros m start Hstart; [reflexivity|].
  cbn [fold_left existsb List.filter].
  assert (Hq : q r = isSTX r && String.eqb (serviceName r) name) by reflexivity.
  unfold addByService at 2. destruct (isSTX r); simpl in Hq; rewrite Hq;
    [|by apply IH].
  destruct (String.eqb_spec (serviceName r) name) as [->|Hne]; simpl.
  - replace (String.eqb name "__proto__") with false
      by (unfold ObjectPrototype.inherited in Hname;
          by destruct (String.eqb name "__proto__")).
    rewrite Hstart. simpl.
    rewrite (IH _ (start + amount r)); [|by unfold current; rewrite lookup_insert_eq].
    rewrite sumAmounts_cons, lookup_insert_eq.
    destruct (existsb q l) eqn:Hex.
    + do 2 f_equal. lia.
    + rewrite (sumAmounts_none q l Hex). do 2 f_equal. lia.
  - destruct (String.eqb (serviceName r) "__proto__"); [by apply IH|].
    rewrite (IH _ start); [|by unfold current; rewrite lookup_insert_ne].
    by rewrite lookup_insert_ne.
Qed.

(** In [getSummary()] the transaction counts ([allTime.transactions],
    [today.transactions]) count the recorded payments of every asset, while
    the totals ([allTime.total], [today.total]) sum the STX records only, and
    so does the per-service breakdown at every service name that a plain
    object does not inherit; recording a payment in another asset (read on
    the day it was made) raises both counts by one and leaves every total
    and the whole breakdown as they were. *)
Lemma getSummary_counts_all_assets_sums_STX (perTask perDay : Z)
    (calls : list PaymentCall) (now : Z) (c : PaymentCall) :
  paidAsset c ≠ "STX" → startOfDay now ≤ at_time c →
  let isToday := fun c => startOfDay now <=? at_time c in
  let t := afterCalls perTask perDay calls in
  let s := getSummary startOfDay now t in
  let s' := getSummary startOfDay now (applyCall t c) in
  allTimeTransactions (allTime s) = length calls
  ∧ transactions (today s) = length (List.filter isToday calls)
  ∧ allTimeTotal (allTime s) = paidWhere inSTX calls
  ∧ total (today s) = paidWhere (fun c => isToday c && inSTX c) calls
  ∧ (∀ name,
       ObjectPrototype.inherited name = None →
       let mine := fun c => isToday c && (inSTX c && String.eqb (toServiceName c) name) in
       byService (today s) !! name =
       if existsb mine calls then Some (Amount (paidWhere mine calls)) else None)
  ∧ allTimeTransactions (allTime s') = S (allTimeTransactions (allTime s))
  ∧ transactions (today s') = S (transactions (today s))
  ∧ allTimeTotal (allTime s') = allTimeTotal (allTime s)
  ∧ total (today s') = total (today s)
  ∧ byService (today s') = byService (today s).
Proof.
  intros Hasset Htoday isToday t s s'.
  apply String.eqb_neq in Hasset. apply Z.leb_le in Htoday.
  assert (Hrec : records t = map toRecord calls) by apply records_afterCalls.
  assert (Hrec' : records (applyCall t c) = records t ++ [toRecord c]) by reflexivity.
  unfold s', s, getSummary. cbn [today allTime allTimeTransactions transactions allTimeTotal total byService].
  rewrite Hrec', Hrec.
  repeat split.
  - by rewrite length_map.
  - clear. induction calls as [|c0 calls' IH]; [reflexivity|]. simpl.
    unfold isToday at 1. simpl. destruct (startOfDay now <=? at_time c0); simpl; by rewrite IH.
  - apply sumAmounts_filter_toRecord.
  - unfold getTodaySpent. rewrite Hrec. apply sumAmounts_filter_toRecord.
  - intros name Hname.
    rewrite (fold_left_addByService _ _ name 0 Hname)
      by (unfold current; by rewrite lookup_empty, Hname).
    cbv zeta.
    rewrite existsb_filter_toRecord, filter_filter_andb, sumAmounts_filter_toRecord.
    rewrite lookup_empty. simpl.
    destruct (existsb _ calls); [|reflexivity]. do 2 f_equal.
  - rewrite length_app. simpl. lia.
  - rewrite List.filter_app, length_app. simpl. rewrite Htoday. simpl. lia.
  - rewrite List.filter_app, sumAmounts_app. simpl. unfold isSTX at 2. simpl.
    rewrite Hasset. unfold sumAmounts at 2. simpl. lia.
  - unfold applyCall. rewrite getTodaySpent_recordPayment.
    unfold inSTX. rewrite Hasset, andb_false_r. lia.
  - rewrite List.filter_app, fold_left_app. simpl. rewrite Htoday. simpl.
    unfold addByService at 1. unfold isSTX. simpl. by rewrite Hasset.
Qed.

End SpendingFacts.

Lemma canSpend_daily_ceiling_witness :
  let startOfDay := fun now => now - now mod 86400000 in
  let t := Spending.afterCalls 5000 1000
             [ {| Spending.at_time := 1000; Spending.paid := 900; Spending.paidAsset := "STX";
                  Spending.toServiceId := "news"; Spending.toServiceName := "News";
                  Spending.withTxId := None |} ] in
  Spending.getTodaySpent startOfDay 2000 t + 200 > 1000
  ∧ Spending.allowed (Spending.canSpend startOfDay decimal 2000 200 t) = false.
Proof.
  intros startOfDay t.
  assert (H : Spending.getTodaySpent startOfDay 2000 t + 200 > 1000)
    by (vm_compute; reflexivity).
  split; [exact H|].
  exact (canSpend_daily_ceiling startOfDay decimal 5000 1000 _ 2000 200 H).
Defined.

Lemma recordPayment_other_asset_witness :
  let startOfDay := fun now => now - now mod 86400000 in
  let t := Spending.afterCalls 5000 1000 [] in
  let t' := Spending.recordPayment 1000 700 "sBTC" "btc" "BTC feed" None t in
  "sBTC" ≠ "STX"
  ∧ (∀ now, Spending.getTodaySpent startOfDay now t' = Spending.getTodaySpent startOfDay now t)
  ∧ (∀ now spend, Spending.canSpend startOfDay decimal now spend t' =
                  Spending.canSpend startOfDay decimal now spend t).
Proof.
  intros startOfDay t t'.
  assert (H : "sBTC" ≠ "STX") by discriminate.
  split; [exact H|].
  exact (proj2 (recordPayment_other_asset startOfDay decimal 5000 1000 [] 1000 700
                  "sBTC" "btc" "BTC feed" None H)).
Defined.

Lemma getSummary_counts_all_assets_sums_STX_witness :
  let startOfDay := fun now => now - now mod 86400000 in
  let calls := [ {| Spending.at_time := 1000; Spending.paid := 500;
                    Spending.paidAsset := "STX"; Spending.toServiceId := "news";
                    Spending.toServiceName := "News"; Spending.withTxId := None |} ] in
  let c := {| Spending.at_time := 1500; Spending.paid := 700;
              Spending.paidAsset := "sBTC"; Spending.toServiceId := "btc";
              Spending.toServiceName := "BTC feed"; Spending.withTxId := None |} in
  let t := Spending.afterCalls 5000 100000 calls in
  let s := Spending.getSummary startOfDay 2000 t in
  let s' := Spending.getSummary startOfDay 2000 (Spending.applyCall t c) in
  Spending.paidAsset c ≠ "STX" ∧ startOfDay 2000 ≤ Spending.at_time c
  ∧ Spending.allTimeTransactions (Spending.allTime s') =
      S (Spending.allTimeTransactions (Spending.allTime s))
  ∧ Spending.transactions (Spending.today s') = S (Spending.transactions (Spending.today s))
  ∧ Spending.allTimeTotal (Spending.allTime s') = Spending.allTimeTotal (Spending.allTime s)
  ∧ Spending.total (Spending.today s') = Spending.total (Spending.today s)
  ∧ Spending.byService (Spending.today s') = Spending.byService (Spending.today s).
Proof.
  intros startOfDay calls c t s s'.
  assert (Hasset : Spending.paidAsset c ≠ "STX") by discriminate.
  assert (Htoday : startOfDay 2000 ≤ Spending.at_time c) by (vm_compute; discriminate).
  split; [exact Hasset|]. split; [exact Htoday|].
  pose proof (getSummary_counts_all_assets_sums_STX startOfDay 5000 100000 calls 2000 c
                Hasset Htoday) as H.
  cbv zeta in H. tauto.
Defined.

(** C10, at a service whose name a plain object inherits. The breakdown is
    filled with [todayByService[name] = (todayByService[name] || BigInt(0)) +
    record.amount] on a plain object. Two STX payments of 500 and 700 to a
    service named [News] give the entry 1200. The same payments to a service
    named [constructor] give no sum: the first lookup finds the function
    [Object], and the entry is the text of that function followed by the
    digits of the amounts. For a service named [__proto__] the breakdown has
    no entry at all. The totals and the counts are 1200 and 2 in each case. *)
Theorem getSummary_breakdown_of_inherited_name :
  let pay := fun (name : string) (time amount : Z) =>
    {| Spending.at_time := time; Spending.paid := amount; Spending.paidAsset := "STX";
       Spending.toServiceId := "svc"; Spending.toServiceName := name;
       Spending.withTxId := None |} in
  let summary := fun name =>
    Spending.getSummary Sample.utcDay 2000
      (Spending.afterCalls 5000 100000 [pay name 1000 500; pay name 1500 700]) in
  Spending.byService (Spending.today (summary "News")) !! "News" =
    Some (Spending.Amount 1200)
  ∧ Spending.byService (Spending.today (summary "constructor")) !! "constructor" =
      Some (Spending.Text "function Object() { [native code] }500700")
  ∧ Spending.byService (Spending.today (summary "__proto__")) !! "__proto__" = None
  ∧ Spending.total (Spending.today (summary "constructor")) = 1200
  ∧ Spending.transactions (Spending.today (summary "constructor")) = 2%nat
  ∧ Spending.total (Spending.today (summary "__proto__")) = 1200.
Proof.
  intros pay summary.
  do 5 (split; [vm_compute; reflexivity|]). vm_compute. reflexivity.
Qed.

(** ** The history log *)

Section HistoryFacts.
Import History.

Context {HistoryEntry : Type}.
Implicit Types (h : list HistoryEntry) (e : HistoryEntry).

(** Within its bound, the log is its new entry followed by the 49 most recent. *)
Lemma addToHistory_take e h :
  (length h ≤ MAX_HISTORY)%nat → addToHistory e h = take MAX_HISTORY (e :: h).
Proof.
  intros Hlen. unfold addToHistory.
  destruct (MAX_HISTORY <? length (e :: h))%nat eqn:Hfull.
  - apply Nat.ltb_lt in Hfull. simpl in Hfull.
    rewrite removelast_firstn_len. f_equal. simpl. unfold MAX_HISTORY in *. lia.
  - apply Nat.ltb_ge in Hfull. by rewrite take_ge.
Qed.

Lemma take_app_take (n : nat) (a b : list HistoryEntry) :
  take n (a ++ take n b) = take n (a ++ b).
Proof.
  rewrite !take_app, take_take. do 2 f_equal. lia.
Qed.

Lemma fold_addToHistory (inserted : list HistoryEntry) h :
  (length h ≤ MAX_HISTORY)%nat →
  fold_left (fun h e => addToHistory e h) inserted h = take MAX_HISTORY (rev inserted ++ h).
Proof.
  revert h. induction inserted as [|e inserted IH]; intros h Hlen; simpl.
  - by rewrite take_ge.
  - rewrite IH, addToHistory_take by (rewrite ?addToHistory_take, ?length_take; lia).
    rewrite take_app_take. by rewrite <- app_assoc.
Qed.

Lemma afterInserting_take (inserted : list HistoryEntry) :
  afterInserting inserted = take MAX_HISTORY (rev inserted).
Proof.
  unfold afterInserting. rewrite fold_addToHistory by (simpl; lia).
  by rewrite app_nil_r.
Qed.

(** C9. After more than 50 entries were inserted, the log holds exactly 50
    entries, the most recent first; the oldest inserted entry is not among
    them; and the 50 most recent entries of what a reader gets are exactly
    50 entries (the whole log). *)
Theorem history_bound (oldest : HistoryEntry) (later : list HistoryEntry) :
  let inserted := oldest :: later in
  let pipelineHistory := afterInserting inserted in
  (MAX_HISTORY < length inserted)%nat → NoDup inserted →
  length pipelineHistory = MAX_HISTORY
  ∧ pipelineHistory = take MAX_HISTORY (rev inserted)
  ∧ (oldest ∉ pipelineHistory)
  ∧ length (take MAX_HISTORY (readHistory pipelineHistory)) = MAX_HISTORY
  ∧ take MAX_HISTORY (readHistory pipelineHistory) = pipelineHistory.
Proof.
  intros inserted pipelineHistory Hmore Hdistinct.
  assert (Hlog : pipelineHistory = take MAX_HISTORY (rev inserted))
    by apply afterInserting_take.
  assert (Hlen : length pipelineHistory = MAX_HISTORY).
  { rewrite Hlog, length_take, length_rev. lia. }
  split; [exact Hlen|]. split; [exact Hlog|]. split; [|split].
  - rewrite Hlog. unfold inserted. simpl.
    rewrite take_app_le by (rewrite length_rev; simpl in Hmore; lia).
    apply NoDup_cons in Hdistinct as [Hnotin _].
    intros Hin. apply Hnotin.
    apply list_elem_of_In, in_rev, list_elem_of_In.
    apply elem_of_take in Hin as (i & Hi & _).
    by apply list_elem_of_lookup_2 in Hi.
  - unfold readHistory. by rewrite take_ge by lia.
  - unfold readHistory. by rewrite take_ge by lia.
Qed.

End HistoryFacts.

Lemma history_bound_witness :
  let inserted := seq 0 51 in
  (History.MAX_HISTORY < length inserted)%nat ∧ NoDup inserted
  ∧ length (History.afterInserting inserted) = History.MAX_HISTORY
  ∧ History.afterInserting inserted = take History.MAX_HISTORY (rev inserted)
  ∧ 0%nat ∉ History.afterInserting inserted.
Proof.
  intros inserted.
  assert (Hmore : (History.MAX_HISTORY < length inserted)%nat) by (vm_compute; lia).
  assert (Hdistinct : NoDup inserted) by apply NoDup_seq.
  split; [exact Hmore|]. split; [exact Hdistinct|].
  pose proof (history_bound 0%nat (seq 1 50) Hmore Hdistinct) as H.
  cbv zeta in H. tauto.
Defined.

(** ** The Plan Builder *)

Section PlannerFacts.
Import Planner.

Lemma sumCosts_imap (g : nat → X402Service.t → TaskStep.t) (selected : list X402Service.t) :
  (∀ i s, TaskStep.estimatedCost (g i s) = X402Service.cost s) →
  sumCosts (imap g selected) = sumPrices selected.
Proof.
  revert g. induction selected as [|s selected IH]; intros g Hg; [reflexivity|].
  simpl. rewrite Hg. f_equal. apply IH. intros i s'. apply Hg.
Qed.

Lemma sumPrices_snoc (selected : list X402Service.t) (s : X402Service.t) :
  sumPrices (selected ++ [s]) = sumPrices selected + X402Service.cost s.
Proof. induction selected as [|x selected IH]; simpl; lia. Qed.

Lemma selectForTasks_within (tasks : list TaskPattern) (services : list X402Service.t)
    (maxBudget : Z) :
  let selection := selectForTasks tasks services maxBudget in
  withinBudget maxBudget (map snd (fst selection), snd selection)
  ∧ (length (fst selection) ≤ length tasks)%nat.
Proof.
  unfold selectForTasks.
  set (step := fun (acc : list (nat * X402Service.t) * Z) (task : TaskPattern) => _).
  assert (Hgen : ∀ acc,
            withinBudget maxBudget (map snd (fst acc), snd acc) →
            withinBudget maxBudget (map snd (fst (fold_left step tasks acc)),
                                    snd (fold_left step tasks acc))
            ∧ (length (fst (fold_left step tasks acc)) ≤ length (fst acc) + length tasks)%nat).
  { induction tasks as [|task tasks IH]; intros acc Hacc; simpl; [split; [done|lia]|].
    assert (Hstep : withinBudget maxBudget (map snd (fst (step acc task)), snd (step acc task))
                    ∧ (length (fst (step acc task)) ≤ S (length (fst acc)))%nat).
    { unfold step. destruct acc as [selected runningCost].
      destruct Hacc as [Hsum Hle]. simpl in Hsum, Hle.
      destruct (bestFor task (map fst selected) services) as [[best|] bestScore];
        [|split; [done | simpl; lia]].
      destruct (0 <? bestScore); [|split; [done | simpl; lia]].
      destruct (runningCost + X402Service.cost (snd best) <=? maxBudget) eqn:Hfits;
        [|split; [done | simpl; lia]].
      apply Z.leb_le in Hfits. split.
      - unfold withinBudget. cbn [fst snd]. split.
        + rewrite map_app. cbn [map]. rewrite sumPrices_snoc. lia.
        + intros _. exact Hfits.
      - simpl. rewrite length_app. simpl. lia. }
    destruct Hstep as [Hinv Hlen].
    destruct (IH _ Hinv) as [Hinv' Hlen']. split; [exact Hinv'|lia]. }
  apply (Hgen ([], 0)). split; [reflexivity|done].
Qed.

(** *** Step ceilings that are no integers *)

Lemma reachedBy_false (q : Q) (n : nat) :
  Number.reachedBy (Number.Finite q) n = false → Z.of_nat n + 1 ≤ Qceiling q.
Proof.
  simpl. intros Hnot.
  assert (Hlt : (inject_Z (Z.of_nat n) < q)%Q).
  { apply Qnot_le_lt. intros Hle. apply Qle_bool_iff in Hle. congruence. }
  pose proof (Qlt_le_trans _ _ _ Hlt (Qle_ceiling q)) as Hceiling.
  rewrite <- Zlt_Qlt in Hceiling. lia.
Qed.

Lemma Qfloor_ceiling (q : Q) : Qfloor q ≤ Qceiling q.
Proof. rewrite Zle_Qle. eapply Qle_trans; [apply Qfloor_le|apply Qle_ceiling]. Qed.

Lemma Qceiling_one (q : Q) : (1 <= q)%Q → 1 ≤ Qceiling q.
Proof. intros Hq. exact (Qceiling_resp_le 1 q Hq). Qed.

Lemma truncate_nonneg (q : Q) : (0 <= q)%Q → Number.truncate q = Qfloor q ∧ 0 ≤ Qfloor q.
Proof.
  intros Hq. unfold Number.truncate.
  replace (Qle_bool 0 q) with true by (symmetry; by apply Qle_bool_iff).
  split; [reflexivity|exact (Qfloor_resp_le 0 q Hq)].
Qed.

Lemma takeWithinBudget_within (maxSteps : Number.t) (maxBudget : Z)
    (scored : list (X402Service.t * Z)) (selected : list X402Service.t) (runningCost : Z) :
  withinBudget maxBudget (selected, runningCost) →
  withinBudget maxBudget (takeWithinBudget maxSteps maxBudget scored selected runningCost).
Proof.
  revert selected runningCost.
  induction scored as [|[service score] scored IH]; intros selected runningCost Hacc; simpl;
    [exact Hacc|].
  destruct (Number.reachedBy maxSteps (length selected)); [exact Hacc|].
  destruct ((score =? 0) && (0 <? length selected)%nat); [exact Hacc|].
  destruct (runningCost + X402Service.cost service <=? maxBudget) eqn:Hfits;
    [|by apply IH].
  apply Z.leb_le in Hfits. apply IH.
  destruct Hacc as [Hsum _]. simpl in Hsum. unfold withinBudget. simpl. split.
  - rewrite sumPrices_snoc. lia.
  - intros _. exact Hfits.
Qed.

(** The keyword tier stops at the step ceiling rounded up: it takes one more
    service as long as the count is below the ceiling. *)
Lemma takeWithinBudget_count (q : Q) (maxBudget : Z)
    (scored : list (X402Service.t * Z)) (selected : list X402Service.t) (runningCost : Z) :
  Z.of_nat (length (fst (takeWithinBudget (Number.Finite q) maxBudget scored
                           selected runningCost)))
  ≤ Z.max (Z.of_nat (length selected)) (Qceiling q).
Proof.
  revert selected runningCost.
  induction scored as [|[service score] scored IH]; intros selected runningCost;
    cbn [takeWithinBudget]; [simpl; lia|].
  destruct (Number.reachedBy (Number.Finite q) (length selected)) eqn:Hfull; [simpl; lia|].
  apply reachedBy_false in Hfull.
  destruct ((score =? 0) && (0 <? length selected)%nat); [simpl; lia|].
  destruct (runningCost + X402Service.cost service <=? maxBudget).
  - specialize (IH (selected ++ [service]) (runningCost + X402Service.cost service)).
    rewrite length_app in IH. simpl in IH. lia.
  - specialize (IH selected runningCost). lia.
Qed.

(** The plan that closes both heuristic planners, from a selection within budget. *)
Lemma finishPlan_within (now : Z) (query : string) (services : list X402Service.t)
    (maxBudget : Z) (selection : list X402Service.t * Z) (plan : TaskPlan.t) :
  withinBudget maxBudget selection →
  finishPlan now query services maxBudget selection = Some plan →
  sumCosts (TaskPlan.steps plan) ≤ maxBudget
  ∧ TaskPlan.estimatedTotalCost plan = sumCosts (TaskPlan.steps plan)
  ∧ (length (TaskPlan.steps plan) = Nat.max 1 (length (fst selection))).
Proof.
  intros [Hsum Hle]. unfold finishPlan.
  destruct (fst selection) as [|s selected] eqn:Hsel.
  - unfold pickCheapest.
    destruct (sort _ services) as [|cheapest rest]; [done|].
    destruct (X402Service.cost cheapest <=? maxBudget) eqn:Hfits; [|done].
    apply Z.leb_le in Hfits. intros [= <-]. simpl.
    split; [lia|]. split; [lia|reflexivity].
  - intros [= <-]. unfold makePlan. cbn [TaskPlan.steps TaskPlan.estimatedTotalCost].
    rewrite sumCosts_imap by reflexivity. rewrite length_imap.
    split; [rewrite <- Hsum; by apply Hle|]. split; [exact Hsum | simpl; lia].
Qed.

(** Both heuristic planners keep the plan within the budget they are given,
    and for a step ceiling of at least one within the ceiling rounded up. *)
Lemma createKeywordBasedPlan_within (now : Z) (query : string)
    (services : list X402Service.t) (maxSteps : Number.t) (maxBudget : Z)
    (plan : TaskPlan.t) :
  createKeywordBasedPlan now query services maxSteps maxBudget = Some plan →
  sumCosts (TaskPlan.steps plan) ≤ maxBudget
  ∧ TaskPlan.estimatedTotalCost plan = sumCosts (TaskPlan.steps plan)
  ∧ (∀ q, maxSteps = Number.Finite q → (1 <= q)%Q →
          Z.of_nat (length (TaskPlan.steps plan)) ≤ Qceiling q).
Proof.
  unfold createKeywordBasedPlan.
  set (sorted := sort byScoreThenPrice _). intros Hplan.
  assert (Hstart : withinBudget maxBudget ([], 0)) by (split; [reflexivity|done]).
  pose proof (takeWithinBudget_within maxSteps maxBudget sorted [] 0 Hstart) as Hinv.
  destruct (finishPlan_within _ _ _ _ _ _ Hinv Hplan) as (Hcost & Htotal & Hcount).
  split; [exact Hcost|]. split; [exact Htotal|]. intros q -> Hq.
  pose proof (takeWithinBudget_count q maxBudget sorted [] 0) as Hlen.
  apply Qceiling_one in Hq. change (length []) with 0%nat in Hlen. lia.
Qed.

Lemma length_slice0 {A : Type} (n : Z) (l : list A) :
  0 ≤ n → Z.of_nat (length (slice0 n l)) ≤ n.
Proof.
  intros Hn. unfold slice0. destruct (n <? 0) eqn:Hneg; [apply Z.ltb_lt in Hneg; lia|].
  rewrite length_take. lia.
Qed.

(** A slice by a ceiling of at least zero has no more elements than the
    ceiling rounded down. *)
Lemma length_slice {A : Type} (q : Q) (l : list A) :
  (0 <= q)%Q → Z.of_nat (length (Number.slice (Number.Finite q) l)) ≤ Qfloor q.
Proof.
  intros Hq. destruct (truncate_nonneg q Hq) as [Htruncate Hfloor].
  simpl. rewrite Htruncate. by apply length_slice0.
Qed.

Lemma createHeuristicPlan_within (now : Z) (query : string)
    (services : list X402Service.t) (maxSteps : Number.t) (maxBudget : Z)
    (plan : TaskPlan.t) :
  createHeuristicPlan now query services maxSteps maxBudget = Some plan →
  sumCosts (TaskPlan.steps plan) ≤ maxBudget
  ∧ TaskPlan.estimatedTotalCost plan = sumCosts (TaskPlan.steps plan)
  ∧ (∀ q, maxSteps = Number.Finite q → (1 <= q)%Q →
          Z.of_nat (length (TaskPlan.steps plan)) ≤ Qceiling q).
Proof.
  unfold createHeuristicPlan.
  destruct (detectTasks (toLowerCase query)) as [|task tasks] eqn:Hdetected;
    [apply createKeywordBasedPlan_within|].
  pose proof (selectForTasks_within (Number.slice maxSteps (task :: tasks)) services maxBudget)
    as [Hinv Hlen].
  destruct (selectForTasks _ services maxBudget) as [selected runningCost].
  cbn [fst snd] in Hinv, Hlen. intros Hplan.
  destruct (finishPlan_within _ _ _ _ _ _ Hinv Hplan) as (Hcost & Htotal & Hcount).
  repeat split; [exact Hcost|exact Htotal|]. intros q -> Hq.
  assert (Hq0 : (0 <= q)%Q) by (eapply Qle_trans; [|exact Hq]; done).
  pose proof (length_slice q (task :: tasks) Hq0) as Hslice.
  pose proof (Qfloor_ceiling q). apply Qceiling_one in Hq.
  cbn [fst] in Hcount. rewrite length_map in Hcount. lia.
Qed.

(** Without a model (no API key, or a failed model call) [createPlan] keeps
    the plan within the budget and, rounded up, the step ceiling it works
    with. *)
Lemma createPlan_heuristic_within (reply : AIReply) (now : Z) (query : string)
    (services : list X402Service.t) (options : Options) (plan : TaskPlan.t) :
  createPlan false reply now query services options = Some plan →
  sumCosts (TaskPlan.steps plan) ≤ orDefault (maxBudget options) 1000000
  ∧ (∀ q, Number.orDefault (maxSteps options) (Number.ofZ 5) = Number.Finite q → (1 <= q)%Q →
          Z.of_nat (length (TaskPlan.steps plan)) ≤ Qceiling q).
Proof.
  unfold createPlan. intros Hplan.
  destruct (createHeuristicPlan_within _ _ _ _ _ _ Hplan) as (Hcost & _ & Hcount).
  split; [exact Hcost|exact Hcount].
Qed.

(** C1, at a model-made plan. With an API key configured, [createPlan] returns
    the model's plan as it is: for a budget of 1000 and a model that binds its
    one step to a service priced 2000, the plan costs 2000. On the same
    input the heuristic planner, asked alone, returns no plan. *)
Theorem createPlan_AI_plan_exceeds_budget :
  let premium :=
    {| X402Service.id := "premium-report"; X402Service.name := "Premium Report";
       X402Service.description := "Generate a market report";
       X402Service.url := "https://example.org/generate/report";
       X402Service.category := Some "generation"; X402Service.tags := Some ["report"];
       X402Service.price := {| Price.amount := 2000; Price.asset := "STX" |} |} in
  let reply :=
    AIPlan "Write the report"
      [ {| AIStep.id := None; AIStep.description := "Generate the report";
           AIStep.serviceId := "premium-report"; AIStep.requestData := None;
           AIStep.required := None |} ] None in
  let options := {| maxBudget := Some 1000; maxSteps := Some (Number.ofZ 5) |} in
  (∃ plan, createPlan true reply 0 "Write a market report" [premium] options = Some plan
           ∧ sumCosts (TaskPlan.steps plan) = 2000
           ∧ ¬ sumCosts (TaskPlan.steps plan) ≤ 1000)
  ∧ createPlan false reply 0 "Write a market report" [premium] options = None.
Proof.
  intros premium reply options. split; [|vm_compute; reflexivity].
  eexists. split; [vm_compute; reflexivity|]. split; [reflexivity|]. simpl. lia.
Qed.

(** C5, at a model-made plan. With an API key configured, [createPlan]
    returns every step the model lists: for [maxSteps = 2] and a model
    that lists three steps, the plan has three steps. On the same input the
    heuristic planner, asked alone, returns a plan of one step. *)
Theorem createPlan_AI_plan_exceeds_maxSteps :
  let echo :=
    {| X402Service.id := "echo"; X402Service.name := "Echo";
       X402Service.description := "Echo the input";
       X402Service.url := "https://example.org/echo";
       X402Service.category := None; X402Service.tags := None;
       X402Service.price := {| Price.amount := 10; Price.asset := "STX" |} |} in
  let step :=
    {| AIStep.id := None; AIStep.description := "Echo";
       AIStep.serviceId := "echo"; AIStep.requestData := None;
       AIStep.required := None |} in
  let reply := AIPlan "Echo three times" [step; step; step] None in
  let options := {| maxBudget := Some 1000; maxSteps := Some (Number.ofZ 2) |} in
  (∃ plan, createPlan true reply 0 "echo echo echo" [echo] options = Some plan
           ∧ length (TaskPlan.steps plan) = 3%nat
           ∧ ¬ Z.of_nat (length (TaskPlan.steps plan)) ≤ 2)
  ∧ (∃ plan, createPlan false reply 0 "echo echo echo" [echo] options = Some plan
             ∧ length (TaskPlan.steps plan) = 1%nat).
Proof.
  intros echo step reply options. split.
  - eexists. split; [vm_compute; reflexivity|]. split; [reflexivity|]. simpl. lia.
  - eexists. split; [vm_compute; reflexivity|]. reflexivity.
Qed.

End PlannerFacts.

(** ** The Pipeline Orchestrator *)

Section OrchestratorFacts.
Import Orchestrator.

Variable startOfDay : Z → Z.
Variable formatSTX : Z → string.
Variable config : Config.
Variable world : World.

Local Abbreviation paymentOf := (Orchestrator.paymentOf config world).
Local Abbreviation paymentError := (Orchestrator.paymentError config world).
Local Abbreviation loopSpec := (Orchestrator.loopSpec config world).

(** One step: either the service is unknown and nothing is done, or the
    Payment Provider is called once and its answer decides. *)
Lemma executeStep_spec (index : nat) (step : TaskStep.t) (context : ExecutionContext.t)
    (allServices : list X402Service.t) (st : State) :
  let run := executeStep config world index step context allServices st in
  (log (fst run) = log st ∧ ∃ message, snd run = Throw message)
  ∨ (∃ service requestData,
        log (fst run) = log st ++ [paymentCall index service requestData]
        ∧ if PaymentResult.success (paymentOf index service requestData)
          then ∃ result, snd run = Ok result
          else snd run = Throw (orElse (PaymentResult.error
                                          (paymentOf index service requestData))
                                       "Payment failed")).
Proof.
  unfold executeStep, Orchestrator.paymentOf.
  destruct (find _ allServices) as [service|]; [|left; simpl; eauto].
  right. exists service, (interpolateRequest (ExecutionContext.variables context)
                                             (TaskStep.requestData step)).
  destruct (Payment.executePayment _ _ _ service _) as [payment data]. simpl.
  destruct (PaymentResult.success payment); simpl; eauto.
Qed.

Ltac in_cases :=
  repeat match goal with
         | H : In _ (_ :: _) |- _ => destruct H as [H|H]
         | H : In _ [] |- _ => destruct H
         | H : In _ (_ ++ _) |- _ => apply in_app_or in H as [H|H]
         | H : onStepStart _ _ _ = _ |- _ => inversion H; clear H; subst
         | H : paymentCall _ _ _ = _ |- _ => inversion H; clear H; subst
         | H : onStepError _ _ = _ |- _ => inversion H; clear H; subst
         | H : onStepComplete _ _ = _ |- _ => inversion H; clear H; subst
         | H : onPlanCreated _ = _ |- _ => inversion H; clear H; subst
         | H : onPipelineComplete _ = _ |- _ => inversion H; clear H; subst
         end.

Ltac early_throw H :=
  exists []; cbn [fst snd]; split; [exact H|];
  split; [split; [reflexivity|left; intros ? ? ?; in_cases]|intros; in_cases].

(** Actions that stand before the loop goes on to the next step. *)
Lemma loopSpec_continue (index : nat) (head new : list Action)
    (out : outcome ExecutionContext.t) :
  loopSpec (S index) new out →
  (∀ step i total, In (onStepStart step i total) head → i = index) →
  (∀ i service requestData, In (paymentCall i service requestData) head → i = index) →
  optionalErrors head →
  (∀ step total service requestData,
     In (onStepStart step index total) head →
     In (paymentCall index service requestData) head →
     TaskStep.isRequired step = true →
     PaymentResult.success (paymentOf index service requestData) = true) →
  loopSpec index (head ++ new) out.
Proof.
  intros [[Hstart Hpay] Herr Hfail] Hhs Hhp Hhe Hhok. split.
  - split.
    + intros step i total [Hin|Hin]%in_app_or; [apply Hhs in Hin; lia|].
      apply Hstart in Hin. lia.
    + intros i service requestData [Hin|Hin]%in_app_or; [apply Hhp in Hin; lia|].
      apply Hpay in Hin. lia.
  - destruct out as [context|message].
    + intros step message [Hin|Hin]%in_app_or; [by apply (Hhe step message)|].
      by apply (Herr step message).
    + destruct Herr as (before & step & e & -> & Hreq & Hopt & ->).
      exists (head ++ before), step, e. split; [by rewrite app_assoc|].
      split; [exact Hreq|]. split; [|reflexivity].
      intros step' message [Hin|Hin]%in_app_or; [by apply (Hhe step' message)|].
      by apply (Hopt step' message).
  - intros step i total service requestData Hs Hp Hreq Hfailed.
    apply in_app_or in Hs as [Hs|Hs]; apply in_app_or in Hp as [Hp|Hp].
    + pose proof (Hhs _ _ _ Hs) as ->.
      rewrite (Hhok _ _ _ _ Hs Hp Hreq) in Hfailed. discriminate.
    + pose proof (Hhs _ _ _ Hs) as ->. apply Hpay in Hp. lia.
    + pose proof (Hhp _ _ _ Hp) as ->. apply Hstart in Hs. lia.
    + by apply (Hfail step i total).
Qed.

Lemma runSteps_spec (steps : list TaskStep.t) :
  ∀ (index total : nat) (allServices : list X402Service.t)
    (context : ExecutionContext.t) (st : State),
    let run := runSteps config world steps index total allServices context st in
    ∃ new, log (fst run) = log st ++ new ∧ loopSpec index new (snd run).
Proof.
  induction steps as [|step rest IH]; intros index total allServices context st.
  - exists []. simpl. split; [by rewrite app_nil_r|].
    split; [split; intros; in_cases | intros ? ? ? | intros; in_cases]. in_cases.
  - cbn [runSteps].
    pose proof (executeStep_spec index step context allServices
                  (emit (onStepStart step index total) st)) as Hstep.
    destruct (executeStep config world index step context allServices
                (emit (onStepStart step index total) st)) as [st2 out].
    cbn [fst snd] in Hstep.
    destruct Hstep as [[Hlog [message ->]] | (service & requestData & Hlog & Hout)].
    + (* the service is unknown *)
      destruct (TaskStep.isRequired step) eqn:Hreq.
      * exists [onStepStart step index total; onStepError step message].
        cbn [fst snd emit log]. rewrite Hlog. cbn [emit log].
        split; [by rewrite <- app_assoc|]. split.
        -- split; intros; in_cases; lia.
        -- exists [onStepStart step index total], step, message.
           repeat split; [exact Hreq|]. intros ? ? ?. in_cases.
        -- intros; in_cases.
      * destruct (IH (S index) total allServices (stepFailed step message context)
                     (emit (onStepError step message) st2)) as (new & Hnew & Hspec).
        exists ([onStepStart step index total; onStepError step message] ++ new).
        rewrite Hnew. cbn [emit log]. rewrite Hlog. cbn [emit log].
        split; [by rewrite <- !app_assoc|].
        apply loopSpec_continue; [exact Hspec|..].
        -- intros; in_cases; reflexivity.
        -- intros; in_cases.
        -- intros ? ? ?. in_cases. exact Hreq.
        -- intros; in_cases.
    + destruct (PaymentResult.success (paymentOf index service requestData)) eqn:Hpaid.
      * (* the payment went through *)
        destruct Hout as [result ->].
        destruct (IH (S index) total allServices (stepDone index result context)
                     (emit (onStepComplete step result) st2)) as (new & Hnew & Hspec).
        exists ([onStepStart step index total; paymentCall index service requestData;
                 onStepComplete step result] ++ new).
        rewrite Hnew. cbn [emit log]. rewrite Hlog. cbn [emit log].
        split; [by rewrite <- !app_assoc|].
        apply loopSpec_continue; [exact Hspec|..].
        -- intros; in_cases; reflexivity.
        -- intros; in_cases; reflexivity.
        -- intros ? ? ?. in_cases.
        -- intros; in_cases. exact Hpaid.
      * (* the payment failed *)
        rewrite Hout. fold (paymentError index service requestData).
        destruct (TaskStep.isRequired step) eqn:Hreq.
        -- exists [onStepStart step index total; paymentCall index service requestData;
                   onStepError step (paymentError index service requestData)].
           cbn [fst snd emit log]. rewrite Hlog. cbn [emit log].
           split; [by rewrite <- !app_assoc|]. split.
           ++ split; intros; in_cases; lia.
           ++ exists [onStepStart step index total;
                      paymentCall index service requestData], step,
                (paymentError index service requestData).
              repeat split; [exact Hreq|]. intros ? ? ?. in_cases.
           ++ intros; in_cases. reflexivity.
        -- destruct (IH (S index) total allServices
                        (stepFailed step (paymentError index service requestData) context)
                        (emit (onStepError step (paymentError index service requestData)) st2))
             as (new & Hnew & Hspec).
           exists ([onStepStart step index total; paymentCall index service requestData;
                    onStepError step (paymentError index service requestData)] ++ new).
           rewrite Hnew. cbn [emit log]. rewrite Hlog. cbn [emit log].
           split; [by rewrite <- !app_assoc|].
           apply loopSpec_continue; [exact Hspec|..].
           ++ intros; in_cases; reflexivity.
           ++ intros; in_cases; reflexivity.
           ++ intros ? ? ?. in_cases. exact Hreq.
           ++ intros; in_cases. congruence.
Qed.

Lemma executeStep_memory (index : nat) (step : TaskStep.t) (context : ExecutionContext.t)
    (allServices : list X402Service.t) (st : State) :
  memory (fst (executeStep config world index step context allServices st)) = memory st.
Proof.
  unfold executeStep. destruct (find _ allServices) as [service|]; [|reflexivity].
  destruct (Payment.executePayment _ _ _ service _) as [payment data].
  by destruct (PaymentResult.success payment).
Qed.

(** The loop never writes to the pipeline history. *)
Lemma runSteps_memory (steps : list TaskStep.t) :
  ∀ (index total : nat) (allServices : list X402Service.t)
    (context : ExecutionContext.t) (st : State),
    memory (fst (runSteps config world steps index total allServices context st)) = memory st.
Proof.
  induction steps as [|step rest IH]; intros index total allServices context st; [reflexivity|].
  cbn [runSteps].
  pose proof (executeStep_memory index step context allServices
                (emit (onStepStart step index total) st)) as Hmem.
  destruct (executeStep config world index step context allServices
              (emit (onStepStart step index total) st)) as [st2 [result|message]];
    cbn [fst] in Hmem.
  - rewrite IH. exact Hmem.
  - destruct (TaskStep.isRequired step); [exact Hmem|]. rewrite IH. exact Hmem.
Qed.

(** What the body of the outer [try] has done when it ends. *)
Lemma tryPipeline_spec (query : string) (options : Options) (st : State) :
  let run := tryPipeline startOfDay formatSTX config world query options st in
  ∃ new,
    log (fst run) = log st ++ new
    ∧ match snd run with
      | Ok result => PipelineResult.success result = true ∧ optionalErrors new
      | Throw message =>
          memory (fst run) = memory st
          ∧ (optionalErrors new
             ∨ ∃ before step e,
                 new = before ++ [onStepError step e]
                 ∧ TaskStep.isRequired step = true
                 ∧ optionalErrors before
                 ∧ message = abortMessage e)
      end
    ∧ (∀ step i total service requestData,
         In (onStepStart step i total) new →
         In (paymentCall i service requestData) new →
         TaskStep.isRequired step = true →
         PaymentResult.success (paymentOf i service requestData) = false →
         snd run = Throw (abortMessage (paymentError i service requestData))).
Proof.
  unfold tryPipeline.
  assert (Hnil : log st = log st ++ []) by (by rewrite app_nil_r).
  destruct (catalog world) as [|service services]; [early_throw Hnil|].
  destruct (Planner.createPlan _ _ _ _ _ _) as [plan|]; [|early_throw Hnil].
  destruct (TaskPlan.steps plan) as [|step steps] eqn:Hsteps; [early_throw Hnil|].
  destruct (Spending.allowed _); cbn [negb].
  - match goal with
    | |- context [runSteps config world ?ss ?i ?t ?a ?c ?s] =>
        destruct (runSteps_spec ss i t a c s) as (new & Hnew & [Hidx Herr Hpay]);
          pose proof (runSteps_memory ss i t a c s) as Hmem;
          destruct (runSteps config world ss i t a c s) as [st2 [context|message]]
    end; cbn [fst snd] in *.
    + exists ([onPlanCreated plan] ++ new ++
              [onPipelineComplete
                 {| PipelineResult.pipelineId := pipelineId world;
                    PipelineResult.query := query;
                    PipelineResult.success := true;
                    PipelineResult.error := None;
                    PipelineResult.plan := Some plan;
                    PipelineResult.stepResults := ExecutionContext.results context;
                    PipelineResult.finalOutput := Some (compileFinalOutput context plan);
                    PipelineResult.totalCost := ExecutionContext.totalSpent context;
                    PipelineResult.timing := timing world |}]).
      cbn [emit log]. rewrite Hnew. cbn [emit log].
      split; [by rewrite <- !app_assoc|]. split; [split; [reflexivity|]|].
      * intros s m Hin. in_cases. by apply (Herr s m).
      * intros s i t sv rq Hs Hp Hreq Hfailed. in_cases.
        discriminate (Hpay s i t sv rq Hs Hp Hreq Hfailed).
    + exists ([onPlanCreated plan] ++ new). rewrite Hnew. cbn [emit log].
      split; [by rewrite <- !app_assoc|]. split; [split; [exact Hmem|right]|].
      * destruct Herr as (before & s & e & -> & Hreq & Hopt & ->).
        exists ([onPlanCreated plan] ++ before), s, e.
        split; [by rewrite <- app_assoc|]. split; [exact Hreq|]. split; [|reflexivity].
        intros s' m Hin. in_cases. by apply (Hopt s' m).
      * intros s i t sv rq Hs Hp Hreq Hfailed. in_cases.
        pose proof (Hpay s i t sv rq Hs Hp Hreq Hfailed) as Hthrow.
        by inversion Hthrow.
  - exists [onPlanCreated plan]. cbn [fst snd emit log].
    split; [reflexivity|].
    split; [split; [reflexivity|left; intros ? ? ?; in_cases]|intros; in_cases].
Qed.

(** Every failed run ends with the result of the outer [catch]: no plan, no
    step results, a total cost of zero; and nothing is saved to the history. *)
Lemma executePipeline_failure_result (query : string) (options : Options) (st : State) :
  let run := executePipeline startOfDay formatSTX config world query options st in
  PipelineResult.success (snd run) = false →
  PipelineResult.plan (snd run) = None
  ∧ PipelineResult.stepResults (snd run) = []
  ∧ PipelineResult.totalCost (snd run) = 0
  ∧ memory (fst run) = memory st.
Proof.
  unfold executePipeline.
  destruct (tryPipeline_spec query options st) as (new & _ & Hout & _).
  destruct (tryPipeline startOfDay formatSTX config world query options st)
    as [st' [result|message]]; cbn [fst snd] in *.
  - destruct Hout as [-> _]. discriminate.
  - destruct Hout as [Hmem _]. intros _. by rewrite Hmem.
Qed.

(** C3. Once a step whose [required] flag is not [false] has failed (the
    inner [catch] ran and reported it through [onStepError]), the run does
    nothing more: no [onStepStart] is emitted and no payment call is made
    after it, and the run ends with [success = false]. *)
Theorem required_failure_aborts (query : string) (options : Options) (st : State)
    (before after : list Action) (step : TaskStep.t) (message : string) :
  let run := executePipeline startOfDay formatSTX config world query options st in
  log (fst run) = log st ++ before ++ onStepError step message :: after →
  TaskStep.isRequired step = true →
  after = []
  ∧ (∀ later i total, ¬ In (onStepStart later i total) after)
  ∧ (∀ i service requestData, ¬ In (paymentCall i service requestData) after)
  ∧ PipelineResult.success (snd run) = false.
Proof.
  unfold executePipeline.
  destruct (tryPipeline_spec query options st) as (new & Hnew & Hout & _).
  destruct (tryPipeline startOfDay formatSTX config world query options st)
    as [st' [result|failure]]; cbn [fst snd] in *; intros Hlog Hreq;
    rewrite Hnew in Hlog; apply app_inv_head in Hlog.
  - destruct Hout as [_ Hopt].
    rewrite (Hopt step message) in Hreq; [discriminate|].
    rewrite Hlog. apply in_or_app. right. by left.
  - destruct Hout as [_ [Hopt | (prefix & s & e & -> & _ & Hopt & _)]].
    + rewrite (Hopt step message) in Hreq; [discriminate|].
      rewrite Hlog. apply in_or_app. right. by left.
    + assert (Hafter : after = []).
      { destruct after as [|a after _] using rev_ind; [reflexivity|].
        exfalso.
        change (onStepError step message :: after ++ [a])
          with ((onStepError step message :: after) ++ [a]) in Hlog.
        rewrite app_assoc in Hlog. apply app_inj_tail in Hlog as [-> _].
        rewrite (Hopt step message) in Hreq; [discriminate|].
        apply in_or_app. right. by left. }
      subst after. repeat split; intros; intros [].
Qed.

(** C4, as the code has it. When the Payment Provider answers a required
    step with [success = false] and the error [insufficient balance], the
    run fails and its top-level error is that message behind the prefix
    [Required step failed: ]. *)
Theorem required_payment_failure_error (query : string) (options : Options) (st : State)
    (new : list Action) (step : TaskStep.t) (index total : nat)
    (service : X402Service.t) (requestData : option JSON) :
  let run := executePipeline startOfDay formatSTX config world query options st in
  log (fst run) = log st ++ new →
  In (onStepStart step index total) new →
  In (paymentCall index service requestData) new →
  TaskStep.isRequired step = true →
  PaymentResult.success (paymentOf index service requestData) = false →
  PaymentResult.error (paymentOf index service requestData) = Some "insufficient balance" →
  PipelineResult.success (snd run) = false
  ∧ PipelineResult.error (snd run) = Some "Required step failed: insufficient balance".
Proof.
  unfold executePipeline.
  destruct (tryPipeline_spec query options st) as (new' & Hnew & _ & Hpay).
  destruct (tryPipeline startOfDay formatSTX config world query options st)
    as [st' [result|failure]]; cbn [fst snd] in *;
    intros Hlog Hstart Hcall Hreq Hfailed Herror;
    rewrite Hnew in Hlog; apply app_inv_head in Hlog; subst new';
    pose proof (Hpay step index total service requestData Hstart Hcall Hreq Hfailed)
      as Hthrow; [discriminate|].
  injection Hthrow as ->. unfold Orchestrator.paymentError. rewrite Herror. split; reflexivity.
Qed.

End OrchestratorFacts.

(** Scenario A: one market-data service priced 500 and the query
    [Get Bitcoin price] give a plan of one step and a complete run that
    costs 500, with one step result, saved to the history. *)
Example scenario_A :
  let run := Orchestrator.executePipeline Sample.utcDay decimal Sample.config
               Sample.allPaid "Get Bitcoin price" Sample.noOptions
               (Orchestrator.init Sample.config) in
  PipelineResult.success (snd run) = true
  ∧ PipelineResult.totalCost (snd run) = 500
  ∧ length (PipelineResult.stepResults (snd run)) = 1%nat
  ∧ (length <$> (TaskPlan.steps <$> PipelineResult.plan (snd run))) = Some 1%nat
  ∧ Orchestrator.memory (fst run) = [snd run].
Proof. intros run. do 4 (split; [vm_compute; reflexivity|]). vm_compute. reflexivity. Qed.

(** C2, at a run that aborts at its second step. The first step was paid
    (500 are in the ledger and [onStepComplete] reported the result); the
    second, required, step is refused. The result of the run then has no step
    results, a total cost of zero and no plan, and nothing was saved to the
    history. *)
Theorem executePipeline_abort_drops_partial_results :
  let run := Orchestrator.executePipeline Sample.utcDay decimal Sample.config
               Sample.refusedAtSecond "Summarize today's news" Sample.noOptions
               (Orchestrator.init Sample.config) in
  PipelineResult.success (snd run) = false
  ∧ PipelineResult.stepResults (snd run) = []
  ∧ PipelineResult.totalCost (snd run) = 0
  ∧ PipelineResult.plan (snd run) = None
  ∧ Orchestrator.memory (fst run) = []
  ∧ Spending.getTodaySpent Sample.utcDay 1010 (Orchestrator.spending (fst run)) = 500
  ∧ (∃ step result, In (Orchestrator.onStepComplete step result) (Orchestrator.log (fst run))
                    ∧ StepResult.cost result = Some 500).
Proof.
  intros run.
  do 6 (split; [vm_compute; reflexivity|]).
  eexists _, _. split; [vm_compute; do 3 right; left; reflexivity|reflexivity].
Qed.

Lemma required_failure_aborts_witness :
  let run := Orchestrator.executePipeline Sample.utcDay decimal Sample.config
               Sample.refusedAtOnce "Latest news" Sample.noOptions
               (Orchestrator.init Sample.config) in
  let step := Planner.makeStep 0 Sample.news in
  TaskStep.isRequired step = true
  ∧ Orchestrator.log (fst run) =
      take 3 (Orchestrator.log (fst run))
      ++ [Orchestrator.onStepError step "insufficient balance"]
  ∧ PipelineResult.success (snd run) = false.
Proof.
  intros run step.
  assert (Hreq : TaskStep.isRequired step = true) by reflexivity.
  assert (Hlog : Orchestrator.log (fst run) =
                 Orchestrator.log (Orchestrator.init Sample.config)
                 ++ take 3 (Orchestrator.log (fst run))
                 ++ Orchestrator.onStepError step "insufficient balance" :: [])
    by (vm_compute; reflexivity).
  split; [exact Hreq|]. split; [exact Hlog|].
  exact (proj2 (proj2 (proj2
    (required_failure_aborts Sample.utcDay decimal Sample.config Sample.refusedAtOnce
       "Latest news" Sample.noOptions (Orchestrator.init Sample.config)
       _ [] step "insufficient balance" Hlog Hreq)))).
Defined.

(** C4, as stated, fails: the top-level error is not the bare message. *)
Lemma top_level_error_is_prefixed :
  let run := Orchestrator.executePipeline Sample.utcDay decimal Sample.config
               Sample.refusedAtOnce "Latest news" Sample.noOptions
               (Orchestrator.init Sample.config) in
  TaskStep.isRequired (Planner.makeStep 0 Sample.news) = true
  ∧ In (Orchestrator.onStepStart (Planner.makeStep 0 Sample.news) 0 1)
       (Orchestrator.log (fst run))
  ∧ In (Orchestrator.paymentCall 0 Sample.news None) (Orchestrator.log (fst run))
  ∧ Orchestrator.paymentOf Sample.config Sample.refusedAtOnce 0 Sample.news None =
      Payment.failed "insufficient balance"
  ∧ PipelineResult.success (snd run) = false
  ∧ PipelineResult.error (snd run) ≠ Some "insufficient balance".
Proof.
  intros run.
  split; [reflexivity|].
  split; [vm_compute; right; left; reflexivity|].
  split; [vm_compute; do 2 right; left; reflexivity|].
  split; [vm_compute; reflexivity|].
  split; [vm_compute; reflexivity|].
  vm_compute. discriminate.
Qed.

Lemma required_payment_failure_error_witness :
  let run := Orchestrator.executePipeline Sample.utcDay decimal Sample.config
               Sample.refusedAtOnce "Latest news" Sample.noOptions
               (Orchestrator.init Sample.config) in
  PipelineResult.success (snd run) = false
  ∧ PipelineResult.error (snd run) = Some "Required step failed: insufficient balance".
Proof.
  intros run.
  apply (required_payment_failure_error Sample.utcDay decimal Sample.config
           Sample.refusedAtOnce "Latest news" Sample.noOptions
           (Orchestrator.init Sample.config) (Orchestrator.log (fst run))
           (Planner.makeStep 0 Sample.news) 0 1 Sample.news None).
  - reflexivity.
  - vm_compute. right. left. reflexivity.
  - vm_compute. do 2 right. left. reflexivity.
  - reflexivity.
  - vm_compute. reflexivity.
  - vm_compute. reflexivity.
Defined.

(** * Further properties *)

(** ** Sorting *)

Section SortFacts.

Context {A : Type}.
Variable cmp : A → A → Z.

Lemma insertSorted_perm (x : A) (l : list A) : insertSorted cmp x l ≡ₚ x :: l.
Proof.
  induction l as [|y l IH]; [reflexivity|]. simpl.
  destruct (cmp x y <=? 0); [reflexivity|].
  rewrite IH. apply Permutation_swap.
Qed.

Lemma sort_perm (l : list A) : sort cmp l ≡ₚ l.
Proof.
  induction l as [|x l IH]; [reflexivity|].
  unfold sort in *. simpl. rewrite insertSorted_perm. by rewrite IH.
Qed.

(** the comparator orders by a key *)
Variable key : A → Z.
Hypothesis cmp_key : ∀ a b, cmp a b ≤ 0 ↔ key a ≤ key b.

Lemma insertSorted_sorted (x : A) (l : list A) :
  StronglySorted (fun a b => key a ≤ key b) l →
  StronglySorted (fun a b => key a ≤ key b) (insertSorted cmp x l).
Proof.
  induction l as [|y l IH]; intros Hsorted; simpl.
  - by repeat constructor.
  - apply StronglySorted_inv in Hsorted as [Hl Hy].
    destruct (cmp x y <=? 0) eqn:Hxy.
    + apply Z.leb_le, cmp_key in Hxy. constructor; [by constructor|].
      constructor; [exact Hxy|].
      eapply Forall_impl; [exact Hy|]. intros z Hz. simpl in Hz. lia.
    + apply Z.leb_gt in Hxy. assert (Hyx : key y ≤ key x).
      { destruct (Z_le_gt_dec (key y) (key x)) as [H|H]; [exact H|].
        assert (cmp x y ≤ 0) by (apply cmp_key; lia). lia. }
      constructor; [by apply IH|].
      rewrite insertSorted_perm. by constructor.
Qed.

Lemma sort_sorted (l : list A) : StronglySorted (fun a b => key a ≤ key b) (sort cmp l).
Proof.
  induction l as [|x l IH]; [constructor|].
  unfold sort in *. simpl. by apply insertSorted_sorted.
Qed.

End SortFacts.

Lemma StronglySorted_take {A : Type} (R : A → A → Prop) (n : nat) (l : list A) :
  StronglySorted R l → StronglySorted R (take n l).
Proof.
  intros Hsorted. rewrite <- (take_drop n l) in Hsorted.
  by apply StronglySorted_app_1_l in Hsorted.
Qed.

(** ** More of the Spend Ledger *)

Section SpendingOpsFacts.
Import Spending SpendingOps.

Variable startOfDay : Z → Z.
Variable formatSTX : Z → string.

Lemma canSpend_allowed (t : SpendingTracker) (now amount : Z) :
  allowed (canSpend startOfDay formatSTX now amount t) = true
  ↔ amount ≤ maxPerTask t ∧ getTodaySpent startOfDay now t + amount ≤ maxPerDay t.
Proof.
  unfold canSpend.
  destruct (maxPerTask t <? amount) eqn:Htask; simpl.
  - apply Z.ltb_lt in Htask. split; [done|]. intros [? _]. lia.
  - apply Z.ltb_ge in Htask.
    destruct (maxPerDay t <? getTodaySpent startOfDay now t + amount) eqn:Hday; simpl.
    + apply Z.ltb_lt in Hday. split; [done|]. intros [_ ?]. lia.
    + apply Z.ltb_ge in Hday. done.
Qed.

(** [canSpend] allows an amount exactly when it is within the per-task limit
    and keeps today's spend within the daily limit; it gives a reason exactly
    when it refuses. *)
Theorem canSpend_allowed_iff (t : SpendingTracker) (now amount : Z) :
  (allowed (canSpend startOfDay formatSTX now amount t) = true
   ↔ amount ≤ maxPerTask t ∧ getTodaySpent startOfDay now t + amount ≤ maxPerDay t)
  ∧ (reason (canSpend startOfDay formatSTX now amount t) = None
     ↔ allowed (canSpend startOfDay formatSTX now amount t) = true).
Proof.
  unfold canSpend.
  destruct (maxPerTask t <? amount) eqn:Htask; simpl.
  - apply Z.ltb_lt in Htask. split; split; try done. intros [? _]. lia.
  - apply Z.ltb_ge in Htask.
    destruct (maxPerDay t <? getTodaySpent startOfDay now t + amount) eqn:Hday; simpl.
    + apply Z.ltb_lt in Hday. split; split; try done. intros [_ ?]. lia.
    + apply Z.ltb_ge in Hday. split; split; done.
Qed.

(** The remaining daily budget of [getSummary] is never negative, and for a
    positive amount within the per-task limit [canSpend] allows exactly the
    amounts up to it. *)
Theorem remainingToday_is_what_canSpend_allows (t : SpendingTracker) (now amount : Z) :
  0 < amount → amount ≤ maxPerTask t →
  let remaining := remainingToday (limits (getSummary startOfDay now t)) in
  0 ≤ remaining
  ∧ remaining = Z.max 0 (maxPerDay t - getTodaySpent startOfDay now t)
  ∧ (allowed (canSpend startOfDay formatSTX now amount t) = true ↔ amount ≤ remaining).
Proof.
  intros Hpos Htask remaining.
  assert (Hrem : remaining = Z.max 0 (maxPerDay t - getTodaySpent startOfDay now t)).
  { unfold remaining, getSummary. simpl.
    destruct (getTodaySpent startOfDay now t <? maxPerDay t) eqn:Hlt.
    - apply Z.ltb_lt in Hlt. lia.
    - apply Z.ltb_ge in Hlt. lia. }
  split; [lia|]. split; [exact Hrem|].
  rewrite (canSpend_allowed t now amount). lia.
Qed.

(** A payment that [canSpend] allowed and that is then recorded in STX on
    the same day leaves today's spend within the daily limit. *)
Theorem canSpend_then_record_within_daily (t : SpendingTracker) (now time amount : Z)
    (serviceId serviceName : string) (txId : option string) :
  allowed (canSpend startOfDay formatSTX now amount t) = true →
  startOfDay now ≤ time →
  getTodaySpent startOfDay now
    (recordPayment time amount "STX" serviceId serviceName txId t) =
    getTodaySpent startOfDay now t + amount
  ∧ getTodaySpent startOfDay now
      (recordPayment time amount "STX" serviceId serviceName txId t) ≤ maxPerDay t.
Proof.
  intros Hallowed Htoday.
  apply canSpend_allowed in Hallowed as [_ Hday].
  rewrite getTodaySpent_recordPayment.
  apply Z.leb_le in Htoday. rewrite Htoday. simpl. lia.
Qed.

(** Recording a payment of a non-negative amount never lowers a total: the
    all-time total grows by the amount when the asset is STX and stays
    otherwise, and so does today's total when the payment is of today. *)
Theorem totals_never_decrease (t : SpendingTracker) (now time amount : Z)
    (asset serviceId serviceName : string) (txId : option string) :
  0 ≤ amount →
  let t' := recordPayment time amount asset serviceId serviceName txId t in
  allTimeTotal (allTime (getSummary startOfDay now t')) =
    allTimeTotal (allTime (getSummary startOfDay now t))
    + (if String.eqb asset "STX" then amount else 0)
  ∧ allTimeTotal (allTime (getSummary startOfDay now t))
    ≤ allTimeTotal (allTime (getSummary startOfDay now t'))
  ∧ total (today (getSummary startOfDay now t))
    ≤ total (today (getSummary startOfDay now t')).
Proof.
  intros Hpos t'.
  assert (Hall : allTimeTotal (allTime (getSummary startOfDay now t')) =
                 allTimeTotal (allTime (getSummary startOfDay now t))
                 + (if String.eqb asset "STX" then amount else 0)).
  { unfold t', getSummary, recordPayment. simpl.
    rewrite List.filter_app, sumAmounts_app. f_equal. simpl. unfold isSTX. simpl.
    destruct (String.eqb asset "STX"); [|reflexivity].
    rewrite sumAmounts_cons. unfold sumAmounts. simpl. lia. }
  split; [exact Hall|]. split.
  - rewrite Hall. destruct (String.eqb asset "STX"); lia.
  - unfold t', getSummary. simpl. rewrite getTodaySpent_recordPayment.
    destruct ((startOfDay now <=? time) && String.eqb asset "STX"); lia.
Qed.

(** After [resetDaily()] nothing is spent today and no transaction is of
    today, the records from before today are kept in their order, and the
    limits are as they were. *)
Theorem resetDaily_clears_today (t : SpendingTracker) (now : Z) :
  let t' := resetDaily startOfDay now t in
  getTodaySpent startOfDay now t' = 0
  ∧ transactions (today (getSummary startOfDay now t')) = 0%nat
  ∧ records t' = List.filter (fun r => timestamp r <? startOfDay now) (records t)
  ∧ maxPerTask t' = maxPerTask t ∧ maxPerDay t' = maxPerDay t.
Proof.
  intros t'.
  assert (Hnone : ∀ p : SpendingRecord → bool,
            List.filter (fun r => (startOfDay now <=? timestamp r) && p r) (records t') = []).
  { intros p. unfold t', resetDaily. simpl.
    induction (records t) as [|r l IH]; [reflexivity|]. simpl.
    destruct (timestamp r <? startOfDay now) eqn:Hold; [|exact IH].
    simpl. apply Z.ltb_lt in Hold.
    destruct (startOfDay now <=? timestamp r) eqn:Hnew; [apply Z.leb_le in Hnew; lia|].
    exact IH. }
  split; [|split; [|done]].
  - unfold getTodaySpent. by rewrite Hnone.
  - unfold getSummary. simpl.
    pose proof (Hnone (fun _ => true)) as H.
    erewrite List.filter_ext in H; [rewrite H; reflexivity|].
    intros r. by rewrite andb_true_r.
Qed.

(** Raising the limits with [setLimits] never turns an allowed spend into a
    refused one; an omitted limit keeps its value, and the records and
    today's spend are untouched. *)
Theorem setLimits_raising_keeps_allowed (t : SpendingTracker) (now amount perTask perDay : Z) :
  maxPerTask t ≤ perTask → maxPerDay t ≤ perDay →
  allowed (canSpend startOfDay formatSTX now amount t) = true →
  allowed (canSpend startOfDay formatSTX now amount
             (setLimits (Some perTask) (Some perDay) t)) = true
  ∧ maxPerDay (setLimits (Some perTask) None t) = maxPerDay t
  ∧ maxPerTask (setLimits None (Some perDay) t) = maxPerTask t
  ∧ getTodaySpent startOfDay now (setLimits (Some perTask) (Some perDay) t) =
    getTodaySpent startOfDay now t.
Proof.
  intros Htask Hday Hallowed.
  apply canSpend_allowed in Hallowed as [H1 H2].
  split; [|done].
  apply canSpend_allowed. simpl.
  change (getTodaySpent startOfDay now (setLimits (Some perTask) (Some perDay) t))
    with (getTodaySpent startOfDay now t). lia.
Qed.

(** [getRecentTransactions(limit)] lists recorded payments, newest first, and
    at most [limit] of them (all of them when there are fewer). *)
Theorem getRecentTransactions_newest_first (t : SpendingTracker) (limit : option Z) :
  0 ≤ default 10 limit →
  let recent := getRecentTransactions limit t in
  StronglySorted (fun a b => timestamp b ≤ timestamp a) recent
  ∧ (∀ r, r ∈ recent → r ∈ records t)
  ∧ length recent = Nat.min (Z.to_nat (default 10 limit)) (length (records t)).
Proof.
  intros Hlimit recent. unfold recent, getRecentTransactions, slice0.
  destruct (default 10 limit <? 0) eqn:Hneg; [apply Z.ltb_lt in Hneg; lia|].
  set (cmp := fun a b : SpendingRecord => timestamp b - timestamp a).
  split; [|split].
  - apply StronglySorted_take.
    pose proof (sort_sorted cmp (fun r => - timestamp r)) as Hsorted.
    assert (Hkey : ∀ a b, cmp a b ≤ 0 ↔ - timestamp a ≤ - timestamp b)
      by (intros a b; unfold cmp; lia).
    specialize (Hsorted Hkey (records t)).
    induction Hsorted as [|a l Hl IH Ha]; constructor; [exact IH|].
    eapply Forall_impl; [exact Ha|]. intros b Hb. simpl in Hb. lia.
  - intros r Hin. apply elem_of_take in Hin as (i & Hi & _).
    apply list_elem_of_lookup_2 in Hi. by rewrite (sort_perm cmp) in Hi.
  - by rewrite length_take, (sort_perm cmp).
Qed.

End SpendingOpsFacts.

(** ** More of the history log *)

Section HistoryMore.
Import History.

Context {HistoryEntry : Type}.

(** A log within its bound stays within it: the new entry comes first, the
    49 most recent entries follow, and only an entry beyond them is dropped. *)
Lemma addToHistory_keeps_bound (e : HistoryEntry) (h : list HistoryEntry) :
  (length h ≤ MAX_HISTORY)%nat →
  addToHistory e h = e :: take (MAX_HISTORY - 1) h
  ∧ (length (addToHistory e h) ≤ MAX_HISTORY)%nat
  ∧ length (addToHistory e h) = Nat.min (S (length h)) MAX_HISTORY.
Proof.
  intros Hlen. rewrite addToHistory_take by exact Hlen.
  unfold MAX_HISTORY in *. simpl. rewrite length_take. repeat split; lia.
Qed.

(** Up to 50 insertions lose nothing: the log is the inserted entries, the
    most recent first. *)
Theorem history_below_capacity (inserted : list HistoryEntry) :
  (length inserted ≤ MAX_HISTORY)%nat →
  afterInserting inserted = rev inserted
  ∧ length (afterInserting inserted) = length inserted.
Proof.
  intros Hlen. rewrite afterInserting_take.
  rewrite take_ge by (rewrite length_rev; exact Hlen).
  by rewrite length_rev.
Qed.

End HistoryMore.

(** ** The Payment Provider *)

Section PaymentFacts.
Import Payment.



(** When the wallet does not cover the price, the answer does not depend on
    the paid request: none is needed to give it. *)
Theorem executePayment_insufficient_balance (network : Network) (balances : Wallet.Balances)
    (http http' : Request → HttpOutcome) (service : X402Service.t)
    (requestData : option JSON) :
  let price := X402Service.price service in
  Wallet.hasSufficientBalance balances (Price.amount price) (Price.asset price) = false →
  executePayment network balances http service requestData =
    (failed ("Insufficient " +:+ Price.asset price +:+ " balance"), None)
  ∧ executePayment network balances http service requestData =
    executePayment network balances http' service requestData.
Proof.
  intros price Hlow. unfold executePayment. fold price. by rewrite Hlow.
Qed.

(** A request is a [GET] without a body or a [POST] with a truthy body; a
    service whose URL has [/news/] or [/price/] in it is always read with [GET]. *)
Theorem requestFor_method_and_body (service : X402Service.t) (requestData : option JSON) :
  let request := requestFor service requestData in
  url request = X402Service.url service
  ∧ match method request with
    | GET => data request = None
    | POST => truthyData (data request) = true
    end
  ∧ (includes (X402Service.url service) "/news/" ||
     includes (X402Service.url service) "/price/" = true →
     method request = GET).
Proof.
  unfold requestFor. simpl. split; [reflexivity|].
  destruct (includes (X402Service.url service) "/news/" ||
            includes (X402Service.url service) "/price/"); simpl.
  - rewrite andb_false_r. done.
  - rewrite andb_true_r.
    destruct (_ || _ || _ || _ || _); simpl; [|done].
    split; [|done]. by destruct (truthyData requestData) eqn:Ht.
Qed.

(** A request body sent with [POST] is the interpolated payload when that is
    truthy. *)
Lemma requestFor_post_body (service : X402Service.t) (requestData : option JSON) :
  method (requestFor service requestData) = POST →
  truthyData requestData = true →
  data (requestFor service requestData) = requestData.
Proof.
  unfold requestFor. simpl. destruct (_ && _); [|done]. by intros _ ->.
Qed.

Section PreviewFacts.

Variable formatPrice : Z → string → string.

Lemma toUpperCase_STX : toUpperCase "STX" = "STX".
Proof. reflexivity. Qed.

(** For a service priced in STX the preview is more lenient than the
    payment: whenever the payment's balance check passes, the preview says
    [canAfford]; but a balance that covers the price and not the fee buffer
    of 10000 passes the preview and fails the payment. *)
Theorem previewPayment_ignores_fee_buffer (network : Network) (balances : Wallet.Balances)
    (http : Request → HttpOutcome) (service : X402Service.t) (requestData : option JSON) :
  Price.asset (X402Service.price service) = "STX" →
  let cost := X402Service.cost service in
  (Wallet.hasSufficientBalance balances cost "STX" = true →
   Preview.canAfford (Preview.previewPayment formatPrice balances service) = true)
  ∧ (cost ≤ Wallet.stx balances < cost + 10000 →
     Preview.canAfford (Preview.previewPayment formatPrice balances service) = true
     ∧ PaymentResult.success
         (fst (executePayment network balances http service requestData)) = false).
Proof.
  intros Hasset cost. unfold Preview.previewPayment, Preview.balanceFor.
  rewrite Hasset. simpl. fold cost. split.
  - unfold Wallet.hasSufficientBalance. simpl. intros H%Z.leb_le.
    apply Z.leb_le. lia.
  - intros [Hlo Hhi]. split; [apply Z.leb_le; lia|].
    unfold executePayment. rewrite Hasset.
    replace (Wallet.hasSufficientBalance balances _ "STX") with false; [reflexivity|].
    unfold Wallet.hasSufficientBalance. simpl. symmetry. apply Z.leb_gt.
    unfold cost, X402Service.cost in *. lia.
Qed.

End PreviewFacts.

End PaymentFacts.

(** ** Catalog queries *)

Section DiscoveryFacts.
Import Discovery.

Lemma lowerChar_upperChar (c : ascii) : lowerChar (upperChar c) = lowerChar c.
Proof.
  unfold lowerChar, upperChar.
  destruct ((97 <=? nat_of_ascii c) && (nat_of_ascii c <=? 122))%nat eqn:Hlow;
    [|reflexivity].
  apply andb_true_iff in Hlow as [H1%Nat.leb_le H2%Nat.leb_le].
  rewrite nat_ascii_embedding by lia.
  replace ((65 <=? nat_of_ascii c - 32) && (nat_of_ascii c - 32 <=? 90))%nat with true
    by (symmetry; apply andb_true_iff; split; apply Nat.leb_le; lia).
  replace ((65 <=? nat_of_ascii c) && (nat_of_ascii c <=? 90))%nat with false
    by (symmetry; apply andb_false_iff; right; apply Nat.leb_gt; lia).
  replace (nat_of_ascii c - 32 + 32)%nat with (nat_of_ascii c) by lia.
  apply ascii_nat_embedding.
Qed.

Lemma toLowerCase_toUpperCase (s : string) : toLowerCase (toUpperCase s) = toLowerCase s.
Proof.
  induction s as [|c s IH]; [reflexivity|]. simpl. by rewrite lowerChar_upperChar, IH.
Qed.

Lemma includes_empty (hay : string) : includes hay "" = true.
Proof. by destruct hay. Qed.

(** [searchServices] keeps catalog services in catalog order; with an empty
    query it keeps every service; and for a query in the ASCII range it does
    not tell upper case from lower case in the query. *)
Theorem searchServices_filters_catalog (query : string) (allServices : list X402Service.t) :
  sublist (searchServices query allServices) allServices
  ∧ searchServices "" allServices = allServices
  ∧ (isASCII query = true →
     searchServices (toUpperCase query) allServices = searchServices query allServices).
Proof.
  split; [|split].
  - unfold searchServices. induction allServices as [|s l IH]; simpl; [constructor|].
    destruct (_ || _ || _); by constructor.
  - unfold searchServices. simpl.
    induction allServices as [|s l IH]; [reflexivity|]. simpl.
    rewrite includes_empty. simpl. by rewrite IH.
  - intros _. unfold searchServices. by rewrite toLowerCase_toUpperCase.
Qed.


End DiscoveryFacts.

(** ** Service selection *)

Section SelectorFacts.
Import Selector.

Context {Confidence : Type}.
Variable certain fallback : Confidence.


End SelectorFacts.

(** ** Display helpers *)

Section FormattingFacts.
Import Formatting.

Lemma length_substring (n m : nat) (s : string) :
  String.length (String.substring n m s) = Nat.min m (String.length s - n).
Proof.
  revert n m. induction s as [|c s IH]; intros n m.
  - destruct n, m; reflexivity.
  - destruct n as [|n]; [destruct m as [|m]; [reflexivity|]|]; simpl.
    + rewrite IH. f_equal. f_equal. lia.
    + apply IH.
Qed.

Lemma substring_prefix (p r : string) :
  String.substring 0 (String.length p) (p +:+ r) = p.
Proof.
  induction p as [|c p IH]; simpl.
  - by destruct r.
  - by rewrite IH.
Qed.

Lemma substring_suffix (x suffix : string) :
  String.substring (String.length x) (String.length suffix) (x +:+ suffix) = suffix.
Proof.
  induction x as [|c x IH]; simpl.
  - change ("" +:+ suffix) with suffix. clear.
    induction suffix as [|c s IHs]; [reflexivity|]. simpl. by rewrite IHs.
  - exact IH.
Qed.

(** [truncateAddress] leaves an address of at most 16 characters as it is
    and shortens a longer one to 17 characters: its first 8, three dots and
    its last 6. Truncating twice is truncating once. *)
Theorem truncateAddress_shape (address : string) :
  (if (String.length address <=? 16)%nat
   then truncateAddress address = address
   else String.length (truncateAddress address) = 17%nat)
  ∧ truncateAddress (truncateAddress address) = truncateAddress address.
Proof.
  unfold truncateAddress at 1 2 4.
  destruct (String.length address <=? 16)%nat eqn:Hshort.
  - split; [reflexivity|]. unfold truncateAddress. by rewrite Hshort.
  - apply Nat.leb_gt in Hshort.
    assert (H8 : String.length (sliceTo 8 address) = 8%nat)
      by (unfold sliceTo; rewrite length_substring; lia).
    assert (H6 : String.length (sliceLast 6 address) = 6%nat)
      by (unfold sliceLast; rewrite length_substring; lia).
    set (first := sliceTo 8 address) in *. set (last := sliceLast 6 address) in *.
    assert (Hlen : String.length (first +:+ "..." +:+ last) = 17%nat)
      by (rewrite !string_length_app, H8, H6; reflexivity).
    split; [exact Hlen|].
    unfold truncateAddress. rewrite Hlen. simpl Nat.leb. cbv iota.
    replace (String.length address <=? 16)%nat with false
      by (symmetry; apply Nat.leb_gt; exact Hshort).
    fold first last. f_equal; [|f_equal].
    + unfold sliceTo. rewrite <- H8 at 1. apply substring_prefix.
    + unfold sliceLast. rewrite Hlen.
      rewrite <- string_app_assoc.
      replace (17 - 6)%nat with (String.length (first +:+ "..."))
        by (rewrite string_length_app, H8; reflexivity).
      rewrite <- H6 at 1. apply substring_suffix.
Qed.

End FormattingFacts.

(** ** More of the Plan Builder *)

Section PlannerMore.
Import Planner PlannerSpec.

Lemma to_int_not_nil (z : Z) :
  Z.to_int z ≠ Decimal.Pos Decimal.Nil ∧ Z.to_int z ≠ Decimal.Neg Decimal.Nil.
Proof.
  destruct z as [|p|p]; simpl; split; try discriminate;
    intros [= H]; by apply Unsigned.to_uint_nonnil in H.
Qed.

(** distinct integers have distinct decimal texts *)
Lemma decimal_inj (a b : Z) : decimal a = decimal b → a = b.
Proof.
  unfold decimal. intros H. apply DecimalZ.to_int_inj.
  apply (f_equal NilZero.int_of_string) in H.
  destruct (to_int_not_nil a) as [Ha1 Ha2]. destruct (to_int_not_nil b) as [Hb1 Hb2].
  rewrite !NilZero.isi in H by assumption. by injection H.
Qed.

Lemma existsb_eqb_elem_of (i : nat) (l : list nat) : existsb (Nat.eqb i) l = true ↔ i ∈ l.
Proof.
  rewrite existsb_exists, list_elem_of_In. split.
  - intros (x & Hin & Heq). apply Nat.eqb_eq in Heq. by subst.
  - intros Hin. exists i. split; [exact Hin|apply Nat.eqb_refl].
Qed.

(** The best service for a task stands in the catalog at the position given,
    with the score given. *)
Lemma bestFor_spec (task : TaskPattern) (selected : list nat)
    (services : list X402Service.t) (best : nat * X402Service.t) (bestScore : Z) :
  bestFor task selected services = (Some best, bestScore) →
  services !! fst best = Some (snd best)
  ∧ bestScore = taskScore task selected (fst best) (snd best).
Proof.
  unfold bestFor.
  set (step := fun (b : option (nat * X402Service.t) * Z) (entry : nat * X402Service.t) => _).
  assert (Hgen : ∀ entries acc,
            (∀ e, e ∈ entries → services !! fst e = Some (snd e)) →
            (∀ e, fst acc = Some e →
                  services !! fst e = Some (snd e)
                  ∧ snd acc = taskScore task selected (fst e) (snd e)) →
            ∀ e, fst (fold_left step entries acc) = Some e →
                 services !! fst e = Some (snd e)
                 ∧ snd (fold_left step entries acc) = taskScore task selected (fst e) (snd e)).
  { induction entries as [|entry entries IH]; intros acc Hentries Hacc; [exact Hacc|].
    simpl. apply IH.
    - intros e He. apply Hentries. by right.
    - unfold step. destruct (snd acc <? _); [|exact Hacc].
      simpl. intros e [= <-]. split; [|reflexivity]. apply Hentries. by left. }
  intros Hbest. specialize (Hgen (imap pair services) (None, 0)).
  rewrite Hbest in Hgen. apply Hgen; [|done|reflexivity].
  intros e (i & s & -> & Hi)%elem_of_lookup_imap. exact Hi.
Qed.

(** The pattern tier never selects a service twice: the services it selects
    stand at pairwise distinct positions of the catalog. *)
Theorem selectForTasks_never_reuses (tasks : list TaskPattern)
    (services : list X402Service.t) (maxBudget : Z) :
  distinctPositions services (fst (selectForTasks tasks services maxBudget)).
Proof.
  unfold selectForTasks.
  set (step := fun (acc : list (nat * X402Service.t) * Z) (task : TaskPattern) => _).
  assert (Hgen : ∀ acc, distinctPositions services (fst acc) →
                        distinctPositions services (fst (fold_left step tasks acc))).
  { induction tasks as [|task tasks IH]; intros acc Hacc; [exact Hacc|].
    simpl. apply IH. unfold step. destruct acc as [selected runningCost].
    destruct (bestFor task (map fst selected) services) as [[best|] bestScore] eqn:Hbest;
      [|exact Hacc].
    destruct (0 <? bestScore) eqn:Hpos; [|exact Hacc].
    destruct (runningCost + X402Service.cost (snd best) <=? maxBudget); [|exact Hacc].
    apply bestFor_spec in Hbest as [Hlookup Hscore]. apply Z.ltb_lt in Hpos.
    destruct Hacc as [Hnodup Hin]. simpl in *. split.
    - rewrite map_app. simpl. apply NoDup_app. split; [exact Hnodup|].
      split; [|apply NoDup_singleton].
      intros i Hi ->%list_elem_of_singleton.
      apply existsb_eqb_elem_of in Hi. unfold taskScore in Hscore.
      rewrite Hi in Hscore. lia.
    - intros e [He| ->%list_elem_of_singleton]%elem_of_app; [by apply Hin|exact Hlookup]. }
  apply (Hgen ([], 0)). split; [constructor|]. intros e He. by apply elem_of_nil in He.
Qed.

Lemma fromCatalog_empty (services : list X402Service.t) (maxBudget : Z) :
  fromCatalog services maxBudget ([], 0).
Proof. repeat split; done. Qed.

Lemma fromCatalog_add (services : list X402Service.t) (maxBudget : Z)
    (selected : list X402Service.t) (runningCost : Z) (s : X402Service.t) :
  fromCatalog services maxBudget (selected, runningCost) →
  In s services → runningCost + X402Service.cost s ≤ maxBudget →
  fromCatalog services maxBudget (selected ++ [s], runningCost + X402Service.cost s).
Proof.
  intros ([Hsum Hle] & Hfrom & Haff) Hin Hfits. simpl in *.
  split; [split|split]; simpl.
  - rewrite sumPrices_snoc. lia.
  - intros _. exact Hfits.
  - intros x [Hx|[<-|[]]]%in_app_or; auto.
  - intros _. destruct selected as [|y selected].
    + exists s. split; [by left|]. simpl in Hsum. lia.
    + destruct Haff as (a & Ha & Hcost); [done|].
      exists a. split; [|exact Hcost]. apply in_or_app. by left.
Qed.

Lemma selectForTasks_fromCatalog (tasks : list TaskPattern)
    (services : list X402Service.t) (maxBudget : Z) :
  fromCatalog services maxBudget
    (map snd (fst (selectForTasks tasks services maxBudget)),
     snd (selectForTasks tasks services maxBudget)).
Proof.
  unfold selectForTasks.
  set (step := fun (acc : list (nat * X402Service.t) * Z) (task : TaskPattern) => _).
  assert (Hgen : ∀ acc,
            fromCatalog services maxBudget (map snd (fst acc), snd acc) →
            fromCatalog services maxBudget
              (map snd (fst (fold_left step tasks acc)), snd (fold_left step tasks acc))).
  { induction tasks as [|task tasks IH]; intros acc Hacc; [exact Hacc|].
    simpl. apply IH. unfold step. destruct acc as [selected runningCost].
    destruct (bestFor task (map fst selected) services) as [[best|] bestScore] eqn:Hbest;
      [|exact Hacc].
    destruct (0 <? bestScore); [|exact Hacc].
    destruct (runningCost + X402Service.cost (snd best) <=? maxBudget) eqn:Hfits;
      [|exact Hacc].
    apply bestFor_spec in Hbest as [Hlookup _]. apply Z.leb_le in Hfits.
    cbn [fst snd] in *. rewrite map_app. cbn [map].
    apply fromCatalog_add; [exact Hacc| |exact Hfits].
    apply list_elem_of_In. by apply list_elem_of_lookup_2 in Hlookup. }
  apply (Hgen ([], 0)). apply fromCatalog_empty.
Qed.

Lemma takeWithinBudget_fromCatalog (services : list X402Service.t)
    (maxSteps : Number.t) (maxBudget : Z) (scored : list (X402Service.t * Z))
    (selected : list X402Service.t) (runningCost : Z) :
  (∀ e, In e scored → In (fst e) services) →
  fromCatalog services maxBudget (selected, runningCost) →
  fromCatalog services maxBudget
    (takeWithinBudget maxSteps maxBudget scored selected runningCost).
Proof.
  revert selected runningCost. induction scored as [|[service score] scored IH];
    intros selected runningCost Hscored Hacc; simpl; [exact Hacc|].
  destruct (Number.reachedBy maxSteps _); [exact Hacc|].
  destruct ((score =? 0) && _); [exact Hacc|].
  destruct (runningCost + X402Service.cost service <=? maxBudget) eqn:Hfits.
  - apply IH; [intros e He; apply Hscored; by right|].
    apply Z.leb_le in Hfits. apply fromCatalog_add; [exact Hacc| |exact Hfits].
    apply (Hscored (service, score)). by left.
  - apply IH; [intros e He; apply Hscored; by right|exact Hacc].
Qed.

(** The cheapest-service fallback picks a catalog service of the lowest
    price, and only when the budget covers that price. *)
Lemma pickCheapest_minimal (services : list X402Service.t) (maxBudget : Z)
    (selected : list X402Service.t) (runningCost : Z) :
  pickCheapest services maxBudget = Some (selected, runningCost) →
  ∃ cheapest,
    selected = [cheapest]
    ∧ runningCost = X402Service.cost cheapest
    ∧ In cheapest services
    ∧ X402Service.cost cheapest ≤ maxBudget
    ∧ ∀ s, In s services → X402Service.cost cheapest ≤ X402Service.cost s.
Proof.
  unfold pickCheapest.
  set (cmp := fun a b : X402Service.t => X402Service.cost a - X402Service.cost b).
  pose proof (sort_perm cmp services) as Hperm.
  pose proof (sort_sorted cmp X402Service.cost) as Hsorted.
  assert (Hkey : ∀ a b, cmp a b ≤ 0 ↔ X402Service.cost a ≤ X402Service.cost b)
    by (intros a b; unfold cmp; lia).
  specialize (Hsorted Hkey services).
  destruct (sort cmp services) as [|cheapest rest]; [done|].
  destruct (X402Service.cost cheapest <=? maxBudget) eqn:Hfits; [|done].
  intros [= <- <-]. exists cheapest. apply Z.leb_le in Hfits.
  split; [reflexivity|]. split; [reflexivity|]. split; [|split; [exact Hfits|]].
  - apply list_elem_of_In. rewrite <- Hperm. by left.
  - intros s Hs. apply list_elem_of_In in Hs. rewrite <- Hperm in Hs.
    apply StronglySorted_inv in Hsorted as [_ Hall].
    apply elem_of_cons in Hs as [->|Hs]; [lia|].
    by apply (proj1 (Forall_forall _ _) Hall).
Qed.


Lemma finishPlan_selected (now : Z) (query : string) (services : list X402Service.t)
    (maxBudget : Z) (selection : list X402Service.t * Z) (plan : TaskPlan.t) :
  fromCatalog services maxBudget selection →
  finishPlan now query services maxBudget selection = Some plan →
  ∃ selected,
    plan = makePlan now query selected (sumPrices selected)
    ∧ selected ≠ []
    ∧ fromCatalog services maxBudget (selected, sumPrices selected).
Proof.
  intros Hsel. unfold finishPlan.
  destruct selection as [[|s selected] runningCost]; simpl.
  - destruct (pickCheapest services maxBudget) as [[sel cost]|] eqn:Hpick; [|done].
    apply pickCheapest_minimal in Hpick as (c & -> & -> & Hin & Hfits & _).
    intros [= <-]. exists [c]. simpl. rewrite Z.add_0_r.
    split; [reflexivity|]. split; [done|].
    replace (X402Service.cost c) with (0 + X402Service.cost c) by lia.
    apply (fromCatalog_add services maxBudget [] 0 c);
      [apply fromCatalog_empty|exact Hin|lia].
  - intros [= <-]. destruct Hsel as ([Hsum Hle] & Hfrom & Haff). simpl in Hsum.
    exists (s :: selected). subst runningCost.
    split; [reflexivity|]. split; [done|]. by repeat split.
Qed.

Lemma sort_scored_from (cmp : X402Service.t * Z → X402Service.t * Z → Z)
    (score : X402Service.t → Z) (services : list X402Service.t) (e : X402Service.t * Z) :
  In e (sort cmp (map (fun s => (s, score s)) services)) → In (fst e) services.
Proof.
  intros He. apply list_elem_of_In in He. rewrite sort_perm in He.
  apply list_elem_of_In, in_map_iff in He as (s & <- & Hs). exact Hs.
Qed.

(** The services behind the steps of a heuristic plan. *)
Lemma createHeuristicPlan_selected (now : Z) (query : string)
    (services : list X402Service.t) (maxSteps : Number.t) (maxBudget : Z)
    (plan : TaskPlan.t) :
  createHeuristicPlan now query services maxSteps maxBudget = Some plan →
  ∃ selected,
    plan = makePlan now query selected (sumPrices selected)
    ∧ selected ≠ []
    ∧ fromCatalog services maxBudget (selected, sumPrices selected).
Proof.
  unfold createHeuristicPlan.
  destruct (detectTasks (toLowerCase query)) as [|task tasks].
  - unfold createKeywordBasedPlan. apply finishPlan_selected.
    apply takeWithinBudget_fromCatalog; [|apply fromCatalog_empty].
    apply sort_scored_from.
  - pose proof (selectForTasks_fromCatalog (Number.slice maxSteps (task :: tasks))
                  services maxBudget) as Hsel.
    destruct (selectForTasks _ services maxBudget) as [selected runningCost].
    by apply finishPlan_selected.
Qed.

(** A plan of the heuristic planner has at least one step, costs no more
    than the budget and states the sum of its step costs as its estimated
    total. For a step ceiling of at least one it has no more steps than the
    ceiling rounded up to an integer, which is the ceiling itself when that
    is an integer. *)
Theorem heuristic_plan_within_budget (now : Z) (query : string)
    (services : list X402Service.t) (maxSteps : Number.t) (maxBudget : Z)
    (plan : TaskPlan.t) :
  createHeuristicPlan now query services maxSteps maxBudget = Some plan →
  TaskPlan.steps plan ≠ []
  ∧ sumCosts (TaskPlan.steps plan) ≤ maxBudget
  ∧ TaskPlan.estimatedTotalCost plan = sumCosts (TaskPlan.steps plan)
  ∧ (∀ q, maxSteps = Number.Finite q → (1 <= q)%Q →
          Z.of_nat (length (TaskPlan.steps plan)) ≤ Qceiling q)
  ∧ (∀ n, maxSteps = Number.ofZ n → 1 ≤ n →
          Z.of_nat (length (TaskPlan.steps plan)) ≤ n).
Proof.
  intros Hplan.
  destruct (createHeuristicPlan_within _ _ _ _ _ _ Hplan) as (Hcost & Htotal & Hcount).
  apply createHeuristicPlan_selected in Hplan as (selected & -> & Hne & _).
  split; [|split; [exact Hcost|split; [exact Htotal|split; [exact Hcount|]]]].
  - unfold makePlan. cbn [TaskPlan.steps]. destruct selected; [done|discriminate].
  - intros n -> Hn. rewrite <- (Qceiling_Z n). apply Hcount; [reflexivity|].
    change (1%Q) with (inject_Z 1). by rewrite <- Zle_Qle.
Qed.



Lemma stepName_inj (i j : nat) : stepName i = stepName j → i = j.
Proof.
  unfold stepName. intros H. apply String.app_inj in H.
  apply decimal_inj in H. lia.
Qed.

(** The steps of a heuristic plan have pairwise distinct ids. *)
Theorem heuristic_plan_step_ids_distinct (now : Z) (query : string)
    (services : list X402Service.t) (maxSteps : Number.t) (maxBudget : Z)
    (plan : TaskPlan.t) :
  createHeuristicPlan now query services maxSteps maxBudget = Some plan →
  NoDup (map TaskStep.id (TaskPlan.steps plan)).
Proof.
  intros (selected & -> & _)%createHeuristicPlan_selected.
  unfold makePlan. cbn [TaskPlan.steps].
  apply NoDup_alt. intros i j id Hi Hj.
  rewrite list_lookup_fmap, list_lookup_imap in Hi, Hj.
  destruct (selected !! i); [|done]. destruct (selected !! j); [|done].
  simpl in Hi, Hj. apply stepName_inj. congruence.
Qed.

(** The tasks detected in a query are task patterns that match it, in the
    order of the pattern table, with pairwise distinct categories; there
    are at most five of them. *)
Theorem detectTasks_distinct_categories (queryLower : string) :
  NoDup (map category (detectTasks queryLower))
  ∧ (∀ task, In task (detectTasks queryLower) →
             In task taskPatterns ∧ Regex.test (pattern task) queryLower = true)
  ∧ (length (detectTasks queryLower) ≤ 5)%nat.
Proof.
  unfold detectTasks.
  set (step := fun (detected : list TaskPattern) (task : TaskPattern) => _).
  assert (Hgen : ∀ patterns detected,
            NoDup (map category detected) →
            NoDup (map category (fold_left step patterns detected))
            ∧ ∀ task, In task (fold_left step patterns detected) →
                      In task detected
                      ∨ (In task patterns ∧ Regex.test (pattern task) queryLower = true)).
  { induction patterns as [|p patterns IH]; intros detected Hnodup; simpl; [auto|].
    assert (Hstep : NoDup (map category (step detected p))
                    ∧ ∀ task, In task (step detected p) →
                              In task detected
                              ∨ (task = p ∧ Regex.test (pattern task) queryLower = true)).
    { unfold step. destruct (Regex.test (pattern p) queryLower) eqn:Htest; [|auto].
      destruct (existsb _ detected) eqn:Hseen; [auto|]. split.
      - rewrite map_app. simpl. apply NoDup_app. split; [exact Hnodup|].
        split; [|apply NoDup_singleton].
        intros c Hc ->%list_elem_of_singleton.
        apply list_elem_of_In, in_map_iff in Hc as (t & Hcat & Ht).
        assert (existsb (fun t => String.eqb (category t) (category p)) detected = true);
          [|congruence].
        apply existsb_exists. exists t. split; [exact Ht|]. by apply String.eqb_eq.
      - intros task [Hin|[<-|[]]]%in_app_or; auto. }
    destruct Hstep as [Hnodup' Hfrom]. destruct (IH _ Hnodup') as [Hres Hin].
    split; [exact Hres|]. intros task Htask.
    destruct (Hin task Htask) as [Hd|[Hp Ht]]; [|right; split; [by right|exact Ht]].
    destruct (Hfrom task Hd) as [Hd'|[-> Ht]]; [by left|right; split; [by left|exact Ht]]. }
  destruct (Hgen taskPatterns [] (NoDup_nil_2 (A:=string))) as [Hnodup Hin].
  split; [exact Hnodup|]. split.
  - intros task Htask. by destruct (Hin task Htask) as [[]|?].
  - rewrite <- (length_map category).
    change 5%nat with (length categories).
    apply NoDup_incl_length; [by apply NoDup_ListNoDup|].
    intros c (task & <- & Htask)%in_map_iff.
    destruct (Hin task Htask) as [[]|[Hp _]].
    assert (Hcats : forallb (fun t => existsb (String.eqb (category t)) categories)
                      taskPatterns = true) by (vm_compute; reflexivity).
    rewrite forallb_forall in Hcats.
    specialize (Hcats task Hp).
    apply existsb_exists in Hcats as (c & Hc & ->%String.eqb_eq). exact Hc.
Qed.



End PlannerMore.

(** ** More of the Pipeline Orchestrator *)

Section OrchestratorMore.
Import Orchestrator Trace.

Variable startOfDay : Z → Z.
Variable formatSTX : Z → string.
Variable config : Config.
Variable world : World.

(** One step and the ledger: a step that returns has found its service in
    the catalog and recorded one payment at that service's price; a step
    that throws leaves the ledger as it was. *)
Lemma executeStep_ledger (index : nat) (step : TaskStep.t) (context : ExecutionContext.t)
    (allServices : list X402Service.t) (st : State) :
  let run := executeStep config world index step context allServices st in
  match snd run with
  | Ok result =>
      ∃ service r,
        serviceOf allServices step = Some service
        ∧ Spending.records (spending (fst run)) = Spending.records (spending st) ++ [r]
        ∧ recordOf service r
        ∧ Spending.timestamp r = paidAt world index
        ∧ StepResult.cost result = Some (X402Service.cost service)
        ∧ StepResult.stepId result = TaskStep.id step
        ∧ StepResult.success result = true
  | Throw _ => Spending.records (spending (fst run)) = Spending.records (spending st)
  end
  ∧ Spending.maxPerTask (spending (fst run)) = Spending.maxPerTask (spending st)
  ∧ Spending.maxPerDay (spending (fst run)) = Spending.maxPerDay (spending st).
Proof.
  unfold executeStep, serviceOf.
  destruct (find _ allServices) as [service|] eqn:Hfind; [|by simpl].
  unfold Payment.executePayment.
  destruct (negb (Wallet.hasSufficientBalance _ _ _)); [by simpl|].
  destruct (httpAt world index _) as [data txId|e1 e2 e3]; [|by simpl].
  simpl. split; [|done]. eexists service, _. split; [reflexivity|].
  split; [reflexivity|]. by repeat split.
Qed.

(** The loop and the ledger. *)
Lemma runSteps_ledger (steps : list TaskStep.t) :
  ∀ (index total : nat) (allServices : list X402Service.t)
    (context : ExecutionContext.t) (st : State),
    let run := runSteps config world steps index total allServices context st in
    ∃ added,
      Spending.records (spending (fst run)) = Spending.records (spending st) ++ added
      ∧ Spending.maxPerTask (spending (fst run)) = Spending.maxPerTask (spending st)
      ∧ Spending.maxPerDay (spending (fst run)) = Spending.maxPerDay (spending st)
      ∧ (∀ r, In r added → ∃ service, In service allServices ∧ recordOf service r)
      ∧ ∀ context', snd run = Ok context' →
          ∃ results,
            ExecutionContext.results context' = ExecutionContext.results context ++ results
            ∧ map StepResult.stepId results = map TaskStep.id steps
            ∧ ExecutionContext.totalSpent context' =
                ExecutionContext.totalSpent context + sumResultCosts results
            ∧ sumResultCosts results = Spending.sumAmounts added.
Proof.
  induction steps as [|step rest IH]; intros index total allServices context st.
  - exists []. simpl. rewrite app_nil_r. repeat split; [done|].
    intros context' [= <-]. exists []. simpl. rewrite app_nil_r.
    repeat split. lia.
  - cbn [runSteps].
    pose proof (executeStep_ledger index step context allServices
                  (emit (onStepStart step index total) st)) as Hstep.
    destruct (executeStep config world index step context allServices
                (emit (onStepStart step index total) st)) as [st2 [result|message]];
      cbn [fst snd emit spending] in Hstep.
    + destruct Hstep as ((service & r & Hfind & Hrec & Hof & _ & Hcost & Hid & _) & Hpt & Hpd).
      destruct (IH (S index) total allServices (stepDone index result context)
                   (emit (onStepComplete step result) st2))
        as (added & Hadded & Hpt' & Hpd' & Hfrom & Hok).
      cbn [emit spending] in *.
      exists (r :: added). rewrite Hadded, Hrec, <- app_assoc.
      split; [reflexivity|]. split; [congruence|]. split; [congruence|]. split.
      * intros r' [<-|Hr']; [|by apply Hfrom].
        exists service. split; [|exact Hof].
        unfold serviceOf, find in Hfind. by apply List.find_some in Hfind as [Hin _].
      * intros context' Hrun. destruct (Hok context' Hrun) as (results & Hres & Hids & Htotal & Hsum).
        exists (result :: results). cbn [stepDone ExecutionContext.results
                                         ExecutionContext.totalSpent] in Hres, Htotal.
        rewrite Hres, <- app_assoc. split; [reflexivity|].
        split; [simpl; congruence|].
        unfold sumResultCosts in *. cbn [foldr]. rewrite Htotal, Hsum, Hcost.
        rewrite sumAmounts_cons. destruct Hof as (_ & _ & -> & _). simpl. lia.
    + destruct Hstep as (Hrec & Hpt & Hpd).
      destruct (TaskStep.isRequired step).
      * exists []. cbn [fst snd emit spending]. rewrite app_nil_r.
        repeat split; try done.
      * destruct (IH (S index) total allServices (stepFailed step message context)
                     (emit (onStepError step message) st2))
          as (added & Hadded & Hpt' & Hpd' & Hfrom & Hok).
        cbn [emit spending] in *.
        exists added. rewrite Hadded, Hrec.
        split; [reflexivity|]. split; [congruence|]. split; [congruence|].
        split; [exact Hfrom|].
        intros context' Hrun. destruct (Hok context' Hrun) as (results & Hres & Hids & Htotal & Hsum).
        exists (errorResult step message :: results).
        cbn [stepFailed ExecutionContext.results ExecutionContext.totalSpent] in Hres, Htotal.
        rewrite Hres, <- app_assoc. split; [reflexivity|].
        split; [simpl; congruence|].
        unfold sumResultCosts in *. cbn [foldr errorResult StepResult.cost default].
        rewrite Htotal, Hsum. lia.
Qed.

Lemma started_app (a b : list Action) : started (a ++ b) = started a ++ started b.
Proof.
  induction a as [|[] a IH]; simpl; [reflexivity|..]; try exact IH. by rewrite IH.
Qed.

Lemma called_app (a b : list Action) : called (a ++ b) = called a ++ called b.
Proof.
  induction a as [|[] a IH]; simpl; [reflexivity|..]; try exact IH. by rewrite IH.
Qed.

(** One step and the log: at most one payment call, to the service that the
    step resolves to. *)
Lemma executeStep_log (index : nat) (step : TaskStep.t) (context : ExecutionContext.t)
    (allServices : list X402Service.t) (st : State) :
  let run := executeStep config world index step context allServices st in
  ∃ new,
    log (fst run) = log st ++ new
    ∧ started new = []
    ∧ match serviceOf allServices step with
      | Some service => called new = [service]
      | None => called new = [] ∧ ∃ message, snd run = Throw message
      end.
Proof.
  unfold executeStep, serviceOf.
  destruct (find _ allServices) as [service|].
  - exists [paymentCall index service
              (interpolateRequest (ExecutionContext.variables context)
                                  (TaskStep.requestData step))].
    destruct (Payment.executePayment _ _ _ service _) as [payment data].
    by destruct (negb (PaymentResult.success payment)).
  - exists []. simpl. rewrite app_nil_r. eauto.
Qed.

(** The loop and the log: the steps are started in the order of the plan,
    numbered from [index] on, all of them when the loop comes to its end;
    every payment call goes to the catalog service of a started step. *)
Lemma runSteps_log (steps : list TaskStep.t) :
  ∀ (index total : nat) (allServices : list X402Service.t)
    (context : ExecutionContext.t) (st : State),
    let run := runSteps config world steps index total allServices context st in
    ∃ new,
      log (fst run) = log st ++ new
      ∧ started new `prefix_of` numbered index steps
      ∧ (∀ context', snd run = Ok context' → started new = numbered index steps)
      ∧ called new `sublist_of` omap (serviceOf allServices) (map fst (started new)).
Proof.
  induction steps as [|step rest IH]; intros index total allServices context st.
  - exists []. simpl. rewrite app_nil_r. repeat split; done.
  - cbn [runSteps].
    destruct (executeStep_log index step context allServices
                (emit (onStepStart step index total) st)) as (new & Hnew & Hstarted & Hcalled).
    destruct (executeStep config world index step context allServices
                (emit (onStepStart step index total) st)) as [st2 out].
    cbn [fst snd emit log] in Hnew, Hcalled.
    assert (Hhead : called ([onStepStart step index total] ++ new)
                      `sublist_of` omap (serviceOf allServices) [step]).
    { rewrite called_app. simpl.
      destruct (serviceOf allServices step) as [service|].
      - by rewrite Hcalled.
      - destruct Hcalled as [-> _]. constructor. }
    assert (Hstop : ∀ a,
              called a = [] → started a = [] →
              ∃ new', log st2 ++ a = log st ++ new'
                      ∧ started new' `prefix_of` numbered index (step :: rest)
                      ∧ called new' `sublist_of`
                          omap (serviceOf allServices) (map fst (started new'))).
    { intros a Hca Hsa. exists (([onStepStart step index total] ++ new) ++ a).
      rewrite Hnew, <- !app_assoc. split; [reflexivity|].
      rewrite !started_app, !called_app, Hstarted, Hca, Hsa, !app_nil_r. simpl.
      split; [by apply prefix_cons, prefix_nil|].
      rewrite called_app in Hhead. simpl in Hhead. exact Hhead. }
    assert (Hgo : ∀ a context2,
              called a = [] → started a = [] →
              let run := runSteps config world rest (S index) total allServices context2
                           {| spending := spending st2; memory := memory st2;
                              log := log st2 ++ a |} in
              ∃ new',
                log (fst run) = log st ++ new'
                ∧ started new' `prefix_of` numbered index (step :: rest)
                ∧ (∀ context', snd run = Ok context' →
                               started new' = numbered index (step :: rest))
                ∧ called new' `sublist_of`
                    omap (serviceOf allServices) (map fst (started new'))).
    { intros a context2 Hca Hsa run.
      destruct (IH (S index) total allServices context2
                   {| spending := spending st2; memory := memory st2; log := log st2 ++ a |})
        as (new2 & Hnew2 & Hpre & Hall & Hsub).
      fold run in Hnew2, Hall.
      exists (([onStepStart step index total] ++ new) ++ a ++ new2).
      cbn [log] in Hnew2. rewrite Hnew2, Hnew, <- !app_assoc.
      split; [reflexivity|].
      rewrite !started_app, !called_app, Hstarted, Hca, Hsa. simpl.
      split; [by apply prefix_cons|]. split.
      - intros context' Hrun. by rewrite (Hall context' Hrun).
      - simpl. destruct (serviceOf allServices step) as [service|].
        + rewrite Hcalled. simpl. apply sublist_skip. exact Hsub.
        + destruct Hcalled as [-> _]. exact Hsub. }
    destruct out as [result|message].
    + apply (Hgo [onStepComplete step result]); reflexivity.
    + destruct (TaskStep.isRequired step).
      * destruct (Hstop [onStepError step message]) as (new' & Hlog & Hpre & Hsub);
          [reflexivity..|].
        exists new'. cbn [fst snd emit log]. repeat split; try done.
      * apply (Hgo [onStepError step message]); reflexivity.
Qed.

(** A loop that comes to its end over required steps, each bound to a
    catalog service at its listed price, has spent the estimate. *)
Lemma runSteps_required (steps : list TaskStep.t) :
  ∀ (index total : nat) (allServices : list X402Service.t)
    (context : ExecutionContext.t) (st : State) (context' : ExecutionContext.t),
    snd (runSteps config world steps index total allServices context st) = Ok context' →
    (∀ step, In step steps →
             TaskStep.isRequired step = true
             ∧ ∃ service, serviceOf allServices step = Some service
                          ∧ X402Service.cost service = TaskStep.estimatedCost step) →
    ExecutionContext.totalSpent context' = ExecutionContext.totalSpent context + sumCosts steps.
Proof.
  induction steps as [|step rest IH];
    intros index total allServices context st context' Hrun Hsteps.
  - simpl in Hrun. injection Hrun as <-. simpl. lia.
  - cbn [runSteps] in Hrun.
    pose proof (executeStep_ledger index step context allServices
                  (emit (onStepStart step index total) st)) as Hstep.
    destruct (Hsteps step (or_introl eq_refl)) as (Hreq & service & Hfind & Hprice).
    destruct (executeStep config world index step context allServices
                (emit (onStepStart step index total) st)) as [st2 [result|message]];
      cbn [fst snd] in Hstep.
    + destruct Hstep as ((service' & r & Hfind' & _ & _ & _ & Hcost & _) & _).
      rewrite Hfind in Hfind'. injection Hfind' as <-.
      apply IH in Hrun; [|intros s Hs; apply Hsteps; by right].
      rewrite Hrun. cbn [stepDone ExecutionContext.totalSpent sumCosts foldr].
      rewrite Hcost. simpl. unfold sumCosts. lia.
    + rewrite Hreq in Hrun. discriminate.
Qed.

Ltac no_plan :=
  exists [], []; cbn [fst snd]; rewrite !app_nil_r;
  split; [reflexivity|]; split; [reflexivity|]; split; [reflexivity|];
  split; [intros ? []|]; split; [reflexivity|]; left; eauto.

(** What the body of the outer [try] has done to the ledger and the log. *)
Lemma tryPipeline_trace (query : string) (options : Options) (st : State) :
  let budget := Planner.orDefault (maxBudget options) (maxSpendPerTask config) in
  let planned :=
    Planner.createPlan (openai config) (aiReply world) (planTime world) query (catalog world)
      {| Planner.maxBudget := Some budget;
         Planner.maxSteps := Some (Number.orDefault (maxSteps options) (Number.ofZ 5)) |} in
  let run := tryPipeline startOfDay formatSTX config world query options st in
  ∃ added new,
    Spending.records (spending (fst run)) = Spending.records (spending st) ++ added
    ∧ Spending.maxPerTask (spending (fst run)) = Spending.maxPerTask (spending st)
    ∧ Spending.maxPerDay (spending (fst run)) = Spending.maxPerDay (spending st)
    ∧ (∀ r, In r added → ∃ service, In service (catalog world) ∧ recordOf service r)
    ∧ log (fst run) = log st ++ new
    ∧ ((new = [] ∧ added = [] ∧ ∃ message, snd run = Throw message)
       ∨ ∃ plan rest,
           new = onPlanCreated plan :: rest
           ∧ planned = Some plan
           ∧ started rest `prefix_of` numbered 0 (TaskPlan.steps plan)
           ∧ called rest `sublist_of`
               omap (serviceOf (catalog world)) (map fst (started rest))
           ∧ (Spending.allowed
                (Spending.canSpend startOfDay formatSTX (checkTime world)
                   (TaskPlan.estimatedTotalCost plan) (spending st)) = false →
              rest = [] ∧ added = [] ∧ ∃ message, snd run = Throw message)
           ∧ ∀ result, snd run = Ok result →
               Spending.allowed
                 (Spending.canSpend startOfDay formatSTX (checkTime world)
                    (TaskPlan.estimatedTotalCost plan) (spending st)) = true
               ∧ PipelineResult.plan result = Some plan
               ∧ PipelineResult.success result = true
               ∧ PipelineResult.error result = None
               ∧ started rest = numbered 0 (TaskPlan.steps plan)
               ∧ map StepResult.stepId (PipelineResult.stepResults result) =
                   map TaskStep.id (TaskPlan.steps plan)
               ∧ PipelineResult.totalCost result =
                   sumResultCosts (PipelineResult.stepResults result)
               ∧ PipelineResult.totalCost result = Spending.sumAmounts added
               ∧ ((∀ step, In step (TaskPlan.steps plan) →
                     TaskStep.isRequired step = true
                     ∧ ∃ service, serviceOf (catalog world) step = Some service
                                  ∧ X402Service.cost service = TaskStep.estimatedCost step) →
                  PipelineResult.totalCost result = sumCosts (TaskPlan.steps plan))).
Proof.
  cbv zeta. unfold tryPipeline.
  destruct (catalog world) as [|service services] eqn:Hcatalog; [no_plan|].
  rewrite <- Hcatalog in *.
  destruct (Planner.createPlan _ _ _ _ _ _) as [plan|] eqn:Hplanned; [|no_plan].
  destruct (TaskPlan.steps plan) as [|step steps] eqn:Hsteps; [no_plan|].
  rewrite <- Hsteps in *.
  cbn [emit spending].
  destruct (Spending.allowed _) eqn:Hallowed; cbn [negb].
  - match goal with
    | |- context [runSteps config world ?ss ?i ?t ?a ?c ?s] =>
        destruct (runSteps_ledger ss i t a c s)
          as (added & Hadded & Hpt & Hpd & Hfrom & Hok);
          destruct (runSteps_log ss i t a c s) as (new & Hnew & Hpre & Hall & Hsub);
          pose proof (runSteps_required ss i t a c s) as Hreq;
          destruct (runSteps config world ss i t a c s) as [st2 [context|message]]
    end; cbn [fst snd emit spending log] in *.
    + destruct (Hok context eq_refl) as (results & Hres & Hids & Htotal & Hsum).
      cbn [ExecutionContext.results ExecutionContext.totalSpent app] in Hres, Htotal.
      exists added.
      eexists (onPlanCreated plan :: new ++ [onPipelineComplete _]).
      split; [exact Hadded|]. split; [exact Hpt|]. split; [exact Hpd|].
      split; [exact Hfrom|].
      split; [rewrite Hnew, <- !app_assoc; reflexivity|].
      right. exists plan, (new ++ [onPipelineComplete
                 {| PipelineResult.pipelineId := pipelineId world;
                    PipelineResult.query := query;
                    PipelineResult.success := true;
                    PipelineResult.error := None;
                    PipelineResult.plan := Some plan;
                    PipelineResult.stepResults := ExecutionContext.results context;
                    PipelineResult.finalOutput := Some (compileFinalOutput context plan);
                    PipelineResult.totalCost := ExecutionContext.totalSpent context;
                    PipelineResult.timing := timing world |}]).
      rewrite started_app, called_app. simpl (started [_]). simpl (called [_]).
      rewrite !app_nil_r.
      split; [reflexivity|]. split; [reflexivity|]. split; [exact Hpre|].
      split; [exact Hsub|]. split; [intros Hno; congruence|].
      intros result [= <-].
      cbn [PipelineResult.plan PipelineResult.success PipelineResult.error
           PipelineResult.stepResults PipelineResult.totalCost].
      split; [exact Hallowed|]. split; [reflexivity|]. split; [reflexivity|].
      split; [reflexivity|]. split; [exact (Hall context eq_refl)|].
      rewrite Hres. split; [exact Hids|]. split; [lia|]. split; [lia|].
      intros Hbound. rewrite (Hreq context eq_refl Hbound). simpl. lia.
    + exists added, (onPlanCreated plan :: new).
      split; [exact Hadded|]. split; [exact Hpt|]. split; [exact Hpd|].
      split; [exact Hfrom|].
      split; [rewrite Hnew, <- !app_assoc; reflexivity|].
      right. exists plan, new.
      split; [reflexivity|]. split; [reflexivity|]. split; [exact Hpre|].
      split; [exact Hsub|]. split; [intros Hno; congruence|]. discriminate.
  - exists [], [onPlanCreated plan]. cbn [fst snd emit spending log].
    rewrite app_nil_r. repeat split; try done.
    right. exists plan, []. repeat split; try done.
    + apply prefix_nil.
    + eauto.
Qed.

(** the plan that a run asks the Plan Builder for *)
Local Abbreviation planned query options :=
  (Planner.createPlan (openai config) (aiReply world) (planTime world) query (catalog world)
     {| Planner.maxBudget :=
          Some (Planner.orDefault (maxBudget options) (maxSpendPerTask config));
        Planner.maxSteps := Some (Number.orDefault (maxSteps options) (Number.ofZ 5)) |}).

Ltac run_cases query options st H :=
  unfold executePipeline;
  pose proof (tryPipeline_trace query options st) as H; cbv zeta in H;
  destruct (tryPipeline startOfDay formatSTX config world query options st)
    as [? [?result|?message]]; cbn [fst snd] in *.


(** Whatever its outcome, a run only appends to the ledger, leaves the
    limits as they were, and every record it appends is a payment to a
    catalog service at that service's listed price. When the run succeeds,
    the amounts appended add up to the total cost it reports. *)
Theorem run_ledger_grows_by_catalog_payments (query : string) (options : Options)
    (st : State) :
  let run := executePipeline startOfDay formatSTX config world query options st in
  ∃ added,
    Spending.records (spending (fst run)) = Spending.records (spending st) ++ added
    ∧ Spending.maxPerTask (spending (fst run)) = Spending.maxPerTask (spending st)
    ∧ Spending.maxPerDay (spending (fst run)) = Spending.maxPerDay (spending st)
    ∧ (∀ r, In r added → ∃ service, In service (catalog world) ∧ recordOf service r)
    ∧ (PipelineResult.success (snd run) = true →
       PipelineResult.totalCost (snd run) = Spending.sumAmounts added).
Proof.
  run_cases query options st Htrace;
    destruct Htrace as (added & new & Hadded & Hpt & Hpd & Hfrom & _ & Hcases);
    exists added; repeat split; try assumption; [|discriminate].
  intros _. destruct Hcases as [(_ & _ & m & [=])|Hplan].
  destruct Hplan as (plan & rest & _ & _ & _ & _ & _ & Hok).
  by destruct (Hok result eq_refl) as (_ & _ & _ & _ & _ & _ & _ & Hsum & _).
Qed.

(** The loop starts its first step before anything else. *)
Lemma runSteps_first (step : TaskStep.t) (rest : list TaskStep.t) (index total : nat)
    (allServices : list X402Service.t) (context : ExecutionContext.t) (st : State) :
  ∃ after,
    log (fst (runSteps config world (step :: rest) index total allServices context st)) =
    log st ++ onStepStart step index total :: after.
Proof.
  cbn [runSteps].
  destruct (executeStep_log index step context allServices
              (emit (onStepStart step index total) st)) as (new & Hnew & _).
  destruct (executeStep config world index step context allServices
              (emit (onStepStart step index total) st)) as [st2 [result|message]];
    cbn [fst emit log] in Hnew.
  - destruct (runSteps_log rest (S index) total allServices (stepDone index result context)
                (emit (onStepComplete step result) st2)) as (new2 & Hnew2 & _).
    exists (new ++ onStepComplete step result :: new2).
    rewrite Hnew2. cbn [emit log]. rewrite Hnew. by rewrite <- !app_assoc.
  - destruct (TaskStep.isRequired step).
    + exists (new ++ [onStepError step message]).
      cbn [fst emit log]. rewrite Hnew. by rewrite <- !app_assoc.
    + destruct (runSteps_log rest (S index) total allServices
                  (stepFailed step message context)
                  (emit (onStepError step message) st2)) as (new2 & Hnew2 & _).
      exists (new ++ onStepError step message :: new2).
      rewrite Hnew2. cbn [emit log]. rewrite Hnew. by rewrite <- !app_assoc.
Qed.

(** When a run announces its plan, and what follows at once. *)
Lemma tryPipeline_announces (query : string) (options : Options) (st : State) :
  let run := tryPipeline startOfDay formatSTX config world query options st in
  (catalog world = [] ∨ planned query options = None
   ∨ (∃ plan, planned query options = Some plan ∧ TaskPlan.steps plan = []) →
   log (fst run) = log st ∧ ∃ message, snd run = Throw message)
  ∧ (∀ plan, catalog world ≠ [] → planned query options = Some plan →
             TaskPlan.steps plan ≠ [] →
       ∃ rest,
         log (fst run) = log st ++ onPlanCreated plan :: rest
         ∧ if Spending.allowed
                (Spending.canSpend startOfDay formatSTX (checkTime world)
                   (TaskPlan.estimatedTotalCost plan) (spending st))
           then ∃ first after,
                  head (TaskPlan.steps plan) = Some first
                  ∧ rest = onStepStart first 0 (length (TaskPlan.steps plan)) :: after
           else rest = []).
Proof.
  cbv zeta. unfold tryPipeline. split.
  - intros Hnone.
    destruct (catalog world) as [|service services]; [cbn; eauto|].
    destruct (Planner.createPlan _ _ _ _ _ _) as [plan|]; [|cbn; eauto].
    destruct (TaskPlan.steps plan) as [|step steps] eqn:Hsteps; [cbn; eauto|].
    destruct Hnone as [[=]|[[=]|(plan' & [= <-] & Hempty)]]. congruence.
  - intros plan Hcatalog Hplanned Hsteps.
    destruct (catalog world) as [|service services] eqn:Hservices; [done|].
    rewrite Hplanned.
    destruct (TaskPlan.steps plan) as [|step steps] eqn:Hplan; [done|].
    cbn [emit spending].
    destruct (Spending.allowed _); cbn [negb].
    + match goal with
      | |- context [runSteps config world ?ss ?i ?t ?a ?c ?s] =>
          destruct (runSteps_first step steps i t a c s) as (after & Hfirst);
            destruct (runSteps config world ss i t a c s) as [st2 [context|message]]
      end; cbn [fst snd emit log] in *.
      * exists (onStepStart step 0 (length (step :: steps)) :: after ++
                [onPipelineComplete
                   {| PipelineResult.pipelineId := pipelineId world;
                      PipelineResult.query := query;
                      PipelineResult.success := true;
                      PipelineResult.error := None;
                      PipelineResult.plan := Some plan;
                      PipelineResult.stepResults := ExecutionContext.results context;
                      PipelineResult.finalOutput := Some (compileFinalOutput context plan);
                      PipelineResult.totalCost := ExecutionContext.totalSpent context;
                      PipelineResult.timing := timing world |}]).
        rewrite Hfirst. split; [|by eauto].
        rewrite <- !app_assoc. reflexivity.
      * exists (onStepStart step 0 (length (step :: steps)) :: after).
        rewrite Hfirst. split; [|by eauto].
        rewrite <- !app_assoc. reflexivity.
    + exists []. by cbn [fst emit log].
Qed.

(** A run announces a plan exactly when the catalog is not empty and the
    Plan Builder returns a plan with a step; otherwise it fails without
    anything that an observer sees. After the announcement, a plan that the
    ledger refuses is followed by nothing; a plan that it admits is followed
    at once by the start of its first step, numbered 0 of the number of its
    steps. The steps are started in plan order, numbered from 0 without a
    gap, all of them when the run succeeds; the payment calls go, in that
    order and at most one per started step, to the catalog service that the
    step names. *)
Theorem run_starts_steps_in_plan_order (query : string) (options : Options) (st : State) :
  let run := executePipeline startOfDay formatSTX config world query options st in
  (catalog world = [] ∨ planned query options = None
   ∨ (∃ plan, planned query options = Some plan ∧ TaskPlan.steps plan = []) →
   log (fst run) = log st ∧ PipelineResult.success (snd run) = false)
  ∧ (∀ plan, catalog world ≠ [] → planned query options = Some plan →
             TaskPlan.steps plan ≠ [] →
       ∃ rest,
         log (fst run) = log st ++ onPlanCreated plan :: rest
         ∧ (if Spending.allowed
                 (Spending.canSpend startOfDay formatSTX (checkTime world)
                    (TaskPlan.estimatedTotalCost plan) (spending st))
            then ∃ first after,
                   head (TaskPlan.steps plan) = Some first
                   ∧ rest = onStepStart first 0 (length (TaskPlan.steps plan)) :: after
            else rest = [] ∧ PipelineResult.success (snd run) = false)
         ∧ started rest `prefix_of` numbered 0 (TaskPlan.steps plan)
         ∧ (PipelineResult.success (snd run) = true →
            started rest = numbered 0 (TaskPlan.steps plan))
         ∧ called rest `sublist_of`
             omap (serviceOf (catalog world)) (map fst (started rest))).
Proof.
  pose proof (tryPipeline_announces query options st) as [Hnone Hsome]. cbv zeta in *.
  run_cases query options st Htrace;
    destruct Htrace as (added & new & _ & _ & _ & _ & Hlog & Hcases); split.
  - intros Hno. destruct (Hnone Hno) as (_ & m & [=]).
  - intros plan Hcatalog Hplanned Hsteps.
    destruct (Hsome plan Hcatalog Hplanned Hsteps) as (rest & Hrest & Hnext).
    exists rest. split; [exact Hrest|].
    destruct Hcases as [(_ & _ & m & [=])|Hplan].
    destruct Hplan as (plan' & rest' & -> & Hplanned' & Hpre & Hsub & Hrefused & Hok).
    rewrite Hplanned in Hplanned'. injection Hplanned' as <-.
    rewrite Hlog in Hrest. apply app_inv_head in Hrest. injection Hrest as ->.
    destruct (Hok result eq_refl) as (Hallowed & _ & _ & _ & Hall & _).
    rewrite Hallowed in Hnext |- *. by repeat split.
  - intros Hno. destruct (Hnone Hno) as (Hsame & _). by split.
  - intros plan Hcatalog Hplanned Hsteps.
    destruct (Hsome plan Hcatalog Hplanned Hsteps) as (rest & Hrest & Hnext).
    exists rest. split; [exact Hrest|].
    destruct Hcases as [(-> & _)|Hplan].
    { rewrite app_nil_r in Hlog. rewrite Hlog in Hrest.
      apply (f_equal length) in Hrest. rewrite length_app in Hrest. simpl in Hrest. lia. }
    destruct Hplan as (plan' & rest' & -> & Hplanned' & Hpre & Hsub & _).
    rewrite Hplanned in Hplanned'. injection Hplanned' as <-.
    rewrite Hlog in Hrest. apply app_inv_head in Hrest. injection Hrest as ->.
    split; [|by repeat split].
    destruct (Spending.allowed _); [exact Hnext|by split].
Qed.

(** A run whose plan the ledger refuses starts no step, calls for no
    payment and leaves the ledger as it was. *)
Theorem refused_plan_pays_nothing (query : string) (options : Options) (st : State)
    (plan : TaskPlan.t) :
  let run := executePipeline startOfDay formatSTX config world query options st in
  planned query options = Some plan →
  Spending.allowed
    (Spending.canSpend startOfDay formatSTX (checkTime world)
       (TaskPlan.estimatedTotalCost plan) (spending st)) = false →
  Spending.records (spending (fst run)) = Spending.records (spending st)
  ∧ PipelineResult.success (snd run) = false
  ∧ (log (fst run) = log st ∨ log (fst run) = log st ++ [onPlanCreated plan]).
Proof.
  run_cases query options st Htrace; intros Hplanned Hrefused;
    destruct Htrace as (added & new & Hadded & _ & _ & _ & Hlog & Hcases).
  - destruct Hcases as [(_ & _ & m & [=])|Hplan].
    destruct Hplan as (plan' & rest & _ & Hplanned' & _ & _ & _ & Hok).
    rewrite Hplanned in Hplanned'. injection Hplanned' as <-.
    destruct (Hok result eq_refl) as [Hallowed _]. congruence.
  - destruct Hcases as [(-> & -> & _)|Hplan].
    + rewrite app_nil_r in Hadded, Hlog. auto.
    + destruct Hplan as (plan' & rest & -> & Hplanned' & _ & _ & Hno & _).
      rewrite Hplanned in Hplanned'. injection Hplanned' as <-.
      destruct (Hno Hrefused) as (-> & -> & _). rewrite app_nil_r in Hadded. auto.
Qed.



End OrchestratorMore.

(** ** The single-task agent *)

Section AgentFacts.
Import Agent.

Context {Confidence : Type}.
Variable certain fallback : Confidence.
Variable startOfDay : Z → Z.
Variable formatSTX : Z → string.
Variable extractContextData : JSON → outcome JSON.
Variable config : Orchestrator.Config.
Variable world : World (Confidence := Confidence).

Local Abbreviation executeTask :=
  (Agent.executeTask certain fallback startOfDay formatSTX extractContextData config world).

Lemma selectService_some (answer : Selector.AIReasoning)
    (availableServices : list X402Service.t) (selection : Selector.ServiceSelection) :
  Selector.selectService certain fallback answer availableServices = Some selection →
  In (Selector.service selection) availableServices
  ∧ Selector.estimatedCost selection = X402Service.cost (Selector.service selection).
Proof.
  unfold Selector.selectService.
  destruct availableServices as [|first [|second rest]]; [done|intros [= <-]; simpl; auto|].
  destruct (find _ (first :: second :: rest)) as [selected|] eqn:Hfound;
    intros [= <-]; simpl; [|auto].
  split; [|reflexivity]. unfold find in Hfound.
  by apply List.find_some in Hfound as [Hin _].
Qed.

(** A task that succeeds has paid exactly one service: one that the search
    found (or, when the search found none, one of the catalog), priced within
    the task budget, admitted by the ledger's per-task and daily limits and
    covered by the wallet; the ledger holds one more record, for that
    service at its listed price. *)
Theorem executeTask_success_pays_one_service (query : string) (options : Options)
    (spending : Spending.SpendingTracker) :
  let run := executeTask query options spending in
  TaskResult.success (snd run) = true →
  ∃ service r,
    TaskResult.service (snd run) = Some service
    ∧ In service (candidates world query)
    ∧ X402Service.cost service
        ≤ Planner.orDefault (maxBudget options) (Orchestrator.maxSpendPerTask config)
    ∧ X402Service.cost service ≤ Spending.maxPerTask spending
    ∧ Spending.getTodaySpent startOfDay (checkTime world) spending + X402Service.cost service
        ≤ Spending.maxPerDay spending
    ∧ Wallet.hasSufficientBalance (balances world) (X402Service.cost service)
        (Price.asset (X402Service.price service)) = true
    ∧ Spending.records (fst run) = Spending.records spending ++ [r]
    ∧ Trace.recordOf service r
    ∧ Spending.timestamp r = paidTime world
    ∧ TaskResult.error (snd run) = None.
Proof.
  unfold Agent.executeTask, tryTask, candidates.
  set (found := Discovery.searchServices query (searched world)).
  set (services := match found with [] => catalog world | _ => found end).
  assert (Hservices : match found with
                      | [] => match catalog world with
                              | [] => Throw "No x402 services available"
                              | all => Ok all
                              end
                      | _ :: _ => Ok found
                      end = Ok services
                      ∨ ∃ m, match found with
                             | [] => match catalog world with
                                     | [] => Throw "No x402 services available"
                                     | all => Ok all
                                     end
                             | _ :: _ => Ok found
                             end = @Throw (list X402Service.t) m).
  { subst services. destruct found; [destruct (catalog world)|]; eauto. }
  destruct Hservices as [->|[m ->]]; [|discriminate].
  destruct (List.filter _ services) as [|a affordable] eqn:Haffordable; [discriminate|].
  destruct (Selector.selectService _ _ _ _) as [selection|] eqn:Hselect; [|discriminate].
  apply selectService_some in Hselect as [Hin Hcost].
  rewrite <- Haffordable in Hin. apply filter_In in Hin as [Hin Hbudget].
  apply Z.leb_le in Hbudget.
  destruct (Spending.allowed _) eqn:Hallowed; [|discriminate]. cbn [negb].
  apply canSpend_allowed in Hallowed as [Htask Hday]. rewrite Hcost in Htask, Hday.
  destruct (match context options with Some _ => _ | None => _ end) as [requestData|m];
    [|discriminate].
  unfold Payment.executePayment.
  destruct (Wallet.hasSufficientBalance _ _ _) eqn:Hbalance; [|discriminate]. cbn [negb].
  destruct (http world _) as [data txId|e1 e2 e3]; [|discriminate].
  cbn. intros _. eexists (Selector.service selection), _.
  split; [reflexivity|]. split; [exact Hin|]. split; [exact Hbudget|].
  split; [exact Htask|]. split; [exact Hday|]. split; [exact Hbalance|].
  split; [reflexivity|]. by repeat split.
Qed.

(** A task that fails, for whatever reason, leaves the ledger as it was and
    reports an error, with no service, no payment and no data. *)
Theorem executeTask_failure_leaves_ledger (query : string) (options : Options)
    (spending : Spending.SpendingTracker) :
  let run := executeTask query options spending in
  TaskResult.success (snd run) = false →
  fst run = spending
  ∧ is_Some (TaskResult.error (snd run))
  ∧ TaskResult.service (snd run) = None
  ∧ TaskResult.payment (snd run) = None
  ∧ TaskResult.data (snd run) = None.
Proof.
  unfold Agent.executeTask, tryTask.
  destruct (match Discovery.searchServices query (searched world) with
            | [] => _ | _ :: _ => _ end) as [services|m]; [|by eauto 10].
  destruct (List.filter _ services) as [|a affordable]; [by eauto 10|].
  destruct (Selector.selectService _ _ _ _) as [selection|]; [|by eauto 10].
  destruct (negb (Spending.allowed _)); [by eauto 10|].
  destruct (match context options with Some _ => _ | None => _ end) as [requestData|m];
    [|by eauto 10].
  destruct (Payment.executePayment _ _ _ _ _) as [payment data].
  destruct (negb (PaymentResult.success payment)); [by eauto 10|].
  discriminate.
Qed.

End AgentFacts.

(** ** The further properties at sample inputs *)

Lemma remainingToday_is_what_canSpend_allows_witness :
  let t := SampleTask.ledger in
  0 < 500 ∧ 500 ≤ Spending.maxPerTask t
  ∧ (Spending.allowed (Spending.canSpend Sample.utcDay decimal 4000 500 t) = true
     ↔ 500 ≤ Spending.remainingToday
               (Spending.limits (Spending.getSummary Sample.utcDay 4000 t))).
Proof.
  intros t.
  assert (H1 : 0 < 500) by lia.
  assert (H2 : 500 ≤ Spending.maxPerTask t) by (apply Z.leb_le; vm_compute; reflexivity).
  split; [exact H1|]. split; [exact H2|].
  pose proof (remainingToday_is_what_canSpend_allows Sample.utcDay decimal t 4000 500 H1 H2)
    as H.
  cbv zeta in H. exact (proj2 (proj2 H)).
Defined.

Lemma canSpend_then_record_within_daily_witness :
  let t := SampleTask.ledger in
  Spending.allowed (Spending.canSpend Sample.utcDay decimal 4000 500 t) = true
  ∧ Sample.utcDay 4000 ≤ 4001
  ∧ Spending.getTodaySpent Sample.utcDay 4000
      (Spending.recordPayment 4001 500 "STX" "crypto-news" "Crypto News" None t)
    ≤ Spending.maxPerDay t.
Proof.
  intros t.
  assert (H1 : Spending.allowed (Spending.canSpend Sample.utcDay decimal 4000 500 t) = true)
    by (vm_compute; reflexivity).
  assert (H2 : Sample.utcDay 4000 ≤ 4001) by (apply Z.leb_le; vm_compute; reflexivity).
  split; [exact H1|]. split; [exact H2|].
  exact (proj2 (canSpend_then_record_within_daily Sample.utcDay decimal t 4000 4001 500
                  "crypto-news" "Crypto News" None H1 H2)).
Defined.

Lemma totals_never_decrease_witness :
  let t := SampleTask.ledger in
  let t' := Spending.recordPayment 4001 500 "STX" "crypto-news" "Crypto News" None t in
  0 ≤ 500
  ∧ Spending.allTimeTotal (Spending.allTime (Spending.getSummary Sample.utcDay 4000 t))
    ≤ Spending.allTimeTotal (Spending.allTime (Spending.getSummary Sample.utcDay 4000 t')).
Proof.
  intros t t'.
  assert (H1 : 0 ≤ 500) by lia.
  split; [exact H1|].
  pose proof (totals_never_decrease Sample.utcDay t 4000 4001 500 "STX"
                "crypto-news" "Crypto News" None H1) as H.
  cbv zeta in H. exact (proj1 (proj2 H)).
Defined.

Lemma setLimits_raising_keeps_allowed_witness :
  let t := SampleTask.ledger in
  Spending.maxPerTask t ≤ 200000 ∧ Spending.maxPerDay t ≤ 2000000
  ∧ Spending.allowed (Spending.canSpend Sample.utcDay decimal 4000 500 t) = true
  ∧ Spending.allowed
      (Spending.canSpend Sample.utcDay decimal 4000 500
         (SpendingOps.setLimits (Some 200000) (Some 2000000) t)) = true.
Proof.
  intros t.
  assert (H1 : Spending.maxPerTask t ≤ 200000) by (apply Z.leb_le; vm_compute; reflexivity).
  assert (H2 : Spending.maxPerDay t ≤ 2000000) by (apply Z.leb_le; vm_compute; reflexivity).
  assert (H3 : Spending.allowed (Spending.canSpend Sample.utcDay decimal 4000 500 t) = true)
    by (vm_compute; reflexivity).
  split; [exact H1|]. split; [exact H2|]. split; [exact H3|].
  exact (proj1 (setLimits_raising_keeps_allowed Sample.utcDay decimal t 4000 500
                  200000 2000000 H1 H2 H3)).
Defined.

Lemma getRecentTransactions_newest_first_witness :
  let recent := SpendingOps.getRecentTransactions (Some 2) SampleTask.ledger in
  0 ≤ default 10 (Some 2)
  ∧ StronglySorted (fun a b => Spending.timestamp b ≤ Spending.timestamp a) recent
  ∧ length recent = 2%nat.
Proof.
  intros recent.
  assert (H1 : 0 ≤ default 10 (Some 2)) by (simpl; lia).
  split; [exact H1|].
  pose proof (getRecentTransactions_newest_first SampleTask.ledger (Some 2) H1) as H.
  cbv zeta in H. split; [exact (proj1 H)|exact (proj2 (proj2 H))].
Defined.

Lemma history_below_capacity_witness :
  let inserted := seq 0 3 in
  (length inserted ≤ History.MAX_HISTORY)%nat
  ∧ History.afterInserting inserted = rev inserted.
Proof.
  intros inserted.
  assert (H1 : (length inserted ≤ History.MAX_HISTORY)%nat)
    by (apply Nat.leb_le; vm_compute; reflexivity).
  split; [exact H1|].
  exact (proj1 (history_below_capacity inserted H1)).
Defined.

Lemma executePayment_insufficient_balance_witness :
  let http := fun _ : Payment.Request => Payment.Responds None None in
  let price := X402Service.price Sample.btcPrice in
  Wallet.hasSufficientBalance SampleTask.poor (Price.amount price) (Price.asset price) = false
  ∧ Payment.executePayment Payment.testnet SampleTask.poor http Sample.btcPrice None =
      (Payment.failed ("Insufficient " +:+ Price.asset price +:+ " balance"), None).
Proof.
  intros http price.
  assert (H1 : Wallet.hasSufficientBalance SampleTask.poor (Price.amount price)
                 (Price.asset price) = false) by (vm_compute; reflexivity).
  split; [exact H1|].
  exact (proj1 (executePayment_insufficient_balance Payment.testnet SampleTask.poor
                  http http Sample.btcPrice None H1)).
Defined.

Lemma previewPayment_ignores_fee_buffer_witness :
  let formatPrice := fun (amount : Z) (asset : string) => decimal amount +:+ " " +:+ asset in
  let http := fun _ : Payment.Request => Payment.Responds None None in
  Price.asset (X402Service.price Sample.btcPrice) = "STX"
  ∧ Preview.canAfford (Preview.previewPayment formatPrice SampleTask.poor Sample.btcPrice) = true
  ∧ PaymentResult.success
      (fst (Payment.executePayment Payment.testnet SampleTask.poor http Sample.btcPrice None))
    = false.
Proof.
  intros formatPrice http.
  assert (H1 : Price.asset (X402Service.price Sample.btcPrice) = "STX") by reflexivity.
  split; [exact H1|].
  pose proof (previewPayment_ignores_fee_buffer formatPrice Payment.testnet SampleTask.poor
                http Sample.btcPrice None H1) as H.
  cbv zeta in H. apply (proj2 H).
  split; [apply Z.leb_le|apply Z.ltb_lt]; vm_compute; reflexivity.
Defined.

Lemma heuristic_plan_within_budget_witness :
  let catalog := [Sample.news; SampleTask.archive; Sample.summarizer] in
  let plan := Planner.makePlan 1001 "latest crypto text" [Sample.news; Sample.summarizer] 1200 in
  Planner.createHeuristicPlan 1001 "latest crypto text" catalog
    (Number.Finite (3 # 2)) 1300 = Some plan
  ∧ (1 <= 3 # 2)%Q
  ∧ sumCosts (TaskPlan.steps plan) ≤ 1300
  ∧ Z.of_nat (length (TaskPlan.steps plan)) ≤ Qceiling (3 # 2)
  ∧ sumCosts (TaskPlan.steps plan) + X402Service.cost SampleTask.archive > 1300
  ∧ length (TaskPlan.steps plan) = 2%nat.
Proof.
  intros catalog plan.
  assert (H1 : Planner.createHeuristicPlan 1001 "latest crypto text" catalog
                 (Number.Finite (3 # 2)) 1300 = Some plan) by (vm_compute; reflexivity).
  assert (H2 : (1 <= 3 # 2)%Q) by (apply Qle_bool_iff; reflexivity).
  split; [exact H1|]. split; [exact H2|].
  destruct (heuristic_plan_within_budget 1001 "latest crypto text" catalog
              (Number.Finite (3 # 2)) 1300 plan H1) as (_ & Hcost & _ & Hcount & _).
  split; [exact Hcost|]. split; [exact (Hcount (3 # 2) eq_refl H2)|].
  split; [vm_compute; reflexivity|reflexivity].
Defined.


Lemma heuristic_plan_step_ids_distinct_witness :
  Planner.createHeuristicPlan 1001 "Summarize today's news"
    [Sample.news; Sample.summarizer] (Number.ofZ 5) 100000 = Some SampleTask.newsPlan
  ∧ map TaskStep.id (TaskPlan.steps SampleTask.newsPlan) = ["step-1"; "step-2"]
  ∧ NoDup (map TaskStep.id (TaskPlan.steps SampleTask.newsPlan)).
Proof.
  assert (H1 : Planner.createHeuristicPlan 1001 "Summarize today's news"
                 [Sample.news; Sample.summarizer] (Number.ofZ 5) 100000 =
               Some SampleTask.newsPlan) by (vm_compute; reflexivity).
  split; [exact H1|]. split; [vm_compute; reflexivity|].
  exact (heuristic_plan_step_ids_distinct 1001 "Summarize today's news"
           [Sample.news; Sample.summarizer] (Number.ofZ 5) 100000 SampleTask.newsPlan H1).
Defined.



Lemma refused_plan_pays_nothing_witness :
  let st := Orchestrator.init SampleTask.tight in
  let run := Orchestrator.executePipeline Sample.utcDay decimal SampleTask.tight
               Sample.allPaid "Get Bitcoin price" Sample.noOptions st in
  Planner.createPlan false (Planner.AIFailure "no model") 1001 "Get Bitcoin price"
    [Sample.btcPrice]
    {| Planner.maxBudget := Some 100000; Planner.maxSteps := Some (Number.ofZ 5) |} =
    Some SampleTask.btcPlan
  ∧ Spending.allowed
      (Spending.canSpend Sample.utcDay decimal 1002
         (TaskPlan.estimatedTotalCost SampleTask.btcPlan) (Orchestrator.spending st)) = false
  ∧ Spending.records (Orchestrator.spending (fst run)) = []
  ∧ PipelineResult.success (snd run) = false.
Proof.
  intros st run.
  assert (H1 : Planner.createPlan false (Planner.AIFailure "no model") 1001
                 "Get Bitcoin price" [Sample.btcPrice]
                 {| Planner.maxBudget := Some 100000; Planner.maxSteps := Some (Number.ofZ 5) |} =
               Some SampleTask.btcPlan) by (vm_compute; reflexivity).
  assert (H2 : Spending.allowed
                 (Spending.canSpend Sample.utcDay decimal 1002
                    (TaskPlan.estimatedTotalCost SampleTask.btcPlan)
                    (Orchestrator.spending st)) = false) by (vm_compute; reflexivity).
  split; [exact H1|]. split; [exact H2|].
  destruct (refused_plan_pays_nothing Sample.utcDay decimal SampleTask.tight Sample.allPaid
              "Get Bitcoin price" Sample.noOptions st SampleTask.btcPlan H1 H2)
    as (Hrecords & Hfailed & _).
  split; [exact Hrecords|exact Hfailed].
Defined.


Lemma executeTask_success_pays_one_service_witness :
  let spending := Spending.new 100000 1000000 in
  let run := Agent.executeTask 100 50 Sample.utcDay decimal Ok Sample.config
               SampleTask.paid "price" SampleTask.noOptions spending in
  TaskResult.success (snd run) = true
  ∧ ∃ service r,
      TaskResult.service (snd run) = Some service
      ∧ Spending.records (fst run) = Spending.records spending ++ [r]
      ∧ Trace.recordOf service r.
Proof.
  intros spending run.
  assert (H1 : TaskResult.success (snd run) = true) by (vm_compute; reflexivity).
  split; [exact H1|].
  destruct (executeTask_success_pays_one_service 100 50 Sample.utcDay decimal Ok
              Sample.config SampleTask.paid "price" SampleTask.noOptions spending H1)
    as (service & r & Hservice & _ & _ & _ & _ & _ & Hrecords & Hof & _).
  exists service, r. split; [exact Hservice|]. split; [exact Hrecords|exact Hof].
Defined.

Lemma executeTask_failure_leaves_ledger_witness :
  let spending := Spending.new 100000 1000000 in
  let run := Agent.executeTask 100 50 Sample.utcDay decimal Ok Sample.config
               SampleTask.unpaid "price" SampleTask.noOptions spending in
  TaskResult.success (snd run) = false
  ∧ fst run = spending
  ∧ is_Some (TaskResult.error (snd run)).
Proof.
  intros spending run.
  assert (H1 : TaskResult.success (snd run) = false) by (vm_compute; reflexivity).
  split; [exact H1|].
  destruct (executeTask_failure_leaves_ledger 100 50 Sample.utcDay decimal Ok
              Sample.config SampleTask.unpaid "price" SampleTask.noOptions spending H1)
    as (Hledger & Herror & _).
  split; [exact Hledger|exact Herror].
Defined.

Lemma searchServices_filters_catalog_witness :
  let catalog := [Sample.news; Sample.btcPrice; Sample.summarizer] in
  isASCII "Price" = true
  ∧ Discovery.searchServices "Price" catalog = [Sample.btcPrice]
  ∧ Discovery.searchServices (toUpperCase "Price") catalog =
      Discovery.searchServices "Price" catalog.
Proof.
  intros catalog.
  assert (H1 : isASCII "Price" = true) by reflexivity.
  split; [exact H1|]. split; [vm_compute; reflexivity|].
  exact (proj2 (proj2 (searchServices_filters_catalog "Price" catalog)) H1).
Defined.

Lemma run_starts_steps_in_plan_order_witness :
  let st := Orchestrator.init Sample.config in
  let run := Orchestrator.executePipeline Sample.utcDay decimal Sample.config
               SampleTask.twoPaid "Summarize today's news" Sample.noOptions st in
  let plan := SampleTask.newsPlan in
  Orchestrator.catalog SampleTask.twoPaid ≠ []
  ∧ TaskPlan.steps plan ≠ []
  ∧ ∃ rest,
      Orchestrator.log (fst run) = Orchestrator.log st ++ Orchestrator.onPlanCreated plan :: rest
      ∧ head rest = Some (Orchestrator.onStepStart (Planner.makeStep 0 Sample.news) 0 2)
      ∧ Trace.started rest =
          [(Planner.makeStep 0 Sample.news, 0%nat); (Planner.makeStep 1 Sample.summarizer, 1%nat)].
Proof.
  intros st run plan.
  assert (H1 : Orchestrator.catalog SampleTask.twoPaid ≠ []) by discriminate.
  assert (H2 : Planner.createPlan (Orchestrator.openai Sample.config)
                 (Orchestrator.aiReply SampleTask.twoPaid)
                 (Orchestrator.planTime SampleTask.twoPaid) "Summarize today's news"
                 (Orchestrator.catalog SampleTask.twoPaid)
                 {| Planner.maxBudget :=
                      Some (Planner.orDefault (Orchestrator.maxBudget Sample.noOptions)
                              (Orchestrator.maxSpendPerTask Sample.config));
                    Planner.maxSteps :=
                      Some (Number.orDefault (Orchestrator.maxSteps Sample.noOptions)
                              (Number.ofZ 5)) |} = Some plan) by (vm_compute; reflexivity).
  assert (H3 : TaskPlan.steps plan ≠ []) by discriminate.
  assert (H4 : PipelineResult.success (snd run) = true) by (vm_compute; reflexivity).
  split; [exact H1|]. split; [exact H3|].
  destruct (proj2 (run_starts_steps_in_plan_order Sample.utcDay decimal Sample.config
                     SampleTask.twoPaid "Summarize today's news" Sample.noOptions st)
              plan H1 H2 H3) as (rest & Hlog & Hnext & _ & Hall & _).
  exists rest. split; [exact Hlog|]. split; [|exact (Hall H4)].
  replace (Spending.allowed _) with true in Hnext by (vm_compute; reflexivity).
  destruct Hnext as (first & after & [= <-] & ->). reflexivity.
Defined.
